(** * LibBook: seat reservation front end

  A shallow embedding of the storage service ([services/storage]), of the
  seat map, of the student and admin dashboards, of the sign-in form, of
  the application shell and of the chat widget, followed by the properties
  of the booking engine, the offline fall-back, the layout editor and the
  access controller, and by those of the rest of the front end.

  Conventions of the embedding
  - a JavaScript string is the list of its UTF-16 code units ([jsstring]);
  - a JavaScript number that the program only uses as an integer (grid
    coordinates, rotations, hours, instants in milliseconds) is a [Z];
  - an [async] function is a computation in the monad [Async]: it threads
    the module state of [services/storage], the browser's [localStorage]
    and the log of calls made to the remote backend, and it completes
    normally or by throwing;
  - a blob of [localStorage] is kept as the typed value it encodes:
    [JSON.parse (JSON.stringify v)] gives back [v] for the records used
    here. *)

From Stdlib Require Import ZArith NArith List String Ascii Lia Sorted.
From Stdlib Require Import DecimalString DecimalZ DecimalPos.
From stdpp Require Import base list strings.

#[local] Open Scope Z_scope.

(** ** JavaScript strings and the few built-ins the program calls *)

Module Js.

Definition jsstring : Type := list N.

(** A string literal of the source. *)
Definition js (s : string) : jsstring := N_of_ascii <$> list_ascii_of_string s.

(** [a === b] on strings. *)
Definition streq (a b : jsstring) : bool := bool_decide (a = b).

(** [String.fromCharCode(n)]: the code unit [ToUint16(n)]. *)
Definition fromCharCode (n : Z) : jsstring := [Z.to_N (n mod 65536)].

(** [`${n}`] and [n.toString()] for an integer [n]. *)
Definition toString (n : Z) : jsstring := js (NilZero.string_of_int (Z.to_int n)).

(** [s.padStart(2, '0')]. *)
Definition padStart2 (s : jsstring) : jsstring :=
  match s with
  | [] => js "00"
  | [c] => js "0" ++ [c]
  | _ => s
  end.

(** The class [\s] of regular expressions, which is also what [trim]
    strips: WhiteSpace and LineTerminator code units. *)
Definition isWhiteSpace (c : N) : bool :=
  (((9 <=? c) && (c <=? 13)) || (c =? 32) || (c =? 160) || (c =? 5760)
   || ((8192 <=? c) && (c <=? 8202)) || (c =? 8232) || (c =? 8233)
   || (c =? 8239) || (c =? 8287) || (c =? 12288) || (c =? 65279))%N.

(** The class [\d]. *)
Definition isDigit (c : N) : bool := ((48 <=? c) && (c <=? 57))%N.

Fixpoint trimStart (s : jsstring) : jsstring :=
  match s with
  | c :: s' => if isWhiteSpace c then trimStart s' else s
  | [] => []
  end.

Definition trim (s : jsstring) : jsstring := rev (trimStart (rev (trimStart s))).

(** A string is falsy exactly when it is empty. *)
Definition truthy (s : jsstring) : bool :=
  match s with [] => false | _ => true end.

(** Regular expressions over code units, matched by derivatives. Only the
    operators the source's patterns use. *)
Inductive regex : Type :=
| Never
| Eps
| Class (p : N -> bool)
| Cat (r1 r2 : regex)
| Star (r : regex).

Definition Plus (r : regex) : regex := Cat r (Star r).

Fixpoint Repeat (n : nat) (r : regex) : regex :=
  match n with
  | O => Eps
  | S n' => Cat r (Repeat n' r)
  end.

Definition Chr (c : N) : regex := Class (N.eqb c).

Fixpoint nullable (r : regex) : bool :=
  match r with
  | Never => false
  | Eps => true
  | Class _ => false
  | Cat r1 r2 => nullable r1 && nullable r2
  | Star _ => true
  end.

(** Alternatives arising from the derivative of a concatenation are kept
    as a list of residual expressions. *)
Fixpoint deriv (c : N) (r : regex) : list regex :=
  match r with
  | Never => []
  | Eps => []
  | Class p => if p c then [Eps] else []
  | Cat r1 r2 =>
      ((fun d => Cat d r2) <$> deriv c r1)
        ++ (if nullable r1 then deriv c r2 else [])
  | Star r1 => (fun d => Cat d (Star r1)) <$> deriv c r1
  end.

Fixpoint matchFrom (rs : list regex) (s : jsstring) : bool :=
  match s with
  | [] => existsb nullable rs
  | c :: s' => matchFrom (concat (deriv c <$> rs)) s'
  end.

(** [/^r$/.test(s)]. *)
Definition test (r : regex) (s : jsstring) : bool := matchFrom [r] s.

(** [a < b] on strings: the first code unit that differs decides, and a
    proper prefix is the smaller one. *)
Fixpoint lt (a b : jsstring) : bool :=
  match a, b with
  | _, [] => false
  | [], _ :: _ => true
  | x :: a', y :: b' =>
      if (x <? y)%N then true
      else if (y <? x)%N then false
      else lt a' b'
  end.

(** [a <= b] and [a >= b] on strings. *)
Definition le (a b : jsstring) : bool := negb (lt b a).
Definition ge (a b : jsstring) : bool := negb (lt a b).

(** [l.join(sep)] *)
Fixpoint join (sep : jsstring) (l : list jsstring) : jsstring :=
  match l with
  | [] => []
  | [s] => s
  | s :: l' => s ++ sep ++ join sep l'
  end.

(** [l.slice(-n)]: the last [n] elements, all of them when there are fewer. *)
Definition slice_last {A : Type} (n : nat) (l : list A) : list A :=
  drop (length l - n)%nat l.

(** [o || d] on an optional string: the default replaces a missing and an
    empty string alike. *)
Definition or_default (o : option jsstring) (d : jsstring) : jsstring :=
  match o with
  | Some s => if truthy s then s else d
  | None => d
  end.

End Js.

Import Js.

(** ** types.ts *)

Inductive UserRole : Type := STUDENT | ADMIN.

Module User.
Record t : Type := mk {
  id : jsstring;
  name : jsstring;
  email : jsstring;
  password : option jsstring;
  role : UserRole;
  studentId : option jsstring;
  department : option jsstring;
  yearSection : option jsstring;
  mobile : option jsstring;
  isBlocked : bool
}.

(** [{ ...u, isBlocked: b }] *)
Definition with_isBlocked (b : bool) (u : t) : t :=
  mk (id u) (name u) (email u) (password u) (role u) (studentId u)
     (department u) (yearSection u) (mobile u) b.
End User.

Inductive SeatType : Type := STANDARD | QUIET | PC.

Module Seat.
Record t : Type := mk {
  id : jsstring;
  label : jsstring;
  type : SeatType;
  isMaintenance : bool;
  x : Z;
  y : Z;
  rotation : Z
}.

(** [{ ...s, rotation: r }] *)
Definition with_rotation (r : Z) (s : t) : t :=
  mk (id s) (label s) (type s) (isMaintenance s) (x s) (y s) r.

(** [{ ...s, type }] *)
Definition with_type (ty : SeatType) (s : t) : t :=
  mk (id s) (label s) ty (isMaintenance s) (x s) (y s) (rotation s).

(** [{ ...s, x, y, label }] *)
Definition with_position (x' y' : Z) (l : jsstring) (s : t) : t :=
  mk (id s) l (type s) (isMaintenance s) x' y' (rotation s).

(** The object after [seat.isMaintenance = !seat.isMaintenance]. *)
Definition toggled (s : t) : t :=
  mk (id s) (label s) (type s) (negb (isMaintenance s)) (x s) (y s) (rotation s).
End Seat.

Inductive BookingStatus : Type := ACTIVE | COMPLETED | CANCELLED.

#[global] Instance BookingStatus_eq_dec : EqDecision BookingStatus.
Proof. solve_decision. Defined.

Module Booking.
Record t : Type := mk {
  id : jsstring;
  seatId : jsstring;
  userId : jsstring;
  userName : jsstring;
  date : jsstring;
  startTime : jsstring;
  endTime : jsstring;
  timestamp : Z;
  status : BookingStatus
}.

(** The object after [b.status = st]. *)
Definition with_status (st : BookingStatus) (b : t) : t :=
  mk (id b) (seatId b) (userId b) (userName b) (date b) (startTime b)
     (endTime b) (timestamp b) st.
End Booking.

(** ** services/storage: the hybrid store *)

Module Storage.

(** The calls the front end makes to [API_URL]. *)
Inductive Request : Type :=
| GET_users
| GET_seats
| GET_bookings
| POST_users (user : User.t)
| PUT_users (updatedUser : User.t)
| POST_seats (seats : list Seat.t)
| POST_bookings (booking : Booking.t)
| PUT_bookings_cancel (bookingId : jsstring)
| POST_seats_toggle_maintenance (seatId : jsstring).

(** How a [fetch] ends: the promise rejects (the host is unreachable), the
    3 second timer aborts it, or the server answers with a status. *)
Inductive FetchResult : Type :=
| NetworkFailure
| Aborted
| Responded (status : Z).

(** The remote backend is an arbitrary environment: it decides how the
    [n]-th call ends and, for an answered call, what [res.json()] yields
    ([None] when the body is not JSON). *)
Record Backend : Type := {
  reply : nat -> Request -> FetchResult;
  json_users : nat -> option (list User.t);
  json_seats : nat -> option (list Seat.t);
  json_bookings : nat -> option (list Booking.t)
}.

Record Response : Type := { status : Z; call : nat }.

(** [response.ok] *)
Definition ok (r : Response) : bool := (200 <=? status r) && (status r <=? 299).

(** [localStorage], one field per key of [KEYS]; [None] is [getItem]
    returning [null]. *)
Record LocalStorage : Type := {
  libbook_users : option (list User.t);
  libbook_seats : option (list Seat.t);
  libbook_bookings : option (list Booking.t);
  libbook_current_user : option User.t
}.

(** The state an operation runs in. [INITIAL_SEATS] is the array the module
    constant denotes: [getStoredSeats] hands out that very array, so a
    mutation through it is seen by the constant. [calls] logs every
    [fetch] issued, oldest first. *)
Record World : Type := {
  isOfflineMode : bool;
  localStorage : LocalStorage;
  INITIAL_SEATS : list Seat.t;
  backend : Backend;
  calls : list Request
}.

Inductive Error : Type :=
| OfflineModeActive      (* Error("Offline Mode Active") *)
| ServerError            (* Error("Server Error") *)
| FailedToFetch          (* the TypeError of a rejected fetch *)
| AbortError             (* the DOMException of an aborted fetch *)
| SyntaxError            (* res.json() on a body that is not JSON *)
| RangeError.            (* date-fns format on an Invalid Date *)

Inductive Completion (A : Type) : Type :=
| Return (a : A)
| Throw (e : Error).
Arguments Return {A} a.
Arguments Throw {A} e.

Definition Async (A : Type) : Type := World -> Completion A * World.

#[global] Instance Async_ret : MRet Async := fun A a w => (Return a, w).

#[global] Instance Async_bind : MBind Async := fun A B k m w =>
  match m w with
  | (Return a, w') => k a w'
  | (Throw e, w') => (Throw e, w')
  end.

Definition throw {A : Type} (e : Error) : Async A := fun w => (Throw e, w).

(** [try { body } catch (e) { handler e }] *)
Definition try_catch {A : Type} (body : Async A) (handler : Error -> Async A) : Async A :=
  fun w =>
    match body w with
    | (Return a, w') => (Return a, w')
    | (Throw e, w') => handler e w'
    end.

Definition read {A : Type} (f : World -> A) : Async A := fun w => (Return (f w), w).

Definition write (f : World -> World) : Async () := fun w => (Return (), f w).

(** The world an operation leaves, and the value it resolves to. *)
Definition exec {A : Type} (m : Async A) (w : World) : World := snd (m w).
Definition result {A : Type} (m : Async A) (w : World) : Completion A := fst (m w).

Definition set_isOfflineMode (b : bool) (w : World) : World :=
  {| isOfflineMode := b; localStorage := localStorage w;
     INITIAL_SEATS := INITIAL_SEATS w; backend := backend w; calls := calls w |}.

Definition set_localStorage (ls : LocalStorage) (w : World) : World :=
  {| isOfflineMode := isOfflineMode w; localStorage := ls;
     INITIAL_SEATS := INITIAL_SEATS w; backend := backend w; calls := calls w |}.

Definition set_INITIAL_SEATS (l : list Seat.t) (w : World) : World :=
  {| isOfflineMode := isOfflineMode w; localStorage := localStorage w;
     INITIAL_SEATS := l; backend := backend w; calls := calls w |}.

Definition log_call (req : Request) (w : World) : World :=
  {| isOfflineMode := isOfflineMode w; localStorage := localStorage w;
     INITIAL_SEATS := INITIAL_SEATS w; backend := backend w;
     calls := calls w ++ [req] |}.

(** [localStorage.setItem(KEYS.X, JSON.stringify(v))] and [removeItem]. *)
Definition setItem_USERS (v : list User.t) : Async () :=
  write (fun w => set_localStorage
    {| libbook_users := Some v;
       libbook_seats := libbook_seats (localStorage w);
       libbook_bookings := libbook_bookings (localStorage w);
       libbook_current_user := libbook_current_user (localStorage w) |} w).

Definition setItem_SEATS (v : list Seat.t) : Async () :=
  write (fun w => set_localStorage
    {| libbook_users := libbook_users (localStorage w);
       libbook_seats := Some v;
       libbook_bookings := libbook_bookings (localStorage w);
       libbook_current_user := libbook_current_user (localStorage w) |} w).

Definition setItem_BOOKINGS (v : list Booking.t) : Async () :=
  write (fun w => set_localStorage
    {| libbook_users := libbook_users (localStorage w);
       libbook_seats := libbook_seats (localStorage w);
       libbook_bookings := Some v;
       libbook_current_user := libbook_current_user (localStorage w) |} w).

Definition putItem_CURRENT_USER (v : option User.t) : Async () :=
  write (fun w => set_localStorage
    {| libbook_users := libbook_users (localStorage w);
       libbook_seats := libbook_seats (localStorage w);
       libbook_bookings := libbook_bookings (localStorage w);
       libbook_current_user := v |} w).

(** *** Fallback mock data *)

Definition seat (id label : string) (ty : SeatType) (x y rotation : Z) : Seat.t :=
  Seat.mk (js id) (js label) ty false x y rotation.

Definition INITIAL_SEATS_literal : list Seat.t := [
  (* Lounge *)
  seat "s-l1" "L1" STANDARD 1 1 180;
  seat "s-l2" "L2" STANDARD 2 1 180;
  seat "s-l3" "L3" STANDARD 3 1 180;
  (* PC *)
  seat "s-pc1" "PC1" PC 9 0 180;
  seat "s-pc2" "PC2" PC 10 0 180;
  seat "s-pc3" "PC3" PC 11 0 180;
  seat "s-pc4" "PC4" PC 13 1 225;
  (* Group 1 *)
  seat "s-t1-1" "T1-A" QUIET 11 3 180;
  seat "s-t1-2" "T1-B" QUIET 11 5 0;
  seat "s-t1-3" "T1-C" QUIET 10 4 90;
  seat "s-t1-4" "T1-D" QUIET 12 4 270;
  (* Group 2 *)
  seat "s-t2-1" "T2-A" QUIET 11 7 180;
  seat "s-t2-2" "T2-B" QUIET 11 9 0;
  seat "s-t2-3" "T2-C" QUIET 10 8 90;
  seat "s-t2-4" "T2-D" QUIET 12 8 270;
  (* Carrels *)
  seat "s-c1" "C1" STANDARD 1 4 90;
  seat "s-c2" "C2" STANDARD 2 4 90;
  seat "s-c3" "C3" STANDARD 3 4 90;
  seat "s-c4" "C4" STANDARD 4 4 90;
  seat "s-c5" "C5" STANDARD 1 6 90;
  seat "s-c6" "C6" STANDARD 2 6 90;
  seat "s-c7" "C7" STANDARD 3 6 90;
  seat "s-c8" "C8" STANDARD 4 6 90;
  seat "s-c9" "C9" STANDARD 1 8 90;
  seat "s-c10" "C10" STANDARD 2 8 90;
  seat "s-c11" "C11" STANDARD 3 8 90;
  seat "s-c12" "C12" STANDARD 4 8 90
].

Definition ADMIN_USER : User.t :=
  {| User.id := js "admin-1";
     User.name := js "Library Admin";
     User.email := js "admin@library.edu";
     User.password := Some (js "admin");
     User.role := ADMIN;
     User.studentId := None;
     User.department := None;
     User.yearSection := None;
     User.mobile := None;
     User.isBlocked := false |}.

Definition DEMO_STUDENT : User.t :=
  {| User.id := js "student-1";
     User.name := js "John Doe";
     User.email := js "john@student.edu";
     User.password := Some (js "pass");
     User.role := STUDENT;
     User.studentId := Some (js "CS2024001");
     User.department := Some (js "Computer Science");
     User.yearSection := Some (js "3-A");
     User.mobile := Some (js "5550123456");
     User.isBlocked := false |}.

(** The process as the page loads it: online, with whatever [localStorage]
    earlier visits left. *)
Definition page_load (ls : LocalStorage) (be : Backend) : World :=
  {| isOfflineMode := false; localStorage := ls;
     INITIAL_SEATS := INITIAL_SEATS_literal; backend := be; calls := [] |}.

(** *** safeFetch *)

(** [await fetch(url, { ...options, signal })]: the call is logged and the
    backend decides how it ends. *)
Definition fetch (req : Request) : Async Response := fun w =>
  let n := length (calls w) in
  match reply (backend w) n req with
  | NetworkFailure => (Throw FailedToFetch, log_call req w)
  | Aborted => (Throw AbortError, log_call req w)
  | Responded st => (Return {| status := st; call := n |}, log_call req w)
  end.

Definition safeFetch (req : Request) : Async Response :=
  offline ← read isOfflineMode;
  if (offline : bool) then throw OfflineModeActive else
  try_catch
    (response ← fetch req;
     if negb (ok response) then
       if 500 <=? status response then throw ServerError
       else mret response
     else mret response)
    (fun error =>
       offline ← read isOfflineMode;
       (if negb (offline : bool) then write (set_isOfflineMode true) else mret ());;
       throw error).

(** *** Calls in flight

    [safeFetch] is itself an [async] function: a call to it tests the
    offline flag and, when the flag is not set, issues the request, all
    before its first [await]; the rest runs when the request settles. *)

Inductive InFlight : Type :=
| rejected                          (* the offline test threw: nothing was issued *)
| issued (n : nat) (req : Request). (* the [n]-th call is under way *)

(** The part of [safeFetch] before [await fetch(...)]. *)
Definition safeFetch_start (req : Request) : Async InFlight :=
  offline ← read isOfflineMode;
  if (offline : bool) then mret rejected else
  n ← read (fun w => length (calls w));
  write (log_call req);;
  mret (issued n req).

(** The [n]-th call settles: the backend decides how. *)
Definition settled (n : nat) (req : Request) : Async Response :=
  be ← read backend;
  match reply be n req with
  | NetworkFailure => throw FailedToFetch
  | Aborted => throw AbortError
  | Responded st => mret {| status := st; call := n |}
  end.

(** The part of [safeFetch] from [await fetch(...)] on. *)
Definition safeFetch_settle (c : InFlight) : Async Response :=
  match c with
  | rejected => throw OfflineModeActive
  | issued n req =>
      try_catch
        (response ← settled n req;
         if negb (ok response) then
           if 500 <=? status response then throw ServerError
           else mret response
         else mret response)
        (fun error =>
           offline ← read isOfflineMode;
           (if negb (offline : bool) then write (set_isOfflineMode true) else mret ());;
           throw error)
  end.

(** [await res.json()] at each of the three collection types. *)
Definition res_json {A : Type} (body : Backend -> nat -> option A) (res : Response) : Async A :=
  be ← read backend;
  match body be (call res) with
  | Some v => mret v
  | None => throw SyntaxError
  end.

(** *** Hybrid data access layers

    An [async] function runs synchronously up to its first [await]. For
    the three reads that is the [await safeFetch(...)]: each is written as
    its body around the promise this call returned ([..._after]), so that
    [Promise.all] can start several reads before any of them goes on. *)

Definition getStoredUsers_after (response : Async Response) : Async (list User.t) :=
  try_catch
    (res ← response;
     res_json json_users res)
    (fun _ =>
       stored ← read (fun w => libbook_users (localStorage w));
       match stored with
       | None =>
           let initial := [ADMIN_USER; DEMO_STUDENT] in
           setItem_USERS initial;;
           mret initial
       | Some users => mret users
       end).

Definition getStoredUsers : Async (list User.t) :=
  getStoredUsers_after (safeFetch GET_users).

(** The array [getStoredSeats] resolves to: a fresh one, built by
    [res.json()] or [JSON.parse], or the constant [INITIAL_SEATS] itself. *)
Inductive SeatArray : Type :=
| FreshSeats (seats : list Seat.t)
| TheInitialSeats.

Definition getStoredSeats_array_after (response : Async Response) : Async SeatArray :=
  try_catch
    (res ← response;
     seats ← res_json json_seats res;
     mret (FreshSeats seats))
    (fun _ =>
       stored ← read (fun w => libbook_seats (localStorage w));
       match stored with
       | None =>
           initial ← read INITIAL_SEATS;
           setItem_SEATS initial;;
           mret TheInitialSeats
       | Some seats => mret (FreshSeats seats)
       end).

Definition getStoredSeats_array : Async SeatArray :=
  getStoredSeats_array_after (safeFetch GET_seats).

Definition elements (a : SeatArray) : Async (list Seat.t) :=
  match a with
  | FreshSeats seats => mret seats
  | TheInitialSeats => read INITIAL_SEATS
  end.

(** An in-place update of the array's elements. *)
Definition assign (a : SeatArray) (seats : list Seat.t) : Async () :=
  match a with
  | FreshSeats _ => mret ()
  | TheInitialSeats => write (set_INITIAL_SEATS seats)
  end.

Definition getStoredSeats_after (response : Async Response) : Async (list Seat.t) :=
  a ← getStoredSeats_array_after response;
  elements a.

Definition getStoredSeats : Async (list Seat.t) :=
  a ← getStoredSeats_array;
  elements a.

Definition getStoredBookings_after (response : Async Response) : Async (list Booking.t) :=
  try_catch
    (res ← response;
     res_json json_bookings res)
    (fun _ =>
       stored ← read (fun w => libbook_bookings (localStorage w));
       mret (default [] stored)).

Definition getStoredBookings : Async (list Booking.t) :=
  getStoredBookings_after (safeFetch GET_bookings).

(** *** Hybrid mutations *)

Definition saveUser (user : User.t) : Async () :=
  try_catch
    (_ ← safeFetch (POST_users user);
     mret ())
    (fun _ =>
       users ← getStoredUsers;
       setItem_USERS (users ++ [user])).

Definition updateUser (updatedUser : User.t) : Async () :=
  try_catch
    (_ ← safeFetch (PUT_users updatedUser);
     mret ())
    (fun _ =>
       users ← getStoredUsers;
       match list_find (fun u => User.id u = User.id updatedUser) users with
       | Some (index, _) => setItem_USERS (<[index := updatedUser]> users)
       | None => mret ()
       end).

Definition saveSeats (seats : list Seat.t) : Async () :=
  try_catch
    (_ ← safeFetch (POST_seats seats);
     mret ())
    (fun _ => setItem_SEATS seats).

(** The predicate of the manual conflict check. *)
Definition occupies (booking b : Booking.t) : bool :=
  streq (Booking.seatId b) (Booking.seatId booking)
  && streq (Booking.date b) (Booking.date booking)
  && streq (Booking.startTime b) (Booking.startTime booking)
  && bool_decide (Booking.status b = ACTIVE).

Definition createBooking (booking : Booking.t) : Async bool :=
  try_catch
    (res ← safeFetch (POST_bookings booking);
     mret (status res =? 201))
    (fun _ =>
       bookings ← getStoredBookings;
       let isTaken := existsb (occupies booking) bookings in
       if isTaken then mret false else
       setItem_BOOKINGS (bookings ++ [booking]);;
       mret true).

Definition cancelBooking (bookingId : jsstring) : Async () :=
  try_catch
    (_ ← safeFetch (PUT_bookings_cancel bookingId);
     mret ())
    (fun _ =>
       bookings ← getStoredBookings;
       match list_find (fun b => Booking.id b = bookingId) bookings with
       | Some (index, b) =>
           setItem_BOOKINGS (<[index := Booking.with_status CANCELLED b]> bookings)
       | None => mret ()
       end).

Definition toggleSeatMaintenance (seatId : jsstring) : Async () :=
  try_catch
    (_ ← safeFetch (POST_seats_toggle_maintenance seatId);
     mret ())
    (fun _ =>
       array ← getStoredSeats_array;
       seats ← elements array;
       match list_find (fun s => Seat.id s = seatId) seats with
       | Some (index, seat) =>
           let seats' := <[index := Seat.toggled seat]> seats in
           assign array seats';;
           setItem_SEATS seats'
       | None => mret ()
       end).

(** *** Session management: always local *)

Definition getSession : Async (option User.t) :=
  read (fun w => libbook_current_user (localStorage w)).

Definition setSession (user : User.t) : Async () :=
  putItem_CURRENT_USER (Some user).

Definition clearSession : Async () :=
  putItem_CURRENT_USER None.

(** Every operation the module exports, for statements about arbitrary
    sequences of store operations. *)
Inductive Operation : Type :=
| GetStoredUsers
| GetStoredSeats
| GetStoredBookings
| SaveUser (user : User.t)
| UpdateUser (updatedUser : User.t)
| SaveSeats (seats : list Seat.t)
| CreateBooking (booking : Booking.t)
| CancelBooking (bookingId : jsstring)
| ToggleSeatMaintenance (seatId : jsstring)
| GetSession
| SetSession (user : User.t)
| ClearSession.

Definition perform (op : Operation) : Async () :=
  match op with
  | GetStoredUsers => getStoredUsers;; mret ()
  | GetStoredSeats => getStoredSeats;; mret ()
  | GetStoredBookings => getStoredBookings;; mret ()
  | SaveUser user => saveUser user
  | UpdateUser updatedUser => updateUser updatedUser
  | SaveSeats seats => saveSeats seats
  | CreateBooking booking => createBooking booking;; mret ()
  | CancelBooking bookingId => cancelBooking bookingId
  | ToggleSeatMaintenance seatId => toggleSeatMaintenance seatId
  | GetSession => getSession;; mret ()
  | SetSession user => setSession user
  | ClearSession => clearSession
  end.

Fixpoint perform_all (ops : list Operation) : Async () :=
  match ops with
  | [] => mret ()
  | op :: ops' => perform op;; perform_all ops'
  end.

End Storage.

(** ** Date and date-fns, as far as the dashboards use them

    A [Date] is its time value, the milliseconds since the epoch in UTC;
    [None] is the Invalid Date. The host's time zone is a fixed offset
    [tz], in minutes east of UTC (the opposite of [getTimezoneOffset()]). *)

Module Date.

Definition msPerMinute : Z := 60000.
Definition msPerHour : Z := 3600000.
Definition msPerDay : Z := 86400000.

(** Days since 1970-01-01 of a day of the proleptic Gregorian calendar. *)
Definition days_from_civil (y m d : Z) : Z :=
  let y' := if m <=? 2 then y - 1 else y in
  let era := y' / 400 in
  let yoe := y' - era * 400 in
  let doy := (153 * (if 2 <? m then m - 3 else m + 9) + 2) / 5 + d - 1 in
  let doe := yoe * 365 + yoe / 4 - yoe / 100 + doy in
  era * 146097 + doe - 719468.

(** The inverse: year, month and day of the month. *)
Definition civil_from_days (days : Z) : Z * Z * Z :=
  let z := days + 719468 in
  let era := z / 146097 in
  let doe := z - era * 146097 in
  let yoe := (doe - doe / 1460 + doe / 36524 - doe / 146096) / 365 in
  let doy := doe - (365 * yoe + yoe / 4 - yoe / 100) in
  let mp := (5 * doy + 2) / 153 in
  let d := doy - (153 * mp + 2) / 5 + 1 in
  let m := if mp <? 10 then mp + 3 else mp - 9 in
  ((if m <=? 2 then yoe + era * 400 + 1 else yoe + era * 400), m, d).

Definition isLeapYear (y : Z) : bool :=
  ((y mod 4 =? 0) && negb (y mod 100 =? 0)) || (y mod 400 =? 0).

Definition daysInMonth (y m : Z) : Z :=
  if m =? 2 then (if isLeapYear y then 29 else 28)
  else if (m =? 4) || (m =? 6) || (m =? 9) || (m =? 11) then 30
  else 31.

(** The number a run of decimal digits denotes. *)
Definition digit (c : N) : Z := Z.of_N c - 48.

Definition number (ds : jsstring) : Z :=
  fold_left (fun acc c => 10 * acc + digit c) ds 0.

(** [new Date(s)] for a date-only string [YYYY-MM-DD]: such a string is
    read as midnight UTC. Any other string is outside the format the
    dashboard produces and is taken as the Invalid Date. *)
Definition parse_date_only (s : jsstring) : option Z :=
  match s with
  | [y1; y2; y3; y4; 45%N; m1; m2; 45%N; d1; d2] =>
      if forallb isDigit [y1; y2; y3; y4; m1; m2; d1; d2] then
        let y := number [y1; y2; y3; y4] in
        let m := number [m1; m2] in
        let d := number [d1; d2] in
        if (1 <=? m) && (m <=? 12) && (1 <=? d) && (d <=? daysInMonth y m)
        then Some (days_from_civil y m d * msPerDay)
        else None
      else None
  | _ => None
  end.

(** The day of the host's calendar an instant falls on, as days since the
    epoch, and [getHours()]. *)
Definition localDay (tz t : Z) : Z := (t + tz * msPerMinute) / msPerDay.

Definition getHours (tz t : Z) : Z := ((t + tz * msPerMinute) mod msPerDay) / msPerHour.

(** date-fns [isSameDay]: both instants start the same local day; false
    when either is the Invalid Date. *)
Definition isSameDay (tz : Z) (a b : option Z) : bool :=
  match a, b with
  | Some ta, Some tb => localDay tz ta =? localDay tz tb
  | _, _ => false
  end.

Fixpoint zeros (n : nat) : jsstring :=
  match n with
  | O => []
  | S n' => 48%N :: zeros n'
  end.

(** A non-negative number written on at least [width] digits. *)
Definition padded (width : nat) (n : Z) : jsstring :=
  let s := toString n in
  zeros (width - length s) ++ s.

(** date-fns [format(t, 'yyyy-MM-dd')]. *)
Definition format_yyyy_MM_dd (tz t : Z) : jsstring :=
  let '(y, m, d) := civil_from_days (localDay tz t) in
  padded 4 y ++ js "-" ++ padded 2 m ++ js "-" ++ padded 2 d.

(** date-fns [addDays(t, n)] on a host without daylight saving changes. *)
Definition addDays (t n : Z) : Z := t + n * msPerDay.

(** [format(addHours(new Date(`2000-01-01T${time}`), 1), 'HH:00')]: the
    string [HH:mm] is read as a local time of 2000-01-01, and the hour one
    hour later is written on two digits. [None] when the string is not such
    a time, where [format] throws on the Invalid Date; the dashboard only
    ever selects the value of a slot, [HH:00]. *)
Definition hour_later (time : jsstring) : option jsstring :=
  match time with
  | [h1; h2; 58%N; m1; m2] =>
      if forallb isDigit [h1; h2; m1; m2] then
        let hh := number [h1; h2] in
        let mm := number [m1; m2] in
        if ((hh <=? 23) && (mm <=? 59)) || ((hh =? 24) && (mm =? 0))
        then Some (padded 2 ((hh + 1) mod 24) ++ js ":00")
        else None
      else None
  | _ => None
  end.

End Date.

(** ** components/SeatMap *)

Module SeatMap.

Inductive SeatStatus : Type := AVAILABLE | BOOKED | MAINTENANCE.

(** The props; [hasOnEmptySlotClick] tells whether the optional handler
    was passed. *)
Record Props : Type := {
  seats : list Seat.t;
  bookingsForSlot : list jsstring;
  selectedSeatId : option jsstring;
  isAdmin : bool;
  isEditMode : bool;
  hasOnEmptySlotClick : bool
}.

Definition getSeatStatus (p : Props) (seat : Seat.t) : SeatStatus :=
  if Seat.isMaintenance seat then MAINTENANCE
  else if existsb (streq (Seat.id seat)) (bookingsForSlot p) then BOOKED
  else AVAILABLE.

Inductive Icon : Type := Armchair | Monitor | BookOpen | Ban.

(** The six class names [getSeatStyleConfig] chooses between. *)
Inductive Look : Type :=
| look_selected
| look_maintenance
| look_booked
| look_PC
| look_QUIET
| look_STANDARD.

Record StyleConfig : Type := { className : Look; icon : Icon; rotate : Z }.

Definition getSeatStyleConfig (p : Props) (type : SeatType) (status : SeatStatus)
    (isSelected : bool) (rotation : Z) : StyleConfig :=
  let Icon :=
    match type with
    | QUIET => BookOpen
    | PC => Monitor
    | STANDARD => Armchair
    end in
  if isSelected then {| className := look_selected; icon := Icon; rotate := rotation |}
  else
    match status with
    | MAINTENANCE => {| className := look_maintenance; icon := Ban; rotate := rotation |}
    | BOOKED =>
        if negb (isEditMode p)
        then {| className := look_booked; icon := Icon; rotate := rotation |}
        else
          match type with
          | PC => {| className := look_PC; icon := Icon; rotate := rotation |}
          | QUIET => {| className := look_QUIET; icon := Icon; rotate := rotation |}
          | STANDARD => {| className := look_STANDARD; icon := Icon; rotate := rotation |}
          end
    | AVAILABLE =>
        match type with
        | PC => {| className := look_PC; icon := Icon; rotate := rotation |}
        | QUIET => {| className := look_QUIET; icon := Icon; rotate := rotation |}
        | STANDARD => {| className := look_STANDARD; icon := Icon; rotate := rotation |}
        end
    end.

Definition COLS : Z := 15.

(** [Math.max(8, ...seats.map(s => s.y))] *)
Definition maxRow (p : Props) : Z := fold_right Z.max 8 (Seat.y <$> seats p).

Definition rows (p : Props) : Z := if isEditMode p then maxRow p + 2 else maxRow p + 1.

(** What one cell of the grid is: the button of a seat, the dashed button
    of an empty slot (edit mode), or a placeholder. *)
Inductive Cell : Type :=
| SeatButton (seat : Seat.t) (status : SeatStatus) (isSelected isClickable : bool)
    (config : StyleConfig)
| EmptySlotButton (x y : Z)
| Placeholder.

(** The body of the two loops of [renderGrid], at column [x] of row [y]. *)
Definition renderCell (p : Props) (x y : Z) : Cell :=
  match List.find (fun s => (Seat.x s =? x) && (Seat.y s =? y)) (seats p) with
  | Some seat =>
      let status := getSeatStatus p seat in
      let isSelected := bool_decide (selectedSeatId p = Some (Seat.id seat)) in
      let isClickable :=
        isAdmin p || match status with AVAILABLE => true | _ => false end in
      let config :=
        getSeatStyleConfig p (Seat.type seat) status isSelected
          (if Seat.rotation seat =? 0 then 0 else Seat.rotation seat) in
      SeatButton seat status isSelected isClickable config
  | None => if isEditMode p then EmptySlotButton x y else Placeholder
  end.

Definition renderGrid (p : Props) : list Cell :=
  flat_map (fun y => (fun x => renderCell p (Z.of_nat x) (Z.of_nat y))
                       <$> seq 0 (Z.to_nat COLS))
           (seq 0 (Z.to_nat (rows p))).

(** The handler call a click on a cell makes, if it makes one. *)
Inductive Click : Type :=
| onSeatClick (seat : Seat.t)
| onEmptySlotClick (x y : Z).

Definition onClick (p : Props) (c : Cell) : option Click :=
  match c with
  | SeatButton seat _ _ isClickable _ =>
      if isClickable then Some (onSeatClick seat) else None
  | EmptySlotButton x y =>
      if hasOnEmptySlotClick p then Some (onEmptySlotClick x y) else None
  | Placeholder => None
  end.

End SeatMap.

(** ** components/StudentDashboard *)

Module StudentDashboard.

Import Storage.

Record Slot : Type := { value : jsstring; label : jsstring; hourInt : Z }.

(** [h % 12 || 12] *)
Definition hour12 (h : Z) : Z := if Z.rem h 12 =? 0 then 12 else Z.rem h 12.

Definition meridiem (h : Z) : jsstring := if h <? 12 then js "AM" else js "PM".

(** The callback of [Array.from({ length: 12 }, (_, i) => ...)]. *)
Definition slot_of_index (i : nat) : Slot :=
  let hour := Z.of_nat i + 8 in
  {| value := padStart2 (toString hour) ++ js ":00";
     label := toString (hour12 hour) ++ js " " ++ meridiem hour ++ js " - "
              ++ toString (hour12 (hour + 1)) ++ js " " ++ meridiem (hour + 1);
     hourInt := hour |}.

Definition ALL_TIME_SLOTS : list Slot := slot_of_index <$> seq 0 12.

Inductive Tab : Type := book | history.

#[global] Instance Tab_eq_dec : EqDecision Tab.
Proof. solve_decision. Defined.

Inductive ToastType : Type := success | error.

Record State : Type := {
  activeTab : Tab;
  selectedDate : jsstring;
  selectedTime : jsstring;
  seats : list Seat.t;
  bookings : list Booking.t;
  selectedSeat : option Seat.t;
  toast : option (jsstring * ToastType);
  isLoading : bool
}.

Definition setActiveTab (v : Tab) (st : State) : State :=
  {| activeTab := v; selectedDate := selectedDate st; selectedTime := selectedTime st;
     seats := seats st; bookings := bookings st; selectedSeat := selectedSeat st;
     toast := toast st; isLoading := isLoading st |}.

Definition setSelectedDate (v : jsstring) (st : State) : State :=
  {| activeTab := activeTab st; selectedDate := v; selectedTime := selectedTime st;
     seats := seats st; bookings := bookings st; selectedSeat := selectedSeat st;
     toast := toast st; isLoading := isLoading st |}.

Definition setSelectedTime (v : jsstring) (st : State) : State :=
  {| activeTab := activeTab st; selectedDate := selectedDate st; selectedTime := v;
     seats := seats st; bookings := bookings st; selectedSeat := selectedSeat st;
     toast := toast st; isLoading := isLoading st |}.

Definition setSeats (v : list Seat.t) (st : State) : State :=
  {| activeTab := activeTab st; selectedDate := selectedDate st;
     selectedTime := selectedTime st; seats := v; bookings := bookings st;
     selectedSeat := selectedSeat st; toast := toast st; isLoading := isLoading st |}.

Definition setBookings (v : list Booking.t) (st : State) : State :=
  {| activeTab := activeTab st; selectedDate := selectedDate st;
     selectedTime := selectedTime st; seats := seats st; bookings := v;
     selectedSeat := selectedSeat st; toast := toast st; isLoading := isLoading st |}.

Definition setSelectedSeat (v : option Seat.t) (st : State) : State :=
  {| activeTab := activeTab st; selectedDate := selectedDate st;
     selectedTime := selectedTime st; seats := seats st; bookings := bookings st;
     selectedSeat := v; toast := toast st; isLoading := isLoading st |}.

Definition setIsLoading (v : bool) (st : State) : State :=
  {| activeTab := activeTab st; selectedDate := selectedDate st;
     selectedTime := selectedTime st; seats := seats st; bookings := bookings st;
     selectedSeat := selectedSeat st; toast := toast st; isLoading := v |}.

Definition showToast (msg : string) (type : ToastType) (st : State) : State :=
  {| activeTab := activeTab st; selectedDate := selectedDate st;
     selectedTime := selectedTime st; seats := seats st; bookings := bookings st;
     selectedSeat := selectedSeat st; toast := Some (js msg, type);
     isLoading := isLoading st |}.

(** The state of the first render: [useState] initial values. *)
Definition initial (tz now : Z) : State :=
  {| activeTab := book;
     selectedDate := Date.format_yyyy_MM_dd tz now;
     selectedTime := [];
     seats := [];
     bookings := [];
     selectedSeat := None;
     toast := None;
     isLoading := false |}.

(** [Promise.all([getStoredSeats(), getStoredBookings()])]: the array is
    built first, each call running up to the [await] of its request, so
    both offline tests are made and both requests are issued before either
    settles; then the two reads go on. They are taken here in the order of
    the array: in the other order they give the same values and the same
    world, as is proved of them below. *)
Definition loadData (st : State) : Async State :=
  try_catch
    (seats_call ← safeFetch_start GET_seats;
     bookings_call ← safeFetch_start GET_bookings;
     s ← getStoredSeats_after (safeFetch_settle seats_call);
     b ← getStoredBookings_after (safeFetch_settle bookings_call);
     mret (setIsLoading false (setBookings b (setSeats s st))))
    (fun _ => mret (setIsLoading false (showToast "Failed to load data." error st))).

Definition getAvailableTimeSlots (tz now : Z) (selectedDate : jsstring) : list Slot :=
  let isToday := Date.isSameDay tz (Date.parse_date_only selectedDate) (Some now) in
  let currentHour := Date.getHours tz now in
  List.filter (fun slot => if isToday then currentHour <? hourInt slot else true)
              ALL_TIME_SLOTS.

(** [format(addDays(new Date(), days), 'yyyy-MM-dd')] for days 0, 1, 2. *)
Definition availableDates (tz now : Z) : list jsstring :=
  (fun days => Date.format_yyyy_MM_dd tz (Date.addDays now days)) <$> [0; 1; 2].

(** The predicate of the caller's conflict check. *)
Definition holds (user : User.t) (st : State) (b : Booking.t) : bool :=
  streq (Booking.userId b) (User.id user)
  && streq (Booking.date b) (selectedDate st)
  && streq (Booking.startTime b) (selectedTime st)
  && bool_decide (Booking.status b = ACTIVE).

(** [now] and [now'] are the two readings of [Date.now()]. *)
Definition handleBook (user : User.t) (now now' : Z) (st : State) : Async State :=
  match selectedSeat st with
  | None => mret st
  | Some seat =>
      if negb (truthy (selectedTime st)) then
        mret (showToast "No time slots available for this date." error st)
      else
        let hasConflict := existsb (holds user st) (bookings st) in
        if hasConflict then
          mret (showToast "You already have a booking for this time slot." error st)
        else
          match Date.hour_later (selectedTime st) with
          | None => throw RangeError
          | Some endTime =>
              let newBooking :=
                {| Booking.id := js "bk-" ++ toString now;
                   Booking.seatId := Seat.id seat;
                   Booking.userId := User.id user;
                   Booking.userName := User.name user;
                   Booking.date := selectedDate st;
                   Booking.startTime := selectedTime st;
                   Booking.endTime := endTime;
                   Booking.timestamp := now';
                   Booking.status := ACTIVE |} in
              st' ← try_catch
                (ok ← createBooking newBooking;
                 if (ok : bool) then
                   st1 ← loadData (setIsLoading true st);
                   mret (setSelectedSeat None
                           (showToast "Seat booked successfully!" success st1))
                 else
                   mret (showToast "Failed to book seat. It may have been taken."
                           error (setIsLoading true st)))
                (fun _ => mret (showToast "Network error." error (setIsLoading true st)));
              mret (setIsLoading false st')
          end
  end.

(** [confirmed] is the answer to the [confirm] dialog. *)
Definition handleCancel (bookingId : jsstring) (confirmed : bool) (st : State) : Async State :=
  if confirmed then
    st' ← try_catch
      (cancelBooking bookingId;;
       st1 ← loadData (setIsLoading true st);
       mret (showToast "Booking cancelled." success st1))
      (fun _ => mret (showToast "Failed to cancel." error (setIsLoading true st)));
    mret (setIsLoading false st')
  else mret st.

(** The body of the effect that resets the selected time when it is not
    among the slots on offer. *)
Definition resetSelectedTime (tz now : Z) (st : State) : State :=
  let filteredSlots := getAvailableTimeSlots tz now (selectedDate st) in
  match filteredSlots with
  | first :: _ =>
      let isValid := existsb (fun s => streq (value s) (selectedTime st)) filteredSlots in
      if negb isValid then setSelectedTime (value first) st else st
  | [] => setSelectedTime [] st
  end.

(** The callback of the [setTimeout] of [showToast]: [setToast(null)]. *)
Definition clearToast (st : State) : State :=
  {| activeTab := activeTab st; selectedDate := selectedDate st;
     selectedTime := selectedTime st; seats := seats st; bookings := bookings st;
     selectedSeat := selectedSeat st; toast := None; isLoading := isLoading st |}.

(** What happens on the page. Choosing a date, a slot or a seat only
    changes the selection; changing tab runs the [loadData] effect; a
    toast disappears after three seconds. *)
Inductive Action : Type :=
| ChooseTab (tab : Tab)
| ChooseDate (date : jsstring)
| ChooseTime (time : jsstring)
| ChooseSeat (seat : option Seat.t)
| ConfirmBooking (now now' : Z)
| CancelBookingOf (bookingId : jsstring) (confirmed : bool)
| ToastExpires.

Definition act (user : User.t) (a : Action) (st : State) : Async State :=
  match a with
  | ChooseTab tab =>
      if bool_decide (tab = activeTab st) then mret st
      else loadData (setActiveTab tab st)
  | ChooseDate date => mret (setSelectedDate date st)
  | ChooseTime time => mret (setSelectedTime time st)
  | ChooseSeat seat => mret (setSelectedSeat seat st)
  | ConfirmBooking now now' => handleBook user now now' st
  | CancelBookingOf bookingId confirmed => handleCancel bookingId confirmed st
  | ToastExpires => mret (clearToast st)
  end.

(** An event handler that rejects leaves the state of the component as it
    was; the world keeps what the handler did to it. *)
Definition settle (h : State -> Async State) (st : State) : Async State :=
  try_catch (h st) (fun _ => mret st).

(** The dependency array of the effect that resets the selected time,
    [[selectedDate, filteredSlots.length]], as the render at the instant
    [now] computes it. *)
Definition resetDeps (tz now : Z) (st : State) : jsstring * nat :=
  (selectedDate st, length (getAvailableTimeSlots tz now (selectedDate st))).

(** The render that follows a change of state, at the instant [now]: the
    effect runs when its dependencies are not those of the previous
    render, [deps]. (The render its own update causes finds them equal.) *)
Definition rerender (tz now : Z) (deps : jsstring * nat) (st : State) : State :=
  if bool_decide (resetDeps tz now st = deps) then st
  else resetSelectedTime tz now st.

(** Each event comes with the instant of the render that follows it. *)
Fixpoint acts (user : User.t) (tz : Z) (l : list (Action * Z))
    (deps : jsstring * nat) (st : State) : Async State :=
  match l with
  | [] => mret st
  | (a, now) :: l' =>
      st' ← settle (act user a) st;
      acts user tz l' (resetDeps tz now st') (rerender tz now deps st')
  end.

(** The component from its first render, at the instant [now], on: the
    two mount effects run, the one that loads the data and the one that
    resets the selected time (they write different parts of the state, so
    the load is taken from the state the reset leaves), then the events
    follow. *)
Definition session (user : User.t) (tz now : Z) (l : list (Action * Z)) : Async State :=
  let st0 := resetSelectedTime tz now (initial tz now) in
  st ← loadData st0;
  acts user tz l (resetDeps tz now st0) st.

(** [selectedSeat?.id || null] *)
Definition selectedSeatId (selectedSeat : option Seat.t) : option jsstring :=
  match selectedSeat with
  | Some seat => if truthy (Seat.id seat) then Some (Seat.id seat) else None
  | None => None
  end.

(** The seats booked in the selected slot. *)
Definition activeSlotBookings (st : State) : list jsstring :=
  Booking.seatId
    <$> List.filter (fun b => streq (Booking.date b) (selectedDate st)
                              && streq (Booking.startTime b) (selectedTime st)
                              && bool_decide (Booking.status b = ACTIVE))
          (bookings st).

(** The props the dashboard passes to the seat map. *)
Definition seatMapProps (st : State) : SeatMap.Props :=
  {| SeatMap.seats := seats st;
     SeatMap.bookingsForSlot := activeSlotBookings st;
     SeatMap.selectedSeatId := selectedSeatId (selectedSeat st);
     SeatMap.isAdmin := false;
     SeatMap.isEditMode := false;
     SeatMap.hasOnEmptySlotClick := false |}.

(** [l.sort((a, b) => b.timestamp - a.timestamp)]: the sort is stable, so
    with this comparator its result is the one of the insertion sort that
    puts an element before the first one whose timestamp is not greater. *)
Fixpoint insert_by_timestamp (b : Booking.t) (l : list Booking.t) : list Booking.t :=
  match l with
  | [] => [b]
  | c :: l' =>
      if Booking.timestamp c - Booking.timestamp b <=? 0 then b :: l
      else c :: insert_by_timestamp b l'
  end.

Definition sort_by_timestamp (l : list Booking.t) : list Booking.t :=
  fold_right insert_by_timestamp [] l.

Definition myBookings (user : User.t) (st : State) : list Booking.t :=
  sort_by_timestamp
    (List.filter (fun b => streq (Booking.userId b) (User.id user)) (bookings st)).

(** The click on a cell of the seat map: [onSeatClick] is [setSelectedSeat]. *)
Definition clickCell (c : SeatMap.Cell) (st : State) : State :=
  match SeatMap.onClick (seatMapProps st) c with
  | Some (SeatMap.onSeatClick seat) => setSelectedSeat (Some seat) st
  | _ => st
  end.

(** The label shown for a booking's seat: [seats.find(...)?.label || 'Unknown']. *)
Definition seatLabel (st : State) (b : Booking.t) : jsstring :=
  or_default
    (Seat.label <$> List.find (fun s => streq (Seat.id s) (Booking.seatId b)) (seats st))
    (js "Unknown").

(** The cancel button is rendered for the ACTIVE bookings only. *)
Definition canCancel (b : Booking.t) : bool := bool_decide (Booking.status b = ACTIVE).

End StudentDashboard.

(** ** components/AdminDashboard: the layout editor *)

Module AdminDashboard.

Import Storage.

Record State : Type := {
  seats : list Seat.t;
  users : list User.t;
  bookings : list Booking.t;
  isEditMode : bool;
  selectedSeat : option Seat.t
}.

Definition setSeats (v : list Seat.t) (st : State) : State :=
  {| seats := v; users := users st; bookings := bookings st;
     isEditMode := isEditMode st; selectedSeat := selectedSeat st |}.

Definition setSelectedSeat (v : option Seat.t) (st : State) : State :=
  {| seats := seats st; users := users st; bookings := bookings st;
     isEditMode := isEditMode st; selectedSeat := v |}.

Definition setIsEditMode (v : bool) (st : State) : State :=
  {| seats := seats st; users := users st; bookings := bookings st;
     isEditMode := v; selectedSeat := selectedSeat st |}.

(** [Promise.all] of the three reads: as in the student's [loadData], the
    three requests are issued before any of them settles. *)
Definition refreshData (st : State) : Async State :=
  try_catch
    (seats_call ← safeFetch_start GET_seats;
     users_call ← safeFetch_start GET_users;
     bookings_call ← safeFetch_start GET_bookings;
     s ← getStoredSeats_after (safeFetch_settle seats_call);
     u ← getStoredUsers_after (safeFetch_settle users_call);
     b ← getStoredBookings_after (safeFetch_settle bookings_call);
     mret {| seats := s; users := u; bookings := b;
             isEditMode := isEditMode st; selectedSeat := selectedSeat st |})
    (fun _ => mret st).

Definition generateLabel (x y : Z) : jsstring :=
  fromCharCode (65 + y) ++ toString (x + 1).

(** [selectedSeat?.id === seat.id] *)
Definition is_selected (st : State) (seat : Seat.t) : bool :=
  match selectedSeat st with
  | Some sel => streq (Seat.id sel) (Seat.id seat)
  | None => false
  end.

Definition handleSeatInteraction (seat : Seat.t) (st : State) : Async State :=
  if isEditMode st then
    if is_selected st seat then mret (setSelectedSeat None st)
    else mret (setSelectedSeat (Some seat) st)
  else
    toggleSeatMaintenance (Seat.id seat);;
    refreshData st.

(** [now] is the reading of [Date.now()]. *)
Definition handleEmptySlotClick (now x y : Z) (st : State) : Async State :=
  if negb (isEditMode st) then mret st else
  match selectedSeat st with
  | Some sel =>
      (* Move Logic *)
      let updatedSeats :=
        (fun s => if streq (Seat.id s) (Seat.id sel)
                  then Seat.with_position x y (generateLabel x y) s
                  else s) <$> seats st in
      saveSeats updatedSeats;;
      mret (setSelectedSeat None (setSeats updatedSeats st))
  | None =>
      (* Create Logic *)
      let newSeat :=
        {| Seat.id := js "seat-" ++ toString now;
           Seat.label := generateLabel x y;
           Seat.type := STANDARD;
           Seat.isMaintenance := false;
           Seat.x := x;
           Seat.y := y;
           Seat.rotation := 0 |} in
      let updatedSeats := seats st ++ [newSeat] in
      saveSeats updatedSeats;;
      mret (setSeats updatedSeats st)
  end.

Definition handleChangeType (type : SeatType) (st : State) : Async State :=
  match selectedSeat st with
  | None => mret st
  | Some sel =>
      let updatedSeats :=
        (fun s => if streq (Seat.id s) (Seat.id sel) then Seat.with_type type s else s)
          <$> seats st in
      saveSeats updatedSeats;;
      mret (setSelectedSeat (Some (Seat.with_type type sel)) (setSeats updatedSeats st))
  end.

(** [r || 0] on a number, and [a % b]: the remainder has the sign of [a]. *)
Definition or_zero (r : Z) : Z := if r =? 0 then 0 else r.

Definition handleRotateSeat (st : State) : Async State :=
  match selectedSeat st with
  | None => mret st
  | Some sel =>
      let newRotation := Z.rem (or_zero (Seat.rotation sel) + 90) 360 in
      let updatedSeats :=
        (fun s => if streq (Seat.id s) (Seat.id sel)
                  then Seat.with_rotation newRotation s
                  else s) <$> seats st in
      saveSeats updatedSeats;;
      mret (setSelectedSeat (Some (Seat.with_rotation newRotation sel))
              (setSeats updatedSeats st))
  end.

(** [confirmed] is the answer to [window.confirm]. *)
Definition handleDeleteSeat (confirmed : bool) (st : State) : Async State :=
  match selectedSeat st with
  | None => mret st
  | Some sel =>
      if confirmed then
        let updatedSeats :=
          List.filter (fun s => negb (streq (Seat.id s) (Seat.id sel))) (seats st) in
        saveSeats updatedSeats;;
        mret (setSelectedSeat None (setSeats updatedSeats st))
      else mret st
  end.

Definition handleBlockUser (targetUser : User.t) (st : State) : Async State :=
  match User.role targetUser with
  | ADMIN => mret st
  | STUDENT =>
      updateUser (User.with_isBlocked (negb (User.isBlocked targetUser)) targetUser);;
      refreshData st
  end.

(** The props the dashboard passes to the seat map. *)
Definition seatMapProps (st : State) : SeatMap.Props :=
  {| SeatMap.seats := seats st;
     SeatMap.bookingsForSlot := [];
     SeatMap.selectedSeatId :=
       match selectedSeat st with
       | Some seat => if truthy (Seat.id seat) then Some (Seat.id seat) else None
       | None => None
       end;
     SeatMap.isAdmin := true;
     SeatMap.isEditMode := isEditMode st;
     SeatMap.hasOnEmptySlotClick := true |}.

(** The click on a cell of the seat map. *)
Definition clickCell (now : Z) (c : SeatMap.Cell) (st : State) : Async State :=
  match SeatMap.onClick (seatMapProps st) c with
  | Some (SeatMap.onSeatClick seat) => handleSeatInteraction seat st
  | Some (SeatMap.onEmptySlotClick x y) => handleEmptySlotClick now x y st
  | None => mret st
  end.

(** The button "Edit Layout" / "Finish Editing". *)
Definition toggleEditMode (st : State) : State :=
  setSelectedSeat None (setIsEditMode (negb (isEditMode st)) st).

(** What [handleExportData] does: an alert, or the download of a file. *)
Inductive Export : Type :=
| alert (message : jsstring)
| download (filename content : jsstring).

Definition status_text (s : BookingStatus) : jsstring :=
  match s with
  | ACTIVE => js "ACTIVE"
  | COMPLETED => js "COMPLETED"
  | CANCELLED => js "CANCELLED"
  end.

Definition headers : list jsstring :=
  js <$> ["Booking ID"; "Student Name"; "Student ID"; "Department"; "Seat"; "Date";
          "Time"; "Status"]%string.

(** The fields of the row of a booking, before quoting. *)
Definition fields (st : State) (b : Booking.t) : list jsstring :=
  let student := List.find (fun u => streq (User.id u) (Booking.userId b)) (users st) in
  let seat := List.find (fun s => streq (Seat.id s) (Booking.seatId b)) (seats st) in
  [ Booking.id b;
    Booking.userName b;
    or_default (student ≫= User.studentId) (js "N/A");
    or_default (student ≫= User.department) (js "N/A");
    or_default (Seat.label <$> seat) (js "Unknown");
    Booking.date b;
    Booking.startTime b ++ js " - " ++ Booking.endTime b;
    status_text (Booking.status b) ].

(** [`"${field}"`]; 34 is the code unit of the double quote. *)
Definition quoted (field : jsstring) : jsstring := [34%N] ++ field ++ [34%N].

Definition handleExportData (startDate endDate : jsstring) (st : State) : Export :=
  let filteredBookings :=
    List.filter (fun b => ge (Booking.date b) startDate && le (Booking.date b) endDate)
      (bookings st) in
  match filteredBookings with
  | [] => alert (js "No bookings found in the selected date range.")
  | _ =>
      let rows := (fun b => join (js ",") (quoted <$> fields st b)) <$> filteredBookings in
      let csvContent := join [10%N] (join (js ",") headers :: rows) in
      download (js "library_bookings_" ++ startDate ++ js "_to_" ++ endDate ++ js ".csv")
        csvContent
  end.

(** Stats. *)
Definition totalBookings (st : State) : nat := length (bookings st).

Definition activeBookings (st : State) : nat :=
  length (List.filter (fun b => bool_decide (Booking.status b = ACTIVE)) (bookings st)).

Definition maintenanceSeats (st : State) : nat :=
  length (List.filter Seat.isMaintenance (seats st)).

(** [bookings.slice(-5).reverse()] *)
Definition recentActivity (st : State) : list Booking.t :=
  rev (slice_last 5 (bookings st)).

(** The rows of the students tab. *)
Definition students (st : State) : list User.t :=
  List.filter (fun u => match User.role u with STUDENT => true | ADMIN => false end)
    (users st).

End AdminDashboard.

(** ** components/Auth: sign in and registration *)

Module Auth.

Import Storage.

Record FormData : Type := {
  name : jsstring;
  email : jsstring;
  password : jsstring;
  studentId : jsstring;
  department : jsstring;
  yearSection : jsstring;
  mobile : jsstring
}.

Record State : Type := {
  isLogin : bool;
  formData : FormData;
  error : jsstring;
  isLoading : bool
}.

Definition setError (msg : string) (st : State) : State :=
  {| isLogin := isLogin st; formData := formData st; error := js msg;
     isLoading := isLoading st |}.

Definition setIsLoading (v : bool) (st : State) : State :=
  {| isLogin := isLogin st; formData := formData st; error := error st;
     isLoading := v |}.

(** [[^\s@]] *)
Definition plain (c : N) : bool := negb (isWhiteSpace c) && negb (c =? 64)%N.

(** [/^[^\s@]+@[^\s@]+\.[^\s@]+$/] *)
Definition emailRegex : regex :=
  Cat (Plus (Class plain))
      (Cat (Chr 64) (Cat (Plus (Class plain)) (Cat (Chr 46) (Plus (Class plain))))).

(** [/^\d{10}$/] *)
Definition mobileRegex : regex := Repeat 10 (Class isDigit).

Definition validateForm (st : State) : option string :=
  let fd := formData st in
  if negb (test emailRegex (email fd)) then Some "Please enter a valid email address."%string
  else if (Z.of_nat (length (password fd)) <? 4) then
    Some "Password must be at least 4 characters long."%string
  else if negb (isLogin st) then
    if negb (truthy (trim (name fd))) then Some "Full Name is required."%string
    else if negb (truthy (trim (studentId fd))) then Some "Student ID is required."%string
    else if negb (truthy (department fd)) then Some "Please select a department."%string
    else if negb (test mobileRegex (mobile fd)) then
      Some "Mobile number must be exactly 10 digits."%string
    else None
  else None.

(** [u.email === formData.email && u.password === formData.password] *)
Definition credentials_match (fd : FormData) (u : User.t) : Prop :=
  User.email u = email fd /\ User.password u = Some (password fd).

#[global] Instance credentials_match_dec fd u : Decision (credentials_match fd u).
Proof. unfold credentials_match. apply _. Defined.

(** The handler resolves to the new state of the form and to the argument
    of the [onLogin] call it made, if it made one. [now] is the reading of
    [Date.now()]. *)
Definition handleSubmit (now : Z) (st0 : State) : Async (State * option User.t) :=
  let st := setError "" st0 in
  match validateForm st with
  | Some validationError => mret (setError validationError st, None)
  | None =>
      try_catch
        (users ← getStoredUsers;
         if isLogin st then
           match list_find (credentials_match (formData st)) users with
           | Some (_, user) =>
               if User.isBlocked user then
                 mret (setIsLoading false
                         (setError "Your account has been blocked by the administrator."
                            (setIsLoading true st)), None)
               else mret (setIsLoading true st, Some user)
           | None =>
               mret (setIsLoading false
                       (setError "Invalid credentials. Please try again."
                          (setIsLoading true st)), None)
           end
         else
           match list_find (fun u => User.email u = email (formData st)) users with
           | Some _ =>
               mret (setIsLoading false
                       (setError "An account with this email already exists."
                          (setIsLoading true st)), None)
           | None =>
               let newUser :=
                 {| User.id := js "user-" ++ toString now;
                    User.role := STUDENT;
                    User.isBlocked := false;
                    User.name := name (formData st);
                    User.email := email (formData st);
                    User.password := Some (password (formData st));
                    User.studentId := Some (studentId (formData st));
                    User.department := Some (department (formData st));
                    User.yearSection := Some (yearSection (formData st));
                    User.mobile := Some (mobile (formData st)) |} in
               saveUser newUser;;
               mret (setIsLoading true st, Some newUser)
           end)
        (fun _ =>
           mret (setIsLoading false
                   (setError "Connection error. Please try again."
                      (setIsLoading true st)), None))
  end.

End Auth.

(** ** App *)

Module App.

Import Storage.

Record State : Type := { currentUser : option User.t; isLoading : bool }.

Definition initial : State := {| currentUser := None; isLoading := true |}.

(** The mount effect. *)
Definition checkSession (st : State) : Async State :=
  user ← getSession;
  mret {| currentUser := user; isLoading := false |}.

Definition handleLogin (user : User.t) (st : State) : Async State :=
  setSession user;;
  mret {| currentUser := Some user; isLoading := isLoading st |}.

Definition handleLogout (st : State) : Async State :=
  clearSession;;
  mret {| currentUser := None; isLoading := isLoading st |}.

(** What the component renders. *)
Inductive Screen : Type :=
| Loading
| AuthScreen
| AdminDashboardFor (user : User.t)
| StudentDashboardFor (user : User.t).

Definition render (st : State) : Screen :=
  if isLoading st then Loading
  else
    match currentUser st with
    | None => AuthScreen
    | Some user =>
        match User.role user with
        | ADMIN => AdminDashboardFor user
        | STUDENT => StudentDashboardFor user
        end
    end.

(** The page as it loads: first render, then the mount effect. *)
Definition load : Async State := checkSession initial.

End App.

(** ** components/ChatWidget *)

Module ChatWidget.

Inductive Role : Type := user | model.

Record Message : Type := { role : Role; text : jsstring }.

Record State : Type := {
  isOpen : bool;
  messages : list Message;
  input : jsstring;
  isLoading : bool
}.

Definition initial : State :=
  {| isOpen := false;
     messages :=
       [{| role := model;
           text := js "Hello! I am the AI Librarian. How can I help you today?" |}];
     input := [];
     isLoading := false |}.

(** [chatWithLibrarian] belongs to [services/gemini]: it is a parameter,
    [None] standing for a rejected promise. *)
Definition handleSend
    (chatWithLibrarian : jsstring -> list Message -> option jsstring)
    (st : State) : State :=
  if negb (truthy (trim (input st))) || isLoading st then st
  else
    let userMsg := trim (input st) in
    let history := slice_last 6 (messages st) in
    let reply :=
      match chatWithLibrarian userMsg history with
      | Some response => response
      | None => js "Sorry, I encountered an error."
      end in
    {| isOpen := isOpen st;
       messages := messages st ++ [{| role := user; text := userMsg |}]
                   ++ [{| role := model; text := reply |}];
       input := [];
       isLoading := false |}.

End ChatWidget.

(** ** The vocabulary of the properties *)

Module Spec.

Import Storage.

(** What the fallback store holds under each key, as [getStoredBookings],
    [getStoredSeats] and [getStoredUsers] read it. *)
Definition stored_bookings (w : World) : list Booking.t :=
  default [] (libbook_bookings (localStorage w)).

Definition stored_seats (w : World) : list Seat.t :=
  default (INITIAL_SEATS w) (libbook_seats (localStorage w)).

Definition stored_users (w : World) : list User.t :=
  default [ADMIN_USER; DEMO_STUDENT] (libbook_users (localStorage w)).

(** A call to the backend fails: no answer, an abort, or a 5xx status. *)
Definition failure (r : FetchResult) : Prop :=
  match r with
  | NetworkFailure => True
  | Aborted => True
  | Responded st => 500 <= st
  end.

(** How the backend would end the next call, were it [req]. *)
Definition next_reply (w : World) (req : Request) : FetchResult :=
  reply (backend w) (length (calls w)) req.

(** An operation whose remote call is [req] runs against the fallback store:
    the process is offline already, or the call fails. *)
Definition falls_back (w : World) (req : Request) : Prop :=
  isOfflineMode w = true \/ (isOfflineMode w = false /\ failure (next_reply w req)).

(** The world in which the handler of the [catch] block then runs. *)
Definition fallen_back (req : Request) (w : World) : World :=
  if isOfflineMode w then w else set_isOfflineMode true (log_call req w).

(** The computation completes normally in every world. *)
Definition never_throws {A : Type} (m : Async A) : Prop :=
  forall w, exists a, result m w = Return a.

(** The computation, started offline, stays offline and calls nobody. *)
Definition stays_local {A : Type} (m : Async A) : Prop :=
  forall w, isOfflineMode w = true ->
    isOfflineMode (exec m w) = true /\ calls (exec m w) = calls w.

(** The call an operation makes first when the process is online. *)
Definition remote_call (op : Operation) : option Request :=
  match op with
  | GetStoredUsers => Some GET_users
  | GetStoredSeats => Some GET_seats
  | GetStoredBookings => Some GET_bookings
  | SaveUser user => Some (POST_users user)
  | UpdateUser updatedUser => Some (PUT_users updatedUser)
  | SaveSeats seats => Some (POST_seats seats)
  | CreateBooking booking => Some (POST_bookings booking)
  | CancelBooking bookingId => Some (PUT_bookings_cancel bookingId)
  | ToggleSeatMaintenance seatId => Some (POST_seats_toggle_maintenance seatId)
  | GetSession => None
  | SetSession _ => None
  | ClearSession => None
  end.

Definition slot_key (b : Booking.t) : jsstring * jsstring * jsstring :=
  (Booking.seatId b, Booking.date b, Booking.startTime b).

Definition user_key (b : Booking.t) : jsstring * jsstring * jsstring :=
  (Booking.userId b, Booking.date b, Booking.startTime b).

(** No two records of the collection, at different positions, are ACTIVE
    with the same key. *)
Definition unique_active {K : Type} (key : Booking.t -> K) (bs : list Booking.t) : Prop :=
  forall (i j : nat) (a b : Booking.t),
    i <> j -> bs !! i = Some a -> bs !! j = Some b ->
    Booking.status a = ACTIVE -> Booking.status b = ACTIVE ->
    key a <> key b.

Definition seat_slots_unique : list Booking.t -> Prop := unique_active slot_key.

Definition user_slots_unique : list Booking.t -> Prop := unique_active user_key.

(** The store with one more record under [KEYS.BOOKINGS]. *)
Definition with_bookings (bs : list Booking.t) (ls : LocalStorage) : LocalStorage :=
  {| libbook_users := libbook_users ls;
     libbook_seats := libbook_seats ls;
     libbook_bookings := Some bs;
     libbook_current_user := libbook_current_user ls |}.

Definition with_seats (l : list Seat.t) (ls : LocalStorage) : LocalStorage :=
  {| libbook_users := libbook_users ls;
     libbook_seats := Some l;
     libbook_bookings := libbook_bookings ls;
     libbook_current_user := libbook_current_user ls |}.

Definition with_users (l : list User.t) (ls : LocalStorage) : LocalStorage :=
  {| libbook_users := Some l;
     libbook_seats := libbook_seats ls;
     libbook_bookings := libbook_bookings ls;
     libbook_current_user := libbook_current_user ls |}.



(** A run of student sessions on one browser, one signed-in user after the
    other. *)
Fixpoint sessions (l : list (User.t * Z * Z * list (StudentDashboard.Action * Z)))
    : Async () :=
  match l with
  | [] => mret ()
  | (user, tz, now, actions) :: l' =>
      try_catch (StudentDashboard.session user tz now actions;; mret ())
                (fun _ => mret ());;
      sessions l'
  end.


(** At [v] the store is the fallback store: the reads return what
    [localStorage] holds and the writes are made to it. *)
Definition served_locally (v : World) : Prop :=
  result getStoredUsers v = Return (stored_users v)
  /\ result getStoredSeats v = Return (stored_seats v)
  /\ result getStoredBookings v = Return (stored_bookings v)
  /\ (forall user : User.t,
        stored_users (exec (saveUser user) v) = stored_users v ++ [user])
  /\ (forall updatedUser : User.t,
        stored_users (exec (updateUser updatedUser) v)
        = match list_find (fun u => User.id u = User.id updatedUser) (stored_users v) with
          | Some (index, _) => <[index := updatedUser]> (stored_users v)
          | None => stored_users v
          end)
  /\ (forall seats : list Seat.t, stored_seats (exec (saveSeats seats) v) = seats)
  /\ (forall booking : Booking.t,
        let isTaken := existsb (occupies booking) (stored_bookings v) in
        result (createBooking booking) v = Return (negb isTaken)
        /\ stored_bookings (exec (createBooking booking) v)
           = if isTaken then stored_bookings v else stored_bookings v ++ [booking])
  /\ (forall bookingId : jsstring,
        stored_bookings (exec (cancelBooking bookingId) v)
        = match list_find (fun b => Booking.id b = bookingId) (stored_bookings v) with
          | Some (index, b) =>
              <[index := Booking.with_status CANCELLED b]> (stored_bookings v)
          | None => stored_bookings v
          end)
  /\ (forall seatId : jsstring,
        stored_seats (exec (toggleSeatMaintenance seatId) v)
        = match list_find (fun s => Seat.id s = seatId) (stored_seats v) with
          | Some (index, seat) => <[index := Seat.toggled seat]> (stored_seats v)
          | None => stored_seats v
          end).

(** [s'] is [s] but for its rotation. *)
Definition same_but_rotation (s s' : Seat.t) : Prop :=
  Seat.id s' = Seat.id s
  /\ Seat.label s' = Seat.label s
  /\ Seat.type s' = Seat.type s
  /\ Seat.isMaintenance s' = Seat.isMaintenance s
  /\ Seat.x s' = Seat.x s
  /\ Seat.y s' = Seat.y s.

(** [n] presses of the rotate button. *)
Fixpoint rotate_times (n : nat) (st : AdminDashboard.State) : Async AdminDashboard.State :=
  match n with
  | O => mret st
  | S n' => st' ← AdminDashboard.handleRotateSeat st; rotate_times n' st'
  end.

(** Four presses of the rotate button. *)
Definition rotate_four_times (st : AdminDashboard.State) : Async AdminDashboard.State :=
  st1 ← AdminDashboard.handleRotateSeat st;
  st2 ← AdminDashboard.handleRotateSeat st1;
  st3 ← AdminDashboard.handleRotateSeat st2;
  AdminDashboard.handleRotateSeat st3.

(** The store with another session under [KEYS.CURRENT_USER]. *)
Definition with_current_user (u : option User.t) (ls : LocalStorage) : LocalStorage :=
  {| libbook_users := libbook_users ls;
     libbook_seats := libbook_seats ls;
     libbook_bookings := libbook_bookings ls;
     libbook_current_user := u |}.

(** The operations that write. *)
Definition is_mutation (op : Operation) : bool :=
  match op with
  | SaveUser _ | UpdateUser _ | SaveSeats _ | CreateBooking _
  | CancelBooking _ | ToggleSeatMaintenance _ => true
  | _ => false
  end.

(** A booking as it may have become: the same record, with the status it
    had or CANCELLED. *)
Definition same_or_cancelled (b b' : Booking.t) : Prop :=
  b' = b \/ b' = Booking.with_status CANCELLED b.

(** Every record of [old] is still in [new], at its position. *)
Definition bookings_kept (old new : list Booking.t) : Prop :=
  forall (i : nat) (b : Booking.t),
    old !! i = Some b -> exists b', new !! i = Some b' /\ same_or_cancelled b b'.

Definition users_kept (old new : list User.t) : Prop :=
  forall (i : nat) (u : User.t),
    old !! i = Some u -> exists u', new !! i = Some u' /\ User.id u' = User.id u.

(** The strings a regular expression denotes. *)
Inductive matches : regex -> jsstring -> Prop :=
| matches_eps : matches Eps []
| matches_class (p : N -> bool) (c : N) : p c = true -> matches (Class p) [c]
| matches_cat (r1 r2 : regex) (s1 s2 : jsstring) :
    matches r1 s1 -> matches r2 s2 -> matches (Cat r1 r2) (s1 ++ s2)
| matches_star_nil (r : regex) : matches (Star r) []
| matches_star_cons (r : regex) (s1 s2 : jsstring) :
    matches r s1 -> matches (Star r) s2 -> matches (Star r) (s1 ++ s2).

(** A non-empty run of code units that are neither white space nor '@'. *)
Definition plain_run (s : jsstring) : Prop :=
  s <> [] /\ Forall (fun c => Auth.plain c = true) s.

(** [local@domain.tld]: three such runs, the last two with a dot between. *)
Definition email_shape (s : jsstring) : Prop :=
  exists a b c : jsstring,
    s = a ++ [64%N] ++ b ++ [46%N] ++ c /\ plain_run a /\ plain_run b /\ plain_run c.

(** The string has a code unit that is not white space. *)
Definition not_blank (s : jsstring) : Prop :=
  exists c, c ∈ s /\ isWhiteSpace c = false.

(** Exactly ten decimal digits. *)
Definition ten_digits (s : jsstring) : Prop :=
  length s = 10%nat /\ Forall (fun c => isDigit c = true) s.

(** The account a registration form creates at the instant [now]. *)
Definition account_of (now : Z) (fd : Auth.FormData) : User.t :=
  {| User.id := js "user-" ++ toString now;
     User.name := Auth.name fd;
     User.email := Auth.email fd;
     User.password := Some (Auth.password fd);
     User.role := STUDENT;
     User.studentId := Some (Auth.studentId fd);
     User.department := Some (Auth.department fd);
     User.yearSection := Some (Auth.yearSection fd);
     User.mobile := Some (Auth.mobile fd);
     User.isBlocked := false |}.

(** The sign-in form filled in with an email and a password. *)
Definition sign_in_form (email password : jsstring) : Auth.State :=
  {| Auth.isLogin := true;
     Auth.formData :=
       {| Auth.name := []; Auth.email := email; Auth.password := password;
          Auth.studentId := []; Auth.department := []; Auth.yearSection := [];
          Auth.mobile := [] |};
     Auth.error := [];
     Auth.isLoading := false |}.

(** The signed-in user the browser remembers. *)
Definition session (w : World) : option User.t :=
  libbook_current_user (localStorage w).

(** The computation leaves the remembered user alone. *)
Definition keeps_session {A : Type} (m : Async A) : Prop :=
  forall w, session (exec m w) = session w.

Definition is_session_write (op : Operation) : bool :=
  match op with
  | SetSession _ | ClearSession => true
  | _ => false
  end.

(** The cell of the grid a seat stands in. *)
Definition position (s : Seat.t) : Z * Z := (Seat.x s, Seat.y s).

(** A layout in which no two seats share an id or a cell. *)
Definition well_laid (seats : list Seat.t) : Prop :=
  NoDup (Seat.id <$> seats) /\ NoDup (position <$> seats).

(** What the administrator can do to the layout in edit mode: click the
    cell the map shows at a position, or use one of the three buttons of
    the toolbar. *)
Inductive EditorAction : Type :=
| ClickAt (x y : Z)
| ChangeType (type : SeatType)
| Rotate
| Delete (confirmed : bool).

Definition edit (now : Z) (a : EditorAction) (st : AdminDashboard.State)
    : Async AdminDashboard.State :=
  match a with
  | ClickAt x y =>
      AdminDashboard.clickCell now
        (SeatMap.renderCell (AdminDashboard.seatMapProps st) x y) st
  | ChangeType type => AdminDashboard.handleChangeType type st
  | Rotate => AdminDashboard.handleRotateSeat st
  | Delete confirmed => AdminDashboard.handleDeleteSeat confirmed st
  end.

(** [a] may stand before [b] in the history: it is not older. *)
Definition not_older (a b : Booking.t) : Prop :=
  Booking.timestamp b <= Booking.timestamp a.

(** The bookings of a collection made at the instant [t], in order. *)
Definition made_at (t : Z) (l : list Booking.t) : list Booking.t :=
  List.filter (fun b => Booking.timestamp b =? t) l.

(** The time is one the dashboard can have selected: none, or the value
    of one of the twelve slots. *)
Definition selectable (time : jsstring) : Prop :=
  time = [] \/ exists slot, slot ∈ StudentDashboard.ALL_TIME_SLOTS
                           /\ StudentDashboard.value slot = time.

(** The booking [handleBook] asks for: the selected seat, date and slot,
    for one hour, under the id [bk-<now>]. *)
Definition requested (user : User.t) (seat : Seat.t) (slot : StudentDashboard.Slot)
    (now now' : Z) (st : StudentDashboard.State) : Booking.t :=
  {| Booking.id := js "bk-" ++ toString now;
     Booking.seatId := Seat.id seat;
     Booking.userId := User.id user;
     Booking.userName := User.name user;
     Booking.date := StudentDashboard.selectedDate st;
     Booking.startTime := StudentDashboard.value slot;
     Booking.endTime :=
       padStart2 (toString (StudentDashboard.hourInt slot + 1)) ++ js ":00";
     Booking.timestamp := now';
     Booking.status := ACTIVE |}.

(** The visitor types a text and presses send; a conversation is a
    sequence of such turns. *)
Definition type_and_send (bot : jsstring -> list ChatWidget.Message -> option jsstring)
    (typed : jsstring) (st : ChatWidget.State) : ChatWidget.State :=
  ChatWidget.handleSend bot
    {| ChatWidget.isOpen := ChatWidget.isOpen st;
       ChatWidget.messages := ChatWidget.messages st;
       ChatWidget.input := typed;
       ChatWidget.isLoading := ChatWidget.isLoading st |}.

Definition conversation (bot : jsstring -> list ChatWidget.Message -> option jsstring)
    (turns : list jsstring) : ChatWidget.State :=
  fold_left (fun st typed => type_and_send bot typed st) turns ChatWidget.initial.

(** The librarian and the visitor speak in turn, the librarian first. *)
Definition alternating (l : list ChatWidget.Message) : Prop :=
  forall (i : nat) (m : ChatWidget.Message),
    l !! i = Some m ->
    ChatWidget.role m = if Nat.even i then ChatWidget.model else ChatWidget.user.

End Spec.

(** ** Concrete worlds and inputs *)

Module Examples.

Import Storage Spec.

Definition unreachable : Backend :=
  {| reply := fun _ _ => NetworkFailure;
     json_users := fun _ => None;
     json_seats := fun _ => None;
     json_bookings := fun _ => None |}.

Definition empty_storage : LocalStorage :=
  {| libbook_users := None; libbook_seats := None;
     libbook_bookings := None; libbook_current_user := None |}.

(** 2024-05-10T09:00:00Z. *)
Definition nine_utc : Z := 19853 * Date.msPerDay + 9 * Date.msPerHour.

(** John's booking of seat L1 for 2024-05-11 at 10:00, and the same slot on
    seat L2 for somebody else. *)
Definition john_L1 : Booking.t :=
  {| Booking.id := js "bk-1715331600000";
     Booking.seatId := js "s-l1";
     Booking.userId := js "student-1";
     Booking.userName := js "John Doe";
     Booking.date := js "2024-05-11";
     Booking.startTime := js "10:00";
     Booking.endTime := js "11:00";
     Booking.timestamp := 1715331600000;
     Booking.status := ACTIVE |}.

Definition jane_L1 : Booking.t :=
  {| Booking.id := js "bk-1715331700000";
     Booking.seatId := js "s-l1";
     Booking.userId := js "student-2";
     Booking.userName := js "Jane Roe";
     Booking.date := js "2024-05-11";
     Booking.startTime := js "10:00";
     Booking.endTime := js "11:00";
     Booking.timestamp := 1715331700000;
     Booking.status := ACTIVE |}.

Definition jane_L2 : Booking.t :=
  {| Booking.id := js "bk-1715331700000";
     Booking.seatId := js "s-l2";
     Booking.userId := js "student-2";
     Booking.userName := js "Jane Roe";
     Booking.date := js "2024-05-11";
     Booking.startTime := js "10:00";
     Booking.endTime := js "11:00";
     Booking.timestamp := 1715331700000;
     Booking.status := ACTIVE |}.

(** The browser after a visit during which the backend was down and John
    booked seat L1. *)
Definition after_offline_visit : LocalStorage :=
  {| libbook_users := Some [ADMIN_USER; DEMO_STUDENT];
     libbook_seats := Some INITIAL_SEATS_literal;
     libbook_bookings := Some [john_L1];
     libbook_current_user := Some DEMO_STUDENT |}.

(** A process that is offline from the start, on that browser. *)
Definition offline_world : World :=
  set_isOfflineMode true (page_load after_offline_visit unreachable).

(** A process on the same browser whose backend is down from the first
    call on. *)
Definition backend_down : World := page_load after_offline_visit unreachable.



(** A backend that fails the first request, answers the second, knowing
    of no booking, and is unreachable afterwards. *)
Definition seats_down : Backend :=
  {| reply := fun n _ => if (n =? 1)%nat then Responded 200
                         else if (n =? 0)%nat then Responded 500 else NetworkFailure;
     json_users := fun _ => None;
     json_seats := fun _ => None;
     json_bookings := fun _ => Some [] |}.

Definition visit_with_seats_down : World := page_load after_offline_visit seats_down.

Definition seat_L2 : Seat.t := seat "s-l2" "L2" STANDARD 2 1 180.

(** John picks 2024-05-11, 10:00 and seat L2, and confirms. *)
Definition john_books_L2 : list (StudentDashboard.Action * Z) :=
  [ (StudentDashboard.ChooseDate (js "2024-05-11"), 1715331840000);
    (StudentDashboard.ChooseTime (js "10:00"), 1715331850000);
    (StudentDashboard.ChooseSeat (Some seat_L2), 1715331860000);
    (StudentDashboard.ConfirmBooking 1715331900000 1715331900000, 1715331901000) ].

Definition john_L2 : Booking.t :=
  {| Booking.id := js "bk-1715331900000";
     Booking.seatId := js "s-l2";
     Booking.userId := js "student-1";
     Booking.userName := js "John Doe";
     Booking.date := js "2024-05-11";
     Booking.startTime := js "10:00";
     Booking.endTime := js "11:00";
     Booking.timestamp := 1715331900000;
     Booking.status := ACTIVE |}.

(** The registration form filled in with John's email, and the sign-in form
    with his credentials. *)
Definition register_john_again : Auth.State :=
  {| Auth.isLogin := false;
     Auth.formData :=
       {| Auth.name := js "John Doe";
          Auth.email := js "john@student.edu";
          Auth.password := js "secret";
          Auth.studentId := js "CS2024002";
          Auth.department := js "Computer Science";
          Auth.yearSection := js "3-B";
          Auth.mobile := js "5550123457" |};
     Auth.error := [];
     Auth.isLoading := false |}.

Definition login_john : Auth.State :=
  {| Auth.isLogin := true;
     Auth.formData :=
       {| Auth.name := []; Auth.email := js "john@student.edu";
          Auth.password := js "pass"; Auth.studentId := [];
          Auth.department := []; Auth.yearSection := []; Auth.mobile := [] |};
     Auth.error := [];
     Auth.isLoading := false |}.

Definition blocked_john : User.t := User.with_isBlocked true DEMO_STUDENT.

(** The same browser after the administrator blocked John. *)
Definition john_blocked_world : World :=
  set_isOfflineMode true
    (page_load (with_users [ADMIN_USER; blocked_john] after_offline_visit) unreachable).

(** The layout editor in edit mode over the built-in layout, with no seat
    selected and with seat L2 selected. *)
Definition editor : AdminDashboard.State :=
  {| AdminDashboard.seats := INITIAL_SEATS_literal;
     AdminDashboard.users := [ADMIN_USER; DEMO_STUDENT];
     AdminDashboard.bookings := [john_L1];
     AdminDashboard.isEditMode := true;
     AdminDashboard.selectedSeat := None |}.

Definition editor_on_L2 : AdminDashboard.State :=
  AdminDashboard.setSelectedSeat (Some seat_L2) editor.

(** A backend that refuses every call with 409, and one that answers
    every call with 200 and a body that is not JSON. *)
Definition refusing : Backend :=
  {| reply := fun _ _ => Responded 409;
     json_users := fun _ => None;
     json_seats := fun _ => None;
     json_bookings := fun _ => None |}.

Definition garbled : Backend :=
  {| reply := fun _ _ => Responded 200;
     json_users := fun _ => None;
     json_seats := fun _ => None;
     json_bookings := fun _ => None |}.

(** The registration form of a new student. *)
Definition register_jane : Auth.State :=
  {| Auth.isLogin := false;
     Auth.formData :=
       {| Auth.name := js "Jane Roe";
          Auth.email := js "jane@student.edu";
          Auth.password := js "secret";
          Auth.studentId := js "CS2024002";
          Auth.department := js "Computer Science";
          Auth.yearSection := [];
          Auth.mobile := js "5550123457" |};
     Auth.error := [];
     Auth.isLoading := false |}.

(** John's dashboard on the offline browser, seat L2 picked for
    2024-05-11 at 11:00. *)
Definition john_picks_L2 : StudentDashboard.State :=
  {| StudentDashboard.activeTab := StudentDashboard.book;
     StudentDashboard.selectedDate := js "2024-05-11";
     StudentDashboard.selectedTime := js "11:00";
     StudentDashboard.seats := INITIAL_SEATS_literal;
     StudentDashboard.bookings := [john_L1];
     StudentDashboard.selectedSeat := Some seat_L2;
     StudentDashboard.toast := None;
     StudentDashboard.isLoading := false |}.

End Examples.

Import Storage Spec.

(** ** The monad and the offline switch *)

Ltac run := unfold mbind, Async_bind, mret, Async_ret, try_catch, read, write, throw in *.

Lemma safeFetch_offline (req : Request) (w : World) :
  isOfflineMode w = true -> safeFetch req w = (Throw OfflineModeActive, w).
Proof.
  intros Hoff. unfold safeFetch. run. simpl. now rewrite Hoff.
Qed.

Lemma safeFetch_failure (req : Request) (w : World) :
  isOfflineMode w = false -> failure (next_reply w req) ->
  exists e, safeFetch req w = (Throw e, set_isOfflineMode true (log_call req w)).
Proof.
  intros Hon Hfail. unfold safeFetch, fetch. run. simpl. rewrite Hon.
  unfold next_reply in Hfail.
  destruct (reply (backend w) (length (calls w)) req) as [| |st]; simpl in *.
  - rewrite Hon. simpl. eauto.
  - rewrite Hon. simpl. eauto.
  - unfold ok; simpl.
    replace (st <=? 299) with false by (symmetry; apply Z.leb_gt; lia).
    rewrite andb_false_r. simpl.
    replace (500 <=? st) with true by (symmetry; apply Z.leb_le; lia).
    simpl. rewrite Hon. simpl. eauto.
Qed.

Lemma safeFetch_answer (req : Request) (w : World) (st : Z) :
  isOfflineMode w = false -> next_reply w req = Responded st -> st < 500 ->
  safeFetch req w
  = (Return {| status := st; call := length (calls w) |}, log_call req w).
Proof.
  intros Hon Hrep Hlt. unfold safeFetch, fetch. run. simpl. rewrite Hon.
  unfold next_reply in Hrep. rewrite Hrep. simpl.
  replace (500 <=? st) with false by (symmetry; apply Z.leb_gt; lia).
  now destruct (negb _).
Qed.

(** Whatever a call does, it leaves the fallback store alone and never
    brings the process back online. *)
Lemma safeFetch_frame (req : Request) (w : World) :
  localStorage (exec (safeFetch req) w) = localStorage w
  /\ INITIAL_SEATS (exec (safeFetch req) w) = INITIAL_SEATS w
  /\ backend (exec (safeFetch req) w) = backend w
  /\ (isOfflineMode w = true -> exec (safeFetch req) w = w).
Proof.
  unfold exec.
  destruct (isOfflineMode w) eqn:Hoff.
  - rewrite safeFetch_offline by assumption. simpl. auto.
  - unfold safeFetch, fetch. run. simpl. rewrite Hoff.
    destruct (reply (backend w) (length (calls w)) req) as [| |st]; simpl;
      rewrite ?Hoff; simpl; try (repeat split; congruence).
    destruct (negb (ok _)); [destruct (500 <=? st)|]; simpl; rewrite ?Hoff; simpl;
      repeat split; congruence.
Qed.

Lemma fallen_back_offline (req : Request) (w : World) :
  isOfflineMode (fallen_back req w) = true.
Proof. unfold fallen_back. destruct (isOfflineMode w) eqn:E; simpl; auto. Qed.

Lemma fallen_back_localStorage (req : Request) (w : World) :
  localStorage (fallen_back req w) = localStorage w.
Proof. unfold fallen_back. now destruct (isOfflineMode w). Qed.

Lemma fallen_back_INITIAL_SEATS (req : Request) (w : World) :
  INITIAL_SEATS (fallen_back req w) = INITIAL_SEATS w.
Proof. unfold fallen_back. now destruct (isOfflineMode w). Qed.

Lemma fallen_back_id (req : Request) (w : World) :
  isOfflineMode w = true -> fallen_back req w = w.
Proof. unfold fallen_back. now intros ->. Qed.

(** The shape every hybrid operation has: when its call falls back, the
    operation is its [catch] handler run in the offline world. *)
Lemma hybrid_falls_back {B : Type} (req : Request) (k : Response -> Async B)
    (h : Async B) (w : World) :
  falls_back w req ->
  try_catch (safeFetch req ≫= k) (fun _ => h) w = h (fallen_back req w).
Proof.
  intros [Hoff | [Hon Hfail]].
  - rewrite fallen_back_id by assumption.
    unfold try_catch, mbind, Async_bind. now rewrite safeFetch_offline.
  - destruct (safeFetch_failure req w Hon Hfail) as [e He].
    unfold try_catch, mbind, Async_bind. rewrite He.
    unfold fallen_back. now rewrite Hon.
Qed.

Lemma offline_falls_back (req : Request) (w : World) :
  isOfflineMode w = true -> falls_back w req.
Proof. now left. Qed.

#[local] Hint Resolve offline_falls_back fallen_back_offline : core.

(** *** The reads, offline *)

Lemma getStoredBookings_offline (w : World) :
  isOfflineMode w = true -> getStoredBookings w = (Return (stored_bookings w), w).
Proof.
  intros Hoff. unfold getStoredBookings, getStoredBookings_after.
  rewrite hybrid_falls_back by auto.
  rewrite fallen_back_id by assumption. reflexivity.
Qed.

Lemma getStoredUsers_offline (w : World) :
  isOfflineMode w = true ->
  getStoredUsers w
  = (Return (stored_users w),
     match libbook_users (localStorage w) with
     | Some _ => w
     | None => set_localStorage (with_users [ADMIN_USER; DEMO_STUDENT] (localStorage w)) w
     end).
Proof.
  intros Hoff. unfold getStoredUsers, getStoredUsers_after.
  rewrite hybrid_falls_back by auto.
  rewrite fallen_back_id by assumption. unfold stored_users. run.
  destruct (libbook_users (localStorage w)); reflexivity.
Qed.

Lemma getStoredSeats_array_offline (w : World) :
  isOfflineMode w = true ->
  getStoredSeats_array w
  = match libbook_seats (localStorage w) with
    | Some seats => (Return (FreshSeats seats), w)
    | None => (Return TheInitialSeats,
               set_localStorage (with_seats (INITIAL_SEATS w) (localStorage w)) w)
    end.
Proof.
  intros Hoff. unfold getStoredSeats_array, getStoredSeats_array_after.
  rewrite hybrid_falls_back by auto.
  rewrite fallen_back_id by assumption. run.
  destruct (libbook_seats (localStorage w)); reflexivity.
Qed.

Lemma getStoredSeats_offline (w : World) :
  isOfflineMode w = true ->
  getStoredSeats w
  = (Return (stored_seats w),
     match libbook_seats (localStorage w) with
     | Some _ => w
     | None => set_localStorage (with_seats (INITIAL_SEATS w) (localStorage w)) w
     end).
Proof.
  intros Hoff. unfold getStoredSeats, mbind, Async_bind.
  rewrite getStoredSeats_array_offline by assumption. unfold stored_seats.
  destruct (libbook_seats (localStorage w)); reflexivity.
Qed.

(** A call either falls back or is answered with a status below 500. *)
Lemma falls_back_or_answered (w : World) (req : Request) :
  falls_back w req
  \/ (isOfflineMode w = false /\ exists st, next_reply w req = Responded st /\ st < 500).
Proof.
  unfold falls_back. destruct (isOfflineMode w) eqn:Hoff; [now left; left|].
  unfold failure. destruct (next_reply w req) as [| |st] eqn:Hr;
    try (left; right; split; [reflexivity | exact I]).
  destruct (Z_lt_ge_dec st 500).
  - right. split; [reflexivity|]. eauto.
  - left. right. split; [reflexivity | lia].
Qed.

(** ** The booking engine *)

Lemma streq_true (a b : jsstring) : streq a b = true <-> a = b.
Proof. unfold streq. apply bool_decide_eq_true. Qed.

Lemma occupies_spec (booking b : Booking.t) :
  occupies booking b = true
  <-> Booking.status b = ACTIVE /\ slot_key b = slot_key booking.
Proof.
  unfold occupies, slot_key. rewrite !andb_true_iff, !streq_true, bool_decide_eq_true.
  split.
  - intros [[[-> ->] ->] ?]. auto.
  - intros [? [=]]. auto.
Qed.

Lemma occupied_spec (booking : Booking.t) (bs : list Booking.t) :
  existsb (occupies booking) bs = true
  <-> exists a, a ∈ bs /\ Booking.status a = ACTIVE /\ slot_key a = slot_key booking.
Proof.
  rewrite existsb_exists. split.
  - intros (a & Hin & Hocc). exists a. rewrite list_elem_of_In.
    split; [assumption | now apply occupies_spec].
  - intros (a & Hin & Hocc). exists a. rewrite <- list_elem_of_In.
    split; [assumption | now apply occupies_spec].
Qed.

(** Appending a record keeps the keys of the ACTIVE records distinct when no
    ACTIVE record of the collection has the key of the new one. *)
Lemma unique_active_snoc {K : Type} (key : Booking.t -> K) (bs : list Booking.t)
    (b : Booking.t) :
  unique_active key bs ->
  (forall a, a ∈ bs -> Booking.status a = ACTIVE -> key a <> key b) ->
  unique_active key (bs ++ [b]).
Proof.
  intros Huniq Hfresh i j a c Hij Hi Hj Ha Hc.
  apply lookup_snoc_Some in Hi, Hj.
  destruct Hi as [[Hi Ha'] | [Hi <-]], Hj as [[Hj Hc'] | [Hj <-]].
  - exact (Huniq i j a c Hij Ha' Hc' Ha Hc).
  - apply Hfresh; [eapply list_elem_of_lookup_2; eauto | assumption].
  - intros Heq. symmetry in Heq. revert Heq.
    apply Hfresh; [eapply list_elem_of_lookup_2; eauto | assumption].
  - lia.
Qed.


Lemma createBooking_falls_back (booking : Booking.t) (w : World) :
  falls_back w (POST_bookings booking) ->
  createBooking booking w
  = let w' := fallen_back (POST_bookings booking) w in
    if existsb (occupies booking) (stored_bookings w) then (Return false, w')
    else (Return true,
          set_localStorage
            (with_bookings (stored_bookings w ++ [booking]) (localStorage w)) w').
Proof.
  intros Hfb. unfold createBooking.
  rewrite hybrid_falls_back by assumption.
  unfold mbind at 1. unfold Async_bind.
  rewrite getStoredBookings_offline by auto.
  unfold stored_bookings. rewrite !fallen_back_localStorage. cbn zeta.
  destruct (existsb _ _); [reflexivity|].
  run. simpl. now rewrite !fallen_back_localStorage.
Qed.

Lemma createBooking_answered (booking : Booking.t) (w : World) (st : Z) :
  isOfflineMode w = false -> next_reply w (POST_bookings booking) = Responded st ->
  st < 500 ->
  createBooking booking w = (Return (st =? 201), log_call (POST_bookings booking) w).
Proof.
  intros Hon Hrep Hlt. unfold createBooking, try_catch, mbind, Async_bind.
  now rewrite (safeFetch_answer _ _ st).
Qed.

(** Whatever the mode, a call either leaves the bookings of the fallback
    store as they were or appends the new record to them, the latter only when
    no ACTIVE record occupies its seat and slot. *)
Lemma createBooking_stored (booking : Booking.t) (w : World) :
  stored_bookings (exec (createBooking booking) w) = stored_bookings w
  \/ (existsb (occupies booking) (stored_bookings w) = false
      /\ stored_bookings (exec (createBooking booking) w)
         = stored_bookings w ++ [booking]).
Proof.
  unfold exec.
  destruct (falls_back_or_answered w (POST_bookings booking))
    as [Hfb | (Hon & st & Hrep & Hlt)].
  - rewrite createBooking_falls_back by assumption. cbn zeta.
    destruct (existsb _ _) eqn:Hocc; simpl.
    + left. unfold stored_bookings. now rewrite fallen_back_localStorage.
    + right. split; reflexivity.
  - rewrite (createBooking_answered _ _ st) by assumption. now left.
Qed.

Lemma createBooking_keeps (booking : Booking.t) (w : World) :
  seat_slots_unique (stored_bookings w) ->
  seat_slots_unique (stored_bookings (exec (createBooking booking) w)).
Proof.
  intros Huniq.
  destruct (createBooking_stored booking w) as [-> | [Hfree ->]]; [assumption|].
  apply unique_active_snoc; [assumption|].
  intros a Hin Hact Hkey.
  assert (existsb (occupies booking) (stored_bookings w) = true) as Hocc
    by (apply occupied_spec; eauto).
  congruence.
Qed.

Lemma exec_bind {A B : Type} (m : Async A) (k : A -> Async B) (w : World) :
  exec (m ≫= k) w
  = match result m w with
    | Return a => exec (k a) (exec m w)
    | Throw _ => exec m w
    end.
Proof.
  unfold exec, result, mbind, Async_bind. destruct (m w) as [[a|e] w']; reflexivity.
Qed.

(** *** Operations that cannot reject *)

Lemma never_throws_ret {A : Type} (a : A) : never_throws (mret a).
Proof. intros w. now exists a. Qed.

Lemma never_throws_read {A : Type} (f : World -> A) : never_throws (read f).
Proof. intros w. now exists (f w). Qed.

Lemma never_throws_write (f : World -> World) : never_throws (write f).
Proof. intros w. now exists (). Qed.

Lemma never_throws_bind {A B : Type} (m : Async A) (k : A -> Async B) :
  never_throws m -> (forall a, never_throws (k a)) -> never_throws (m ≫= k).
Proof.
  intros Hm Hk w. destruct (Hm w) as [a Ha]. unfold result in *.
  unfold mbind, Async_bind. destruct (m w) as [[a'|e] w']; simpl in Ha; [|discriminate].
  apply Hk.
Qed.

Lemma never_throws_try_catch {A : Type} (body : Async A) (h : Error -> Async A) :
  (forall e, never_throws (h e)) -> never_throws (try_catch body h).
Proof.
  intros Hh w. unfold result, try_catch.
  destruct (body w) as [[a|e] w']; simpl; [eauto | apply Hh].
Qed.

Create HintDb total.

#[local] Hint Resolve never_throws_ret never_throws_read never_throws_write : total.

Ltac total :=
  repeat first
    [ progress auto with total
    | apply never_throws_try_catch; intros ?
    | apply never_throws_bind; [|intros ?]
    | match goal with
      | |- never_throws (match ?x with _ => _ end) => destruct x
      | |- never_throws (if ?x then _ else _) => destruct x
      | |- never_throws (let _ := _ in _) => cbn zeta
      end ].

Lemma getStoredUsers_total : never_throws getStoredUsers.
Proof. unfold getStoredUsers, getStoredUsers_after, setItem_USERS. total. Qed.

Lemma getStoredSeats_array_total : never_throws getStoredSeats_array.
Proof. unfold getStoredSeats_array, getStoredSeats_array_after, setItem_SEATS. total. Qed.

Lemma getStoredSeats_total : never_throws getStoredSeats.
Proof.
  unfold getStoredSeats. apply never_throws_bind; [apply getStoredSeats_array_total|].
  intros []; unfold elements; total.
Qed.

Lemma getStoredBookings_total : never_throws getStoredBookings.
Proof. unfold getStoredBookings, getStoredBookings_after. total. Qed.

#[local] Hint Resolve getStoredUsers_total getStoredSeats_array_total
  getStoredSeats_total getStoredBookings_total : total.

Lemma saveUser_total (user : User.t) : never_throws (saveUser user).
Proof. unfold saveUser, setItem_USERS. total. Qed.

Lemma updateUser_total (updatedUser : User.t) : never_throws (updateUser updatedUser).
Proof. unfold updateUser, setItem_USERS. total. Qed.

Lemma saveSeats_total (seats : list Seat.t) : never_throws (saveSeats seats).
Proof. unfold saveSeats, setItem_SEATS. total. Qed.

Lemma createBooking_total (booking : Booking.t) : never_throws (createBooking booking).
Proof. unfold createBooking, setItem_BOOKINGS. total. Qed.

Lemma cancelBooking_total (bookingId : jsstring) : never_throws (cancelBooking bookingId).
Proof. unfold cancelBooking, setItem_BOOKINGS. total. Qed.

Lemma toggleSeatMaintenance_total (seatId : jsstring) :
  never_throws (toggleSeatMaintenance seatId).
Proof.
  unfold toggleSeatMaintenance, setItem_SEATS, elements, assign. total.
Qed.

#[local] Hint Resolve saveUser_total updateUser_total saveSeats_total
  createBooking_total cancelBooking_total toggleSeatMaintenance_total : total.

Lemma perform_total (op : Operation) : never_throws (perform op).
Proof.
  destruct op; unfold perform, getSession, setSession, clearSession,
    putItem_CURRENT_USER; total.
Qed.

(** Sequencing after an operation that cannot reject. *)
Lemma exec_seq {A B : Type} (m : Async A) (k : A -> Async B) (w : World) :
  never_throws m ->
  exists a, result m w = Return a /\ exec (m ≫= k) w = exec (k a) (exec m w)
            /\ result (m ≫= k) w = result (k a) (exec m w).
Proof.
  intros Hm. destruct (Hm w) as [a Ha]. exists a.
  unfold exec, result, mbind, Async_bind in *.
  destruct (m w) as [[a'|e] w']; simpl in *; [|discriminate].
  injection Ha as ->. auto.
Qed.

Lemma exec_perform_createBooking (booking : Booking.t) (w : World) :
  exec (perform (CreateBooking booking)) w = exec (createBooking booking) w.
Proof.
  cbn [perform].
  destruct (exec_seq (createBooking booking) (fun _ => mret ()) w
              (createBooking_total booking)) as (ok & _ & -> & _).
  reflexivity.
Qed.

(** C1. Every sequence of [createBooking] calls keeps the ACTIVE records of
    the fallback store on distinct (seatId, date, startTime), whichever
    calls reach the backend and whichever fall back; and a call that runs
    against the fallback store resolves to [false] and leaves the store as
    it is when an ACTIVE record occupies the seat and slot, and otherwise
    appends the new record and resolves to [true]. *)
Theorem createBooking_seat_slot_invariant :
  (forall (w : World) (requests : list Booking.t),
     seat_slots_unique (stored_bookings w) ->
     seat_slots_unique
       (stored_bookings (exec (perform_all (CreateBooking <$> requests)) w)))
  /\ (forall (w : World) (booking : Booking.t),
        falls_back w (POST_bookings booking) ->
        ((exists a, a ∈ stored_bookings w /\ Booking.status a = ACTIVE
                    /\ slot_key a = slot_key booking) ->
         result (createBooking booking) w = Return false
         /\ localStorage (exec (createBooking booking) w) = localStorage w)
        /\ (~ (exists a, a ∈ stored_bookings w /\ Booking.status a = ACTIVE
                         /\ slot_key a = slot_key booking) ->
            result (createBooking booking) w = Return true
            /\ localStorage (exec (createBooking booking) w)
               = with_bookings (stored_bookings w ++ [booking]) (localStorage w))).
Proof.
  split.
  - intros w requests. revert w.
    induction requests as [|b requests IH]; intros w Huniq; [exact Huniq|].
    cbn [fmap list_fmap perform_all].
    destruct (exec_seq (perform (CreateBooking b))
                (fun _ => perform_all (CreateBooking <$> requests)) w
                (perform_total _)) as ([] & _ & -> & _).
    apply IH. rewrite exec_perform_createBooking. now apply createBooking_keeps.
  - intros w booking Hfb. unfold result, exec.
    rewrite createBooking_falls_back by assumption. cbn zeta.
    split.
    + intros Hocc. apply occupied_spec in Hocc. rewrite Hocc. simpl.
      split; [reflexivity | apply fallen_back_localStorage].
    + intros Hfree.
      destruct (existsb (occupies booking) (stored_bookings w)) eqn:Hocc.
      * exfalso. apply Hfree. now apply occupied_spec.
      * simpl. split; reflexivity.
Qed.

(** *** cancelBooking *)

Lemma list_find_insert {A : Type} (P : A -> Prop) `{!forall x, Decision (P x)}
    (l : list A) (i : nat) (x y : A) :
  list_find P l = Some (i, x) -> P y -> list_find P (<[i := y]> l) = Some (i, y).
Proof.
  intros Hfind Hy. apply list_find_Some in Hfind as (Hi & Hx & Hbefore).
  apply list_find_Some. split; [|split; [assumption|]].
  - apply list_lookup_insert_eq. eapply lookup_lt_Some; eauto.
  - intros j z Hj Hlt. rewrite list_lookup_insert_ne in Hj by lia. eauto.
Qed.

Lemma cancelBooking_falls_back (bookingId : jsstring) (w : World) :
  falls_back w (PUT_bookings_cancel bookingId) ->
  cancelBooking bookingId w
  = let w' := fallen_back (PUT_bookings_cancel bookingId) w in
    match list_find (fun b => Booking.id b = bookingId) (stored_bookings w) with
    | Some (index, b) =>
        (Return (),
         set_localStorage
           (with_bookings (<[index := Booking.with_status CANCELLED b]> (stored_bookings w))
              (localStorage w)) w')
    | None => (Return (), w')
    end.
Proof.
  intros Hfb. unfold cancelBooking.
  rewrite hybrid_falls_back by assumption.
  unfold mbind at 1. unfold Async_bind.
  rewrite getStoredBookings_offline by auto.
  unfold stored_bookings. rewrite !fallen_back_localStorage. cbn zeta.
  destruct (list_find _ _) as [[index b]|]; [|reflexivity].
  unfold setItem_BOOKINGS. run. simpl. now rewrite !fallen_back_localStorage.
Qed.

(** C7. Against the fallback store, [cancelBooking] sets the status of the
    booking it finds under the given id to CANCELLED, and a second
    application changes nothing: the world after two applications is the
    world after one. *)
Theorem cancelBooking_idempotent :
  forall (w : World) (bookingId : jsstring),
    falls_back w (PUT_bookings_cancel bookingId) ->
    (exists b, b ∈ stored_bookings w /\ Booking.id b = bookingId) ->
    let w1 := exec (cancelBooking bookingId) w in
    (exists (index : nat) (b : Booking.t),
        list_find (fun b => Booking.id b = bookingId) (stored_bookings w)
        = Some (index, b)
        /\ stored_bookings w1
           = <[index := Booking.with_status CANCELLED b]> (stored_bookings w)
        /\ stored_bookings w1 !! index = Some (Booking.with_status CANCELLED b)
        /\ Booking.status (Booking.with_status CANCELLED b) = CANCELLED)
    /\ exec (cancelBooking bookingId) w1 = w1
    /\ stored_bookings (exec (cancelBooking bookingId) w1) = stored_bookings w1.
Proof.
  intros w bookingId Hfb (b0 & Hin & Hid) w1.
  assert (exists index b,
             list_find (fun b => Booking.id b = bookingId) (stored_bookings w)
             = Some (index, b)) as (index & b & Hfind).
  { destruct (list_find _ _) as [[index b]|] eqn:Hfind; [eauto|].
    apply list_find_None in Hfind. rewrite Forall_forall in Hfind.
    exfalso. eapply Hfind; eauto. }
  assert (w1 = set_localStorage
                 (with_bookings
                    (<[index := Booking.with_status CANCELLED b]> (stored_bookings w))
                    (localStorage w))
                 (fallen_back (PUT_bookings_cancel bookingId) w)) as Hw1.
  { unfold w1, exec. rewrite cancelBooking_falls_back by assumption.
    cbn zeta. now rewrite Hfind. }
  assert (isOfflineMode w1 = true) as Hoff1
    by (rewrite Hw1; simpl; apply fallen_back_offline).
  assert (stored_bookings w1
          = <[index := Booking.with_status CANCELLED b]> (stored_bookings w)) as Hst1
    by (rewrite Hw1; reflexivity).
  pose proof Hfind as Hfind'.
  apply list_find_Some in Hfind' as (Hlook & Hidb & _).
  assert (exec (cancelBooking bookingId) w1 = w1) as Hidem.
  { unfold exec. rewrite cancelBooking_falls_back by auto. cbn zeta.
    rewrite Hst1.
    rewrite (list_find_insert _ _ _ _ (Booking.with_status CANCELLED b) Hfind)
      by exact Hidb.
    rewrite list_insert_insert_eq. rewrite fallen_back_id by assumption.
    rewrite Hw1. reflexivity. }
  split; [|split; [exact Hidem | now rewrite Hidem]].
  exists index, b. repeat split; try assumption.
  rewrite Hst1. apply list_lookup_insert_eq. eapply lookup_lt_Some; eauto.
Qed.

(** ** The maintenance flag *)

Lemma toggled_toggled (s : Seat.t) : Seat.toggled (Seat.toggled s) = s.
Proof. destruct s as [i l t m x y r]. unfold Seat.toggled. simpl. now rewrite negb_involutive. Qed.

Lemma toggleSeatMaintenance_falls_back (seatId : jsstring) (w : World) :
  falls_back w (POST_seats_toggle_maintenance seatId) ->
  toggleSeatMaintenance seatId w
  = let w' := fallen_back (POST_seats_toggle_maintenance seatId) w in
    match libbook_seats (localStorage w) with
    | Some seats =>
        match list_find (fun s => Seat.id s = seatId) seats with
        | Some (index, seat) =>
            (Return (),
             set_localStorage
               (with_seats (<[index := Seat.toggled seat]> seats) (localStorage w)) w')
        | None => (Return (), w')
        end
    | None =>
        let initial := INITIAL_SEATS w in
        match list_find (fun s => Seat.id s = seatId) initial with
        | Some (index, seat) =>
            (Return (),
             set_localStorage
               (with_seats (<[index := Seat.toggled seat]> initial) (localStorage w))
               (set_INITIAL_SEATS (<[index := Seat.toggled seat]> initial) w'))
        | None =>
            (Return (), set_localStorage (with_seats initial (localStorage w)) w')
        end
    end.
Proof.
  intros Hfb. unfold toggleSeatMaintenance.
  rewrite hybrid_falls_back by assumption.
  unfold mbind at 1. unfold Async_bind.
  rewrite getStoredSeats_array_offline by auto.
  rewrite !fallen_back_localStorage, !fallen_back_INITIAL_SEATS. cbn zeta.
  destruct (libbook_seats (localStorage w)) as [seats|].
  - unfold elements, assign, setItem_SEATS. run.
    destruct (list_find _ seats) as [[index seat]|]; [|reflexivity].
    simpl. now rewrite !fallen_back_localStorage.
  - unfold elements, assign, setItem_SEATS. run. simpl.
    rewrite !fallen_back_INITIAL_SEATS.
    destruct (list_find _ (INITIAL_SEATS w)) as [[index seat]|]; [|reflexivity].
    simpl. reflexivity.
Qed.

(** The seats of the fallback store after one application. *)
Lemma toggleSeatMaintenance_stored (seatId : jsstring) (w : World) :
  falls_back w (POST_seats_toggle_maintenance seatId) ->
  stored_seats (exec (toggleSeatMaintenance seatId) w)
  = match list_find (fun s => Seat.id s = seatId) (stored_seats w) with
    | Some (index, seat) => <[index := Seat.toggled seat]> (stored_seats w)
    | None => stored_seats w
    end.
Proof.
  intros Hfb. unfold exec. rewrite toggleSeatMaintenance_falls_back by assumption.
  cbn zeta. unfold stored_seats.
  destruct (libbook_seats (localStorage w)) as [seats|] eqn:Hst; simpl.
  - destruct (list_find _ seats) as [[index seat]|]; simpl; [reflexivity|].
    now rewrite fallen_back_localStorage, Hst.
  - destruct (list_find _ (INITIAL_SEATS w)) as [[index seat]|]; reflexivity.
Qed.

Lemma toggleSeatMaintenance_offline_after (seatId : jsstring) (w : World) :
  falls_back w (POST_seats_toggle_maintenance seatId) ->
  isOfflineMode (exec (toggleSeatMaintenance seatId) w) = true.
Proof.
  intros Hfb. unfold exec. rewrite toggleSeatMaintenance_falls_back by assumption.
  cbn zeta.
  destruct (libbook_seats (localStorage w)) as [seats|];
    destruct (list_find _ _) as [[index seat]|]; simpl; apply fallen_back_offline.
Qed.

(** C10. Against the fallback store, [toggleSeatMaintenance] flips the
    [isMaintenance] flag of the seat it finds under the given id and
    nothing else; a second application restores the seat collection; and
    with an id that no seat carries the collection stays as it is. *)
Theorem toggleSeatMaintenance_involution :
  forall (w : World) (seatId : jsstring),
    falls_back w (POST_seats_toggle_maintenance seatId) ->
    let w1 := exec (toggleSeatMaintenance seatId) w in
    let w2 := exec (toggleSeatMaintenance seatId) w1 in
    ((exists s, s ∈ stored_seats w /\ Seat.id s = seatId) ->
     exists (index : nat) (seat seat' : Seat.t),
       stored_seats w !! index = Some seat /\ Seat.id seat = seatId
       /\ stored_seats w1 !! index = Some seat'
       /\ Seat.isMaintenance seat' = negb (Seat.isMaintenance seat)
       /\ Seat.id seat' = Seat.id seat /\ Seat.label seat' = Seat.label seat
       /\ Seat.type seat' = Seat.type seat /\ Seat.x seat' = Seat.x seat
       /\ Seat.y seat' = Seat.y seat /\ Seat.rotation seat' = Seat.rotation seat
       /\ length (stored_seats w1) = length (stored_seats w)
       /\ (forall j, j <> index -> stored_seats w1 !! j = stored_seats w !! j)
       /\ stored_seats w2 = stored_seats w
       /\ (forall seats, libbook_seats (localStorage w) = Some seats ->
           localStorage w2 = localStorage w))
    /\ ((forall s, s ∈ stored_seats w -> Seat.id s <> seatId) ->
        stored_seats w1 = stored_seats w
        /\ (forall seats, libbook_seats (localStorage w) = Some seats ->
            localStorage w1 = localStorage w)).
Proof.
  intros w seatId Hfb w1 w2.
  assert (isOfflineMode w1 = true) as Hoff1
    by (apply toggleSeatMaintenance_offline_after; assumption).
  pose proof (toggleSeatMaintenance_stored seatId w Hfb) as Hst1. fold w1 in Hst1.
  pose proof (toggleSeatMaintenance_stored seatId w1 (offline_falls_back _ _ Hoff1))
    as Hst2. fold w2 in Hst2.
  split.
  - intros (s0 & Hin & Hid).
    destruct (list_find (fun s => Seat.id s = seatId) (stored_seats w))
      as [[index seat]|] eqn:Hfind.
    2:{ apply list_find_None in Hfind. rewrite Forall_forall in Hfind.
        exfalso. eapply Hfind; eauto. }
    pose proof Hfind as Hfind'.
    apply list_find_Some in Hfind' as (Hlook & Hidseat & _).
    assert (index < length (stored_seats w))%nat as Hlt
      by (eapply lookup_lt_Some; eauto).
    assert (stored_seats w2 = stored_seats w) as Hback.
    { rewrite Hst2, Hst1.
      rewrite (list_find_insert _ _ _ _ (Seat.toggled seat) Hfind) by exact Hidseat.
      rewrite list_insert_insert_eq, toggled_toggled.
      now apply list_insert_id. }
    exists index, seat, (Seat.toggled seat).
    rewrite Hst1.
    repeat split; try assumption; try reflexivity.
    + now apply list_lookup_insert_eq.
    + apply length_insert.
    + intros j Hj. now apply list_lookup_insert_ne.
    + intros seats Hsome.
      assert (stored_seats w = seats) as Hs by (unfold stored_seats; now rewrite Hsome).
      unfold w2, w1, exec.
      rewrite (toggleSeatMaintenance_falls_back seatId w) by assumption. cbn zeta.
      rewrite Hsome. rewrite <- Hs, Hfind. simpl.
      rewrite toggleSeatMaintenance_falls_back by (left; simpl; apply fallen_back_offline).
      cbn zeta. simpl.
      rewrite (list_find_insert _ _ _ _ (Seat.toggled seat) Hfind) by exact Hidseat.
      simpl. rewrite list_insert_insert_eq, toggled_toggled.
      rewrite list_insert_id by assumption.
      rewrite Hs. destruct (localStorage w); simpl in *. now rewrite Hsome.
  - intros Hnone.
    assert (list_find (fun s => Seat.id s = seatId) (stored_seats w) = None) as Hfind.
    { apply list_find_None. rewrite Forall_forall. exact Hnone. }
    rewrite Hfind in Hst1. split; [exact Hst1|].
    intros seats Hsome.
    assert (stored_seats w = seats) as Hs by (unfold stored_seats; now rewrite Hsome).
    unfold w1, exec.
    rewrite (toggleSeatMaintenance_falls_back seatId w) by assumption. cbn zeta.
    rewrite Hsome. rewrite <- Hs, Hfind. simpl. apply fallen_back_localStorage.
Qed.

(** On a browser that holds no layout yet, the array [getStoredSeats]
    resolves to is the constant itself: the toggle is written to
    [localStorage] and stays in [INITIAL_SEATS] as well. The stored
    collection, which every later read uses, is the one of C10. *)
Lemma toggleSeatMaintenance_through_the_constant :
  INITIAL_SEATS
    (exec (toggleSeatMaintenance (js "s-l2"))
       (page_load Examples.empty_storage Examples.unreachable)) !! 1%nat
  = Some (Seat.toggled Examples.seat_L2)
  /\ libbook_seats
       (localStorage
          (exec (toggleSeatMaintenance (js "s-l2"))
             (page_load Examples.empty_storage Examples.unreachable)))
     = Some (<[1%nat := Seat.toggled Examples.seat_L2]> INITIAL_SEATS_literal).
Proof. split; vm_compute; reflexivity. Qed.

(** ** The sticky offline flag *)

Lemma stays_local_ret {A : Type} (a : A) : stays_local (mret a).
Proof. intros w Hoff. auto. Qed.

Lemma stays_local_throw {A : Type} (e : Error) : stays_local (@throw A e).
Proof. intros w Hoff. auto. Qed.

Lemma stays_local_read {A : Type} (f : World -> A) : stays_local (read f).
Proof. intros w Hoff. auto. Qed.

Lemma stays_local_write (f : World -> World) :
  (forall w, isOfflineMode (f w) = isOfflineMode w /\ calls (f w) = calls w) ->
  stays_local (write f).
Proof. intros Hf w Hoff. unfold exec, write. simpl. destruct (Hf w). split; congruence. Qed.

Lemma stays_local_bind {A B : Type} (m : Async A) (k : A -> Async B) :
  stays_local m -> (forall a, stays_local (k a)) -> stays_local (m ≫= k).
Proof.
  intros Hm Hk w Hoff. rewrite exec_bind. destruct (Hm w Hoff) as [Hoff' Hcalls].
  destruct (result m w) as [a|e]; [|auto].
  destruct (Hk a _ Hoff') as [H1 H2]. split; [exact H1 | now rewrite H2].
Qed.

Lemma stays_local_try_catch {A : Type} (body : Async A) (h : Error -> Async A) :
  stays_local body -> (forall e, stays_local (h e)) -> stays_local (try_catch body h).
Proof.
  intros Hb Hh w Hoff. destruct (Hb w Hoff) as [Hoff' Hcalls].
  unfold exec, try_catch in *. destruct (body w) as [[a|e] w']; simpl in *; [auto|].
  destruct (Hh e w' Hoff') as [H1 H2]. unfold exec in H1, H2.
  split; [exact H1 | now rewrite H2].
Qed.

Lemma stays_local_safeFetch (req : Request) : stays_local (safeFetch req).
Proof.
  intros w Hoff. destruct (safeFetch_frame req w) as (_ & _ & _ & Hid).
  rewrite Hid by assumption. auto.
Qed.

Create HintDb local.

#[local] Hint Resolve stays_local_ret stays_local_throw stays_local_read
  stays_local_safeFetch : local.

Ltac local :=
  repeat first
    [ progress auto with local
    | apply stays_local_try_catch; [|intros ?]
    | apply stays_local_bind; [|intros ?]
    | apply stays_local_write; intros ?; split; reflexivity
    | match goal with
      | |- stays_local (match ?x with _ => _ end) => destruct x
      | |- stays_local (if ?x then _ else _) => destruct x
      | |- stays_local (let _ := _ in _) => cbn zeta
      end ].

Lemma getStoredUsers_local : stays_local getStoredUsers.
Proof. unfold getStoredUsers, getStoredUsers_after, res_json, setItem_USERS. local. Qed.

Lemma getStoredSeats_array_local : stays_local getStoredSeats_array.
Proof. unfold getStoredSeats_array, getStoredSeats_array_after, res_json, setItem_SEATS. local. Qed.

Lemma getStoredSeats_local : stays_local getStoredSeats.
Proof.
  unfold getStoredSeats. apply stays_local_bind; [apply getStoredSeats_array_local|].
  intros []; unfold elements; local.
Qed.

Lemma getStoredBookings_local : stays_local getStoredBookings.
Proof. unfold getStoredBookings, getStoredBookings_after, res_json. local. Qed.

#[local] Hint Resolve getStoredUsers_local getStoredSeats_array_local
  getStoredSeats_local getStoredBookings_local : local.

Lemma perform_local (op : Operation) : stays_local (perform op).
Proof.
  destruct op; unfold perform, saveUser, updateUser, saveSeats, createBooking,
    cancelBooking, toggleSeatMaintenance, getSession, setSession, clearSession,
    putItem_CURRENT_USER, setItem_USERS, setItem_SEATS, setItem_BOOKINGS,
    elements, assign; local.
Qed.

Lemma perform_all_local (ops : list Operation) : stays_local (perform_all ops).
Proof.
  induction ops as [|op ops IH]; cbn [perform_all]; [apply stays_local_ret|].
  apply stays_local_bind; [apply perform_local | intros _; exact IH].
Qed.

Lemma exec_discard {A : Type} (m : Async A) (w : World) :
  exec (m ≫= fun _ => mret ()) w = exec m w.
Proof. unfold exec, mbind, Async_bind. now destruct (m w) as [[a|e] w']. Qed.

Lemma exec_elements (m : Async SeatArray) (w : World) :
  exec (m ≫= elements) w = exec m w.
Proof. unfold exec, mbind, Async_bind. now destruct (m w) as [[[seats|]|e] w']. Qed.

(** An operation whose call fails ends offline, having made that one call. *)
(** *** The writes, against the fallback store *)

Lemma getStoredUsers_falls_back (w : World) :
  falls_back w GET_users ->
  getStoredUsers w
  = (Return (stored_users w),
     match libbook_users (localStorage w) with
     | Some _ => fallen_back GET_users w
     | None =>
         set_localStorage (with_users [ADMIN_USER; DEMO_STUDENT] (localStorage w))
           (fallen_back GET_users w)
     end).
Proof.
  intros Hfb. unfold getStoredUsers, getStoredUsers_after. rewrite hybrid_falls_back by assumption.
  unfold stored_users, setItem_USERS. run. cbn [fst snd].
  rewrite !fallen_back_localStorage.
  destruct (libbook_users (localStorage w)); [reflexivity|].
  simpl. now rewrite !fallen_back_localStorage.
Qed.

Lemma saveUser_falls_back (user : User.t) (w : World) :
  falls_back w (POST_users user) ->
  saveUser user w
  = (Return (),
     set_localStorage (with_users (stored_users w ++ [user]) (localStorage w))
       (fallen_back (POST_users user) w)).
Proof.
  intros Hfb. unfold saveUser. rewrite hybrid_falls_back by assumption.
  unfold mbind at 1. unfold Async_bind.
  rewrite getStoredUsers_offline by auto.
  unfold stored_users, setItem_USERS, write. rewrite !fallen_back_localStorage.
  destruct (libbook_users (localStorage w)); simpl;
    now rewrite ?fallen_back_localStorage.
Qed.

Lemma saveSeats_falls_back (seats : list Seat.t) (w : World) :
  falls_back w (POST_seats seats) ->
  saveSeats seats w
  = (Return (),
     set_localStorage (with_seats seats (localStorage w))
       (fallen_back (POST_seats seats) w)).
Proof.
  intros Hfb. unfold saveSeats. rewrite hybrid_falls_back by assumption.
  unfold setItem_SEATS, write. now rewrite !fallen_back_localStorage.
Qed.

Lemma updateUser_falls_back (updatedUser : User.t) (w : World) :
  falls_back w (PUT_users updatedUser) ->
  updateUser updatedUser w
  = let w' := fallen_back (PUT_users updatedUser) w in
    match list_find (fun u => User.id u = User.id updatedUser) (stored_users w) with
    | Some (index, _) =>
        (Return (),
         set_localStorage
           (with_users (<[index := updatedUser]> (stored_users w)) (localStorage w)) w')
    | None =>
        (Return (),
         match libbook_users (localStorage w) with
         | Some _ => w'
         | None =>
             set_localStorage
               (with_users [ADMIN_USER; DEMO_STUDENT] (localStorage w)) w'
         end)
    end.
Proof.
  intros Hfb. unfold updateUser. rewrite hybrid_falls_back by assumption.
  unfold mbind at 1. unfold Async_bind.
  rewrite getStoredUsers_offline by auto. cbn zeta.
  unfold stored_users, setItem_USERS, write. rewrite !fallen_back_localStorage.
  destruct (libbook_users (localStorage w)) as [users|];
    destruct (list_find _ _) as [[index u]|]; simpl;
    now rewrite ?fallen_back_localStorage.
Qed.

(** Offline, every operation is served from [localStorage]. *)
Lemma offline_served_locally (v : World) :
  isOfflineMode v = true -> served_locally v.
Proof.
  intros Hoff. unfold served_locally, result, exec.
  split; [now rewrite getStoredUsers_offline|].
  split; [now rewrite getStoredSeats_offline|].
  split; [now rewrite getStoredBookings_offline|].
  split; [|split; [|split; [|split; [|split]]]].
  - intros user. rewrite saveUser_falls_back by auto. reflexivity.
  - intros updatedUser. rewrite updateUser_falls_back by auto. cbn zeta.
    rewrite fallen_back_id by assumption.
    destruct (list_find _ _) as [[index u]|]; [reflexivity|].
    unfold stored_users.
    destruct (libbook_users (localStorage v)) eqn:E; cbn; rewrite ?E; reflexivity.
  - intros seats. rewrite saveSeats_falls_back by auto. reflexivity.
  - intros booking. cbn zeta. rewrite createBooking_falls_back by auto. cbn zeta.
    rewrite fallen_back_id by assumption.
    destruct (existsb _ _); split; reflexivity.
  - intros bookingId. rewrite cancelBooking_falls_back by auto. cbn zeta.
    rewrite fallen_back_id by assumption.
    destruct (list_find _ _) as [[index b]|]; reflexivity.
  - intros seatId. apply toggleSeatMaintenance_stored. auto.
Qed.

Lemma perform_failure (op : Operation) (req : Request) (w : World) :
  remote_call op = Some req ->
  isOfflineMode w = false -> failure (next_reply w req) ->
  isOfflineMode (exec (perform op) w) = true
  /\ calls (exec (perform op) w) = calls w ++ [req].
Proof.
  intros Hreq Hon Hfail.
  assert (falls_back w req) as Hfb by (right; auto).
  assert (forall (B : Type) (k : Response -> Async B) (h : Async B),
             stays_local h ->
             isOfflineMode (exec (try_catch (safeFetch req ≫= k) (fun _ => h)) w) = true
             /\ calls (exec (try_catch (safeFetch req ≫= k) (fun _ => h)) w)
                = calls w ++ [req]) as Hgen.
  { intros B k h Hl. unfold exec. rewrite hybrid_falls_back by assumption.
    destruct (Hl (fallen_back req w) (fallen_back_offline _ _)) as [H1 H2].
    split; [exact H1|]. unfold exec in H2. rewrite H2.
    unfold fallen_back. now rewrite Hon. }
  destruct op; simpl in Hreq; try discriminate; injection Hreq as <-; cbn [perform];
    rewrite ?exec_discard.
  - unfold getStoredUsers, getStoredUsers_after. apply Hgen. unfold setItem_USERS. local.
  - unfold getStoredSeats. rewrite exec_elements.
    unfold getStoredSeats_array, getStoredSeats_array_after. apply Hgen. unfold setItem_SEATS. local.
  - unfold getStoredBookings, getStoredBookings_after. apply Hgen. local.
  - unfold saveUser. apply Hgen. unfold setItem_USERS. local.
  - unfold updateUser. apply Hgen. unfold setItem_USERS. local.
  - unfold saveSeats. apply Hgen. unfold setItem_SEATS. local.
  - unfold createBooking. apply Hgen. unfold setItem_BOOKINGS. local.
  - unfold cancelBooking. apply Hgen. unfold setItem_BOOKINGS. local.
  - unfold toggleSeatMaintenance. apply Hgen.
    unfold setItem_SEATS, elements, assign. local.
Qed.

(** C2. A call to the backend that fails sets the offline flag; so does the
    operation that made it; and from then on, after every sequence of store
    operations, the flag is set, no call has been added to the log of calls
    made to the backend, the operations have completed, and the store is
    the fallback store: the three reads return what [localStorage] holds
    and the six writes are made to it. *)
Theorem offline_mode_is_sticky :
  forall (w : World) (req : Request),
    isOfflineMode w = false ->
    failure (next_reply w req) ->
    (let w1 := exec (safeFetch req) w in
     isOfflineMode w1 = true
     /\ forall ops : list Operation,
          isOfflineMode (exec (perform_all ops) w1) = true
          /\ calls (exec (perform_all ops) w1) = calls w1
          /\ (exists u, result (perform_all ops) w1 = Return u)
          /\ served_locally (exec (perform_all ops) w1))
    /\ (forall op : Operation,
          remote_call op = Some req ->
          let w1 := exec (perform op) w in
          isOfflineMode w1 = true
          /\ calls w1 = calls w ++ [req]
          /\ forall ops : list Operation,
               isOfflineMode (exec (perform_all ops) w1) = true
               /\ calls (exec (perform_all ops) w1) = calls w1
               /\ (exists u, result (perform_all ops) w1 = Return u)
               /\ served_locally (exec (perform_all ops) w1)).
Proof.
  intros w req Hon Hfail.
  assert (never_throws_all : forall ops, never_throws (perform_all ops)).
  { induction ops as [|op ops IH]; cbn [perform_all]; [apply never_throws_ret|].
    apply never_throws_bind; [apply perform_total | intros _; exact IH]. }
  assert (forall w1 ops,
             isOfflineMode w1 = true ->
             isOfflineMode (exec (perform_all ops) w1) = true
             /\ calls (exec (perform_all ops) w1) = calls w1
             /\ (exists u, result (perform_all ops) w1 = Return u)
             /\ served_locally (exec (perform_all ops) w1)) as Hafter.
  { intros w1 ops Hoff1. destruct (perform_all_local ops w1 Hoff1) as [H1 H2].
    split; [exact H1|]. split; [exact H2|]. split; [apply never_throws_all|].
    now apply offline_served_locally. }
  split.
  - destruct (safeFetch_failure req w Hon Hfail) as [e He].
    cbn zeta. unfold exec at 1. rewrite He. cbn [snd]. split; [reflexivity|].
    intros ops. replace (exec (safeFetch req) w)
      with (set_isOfflineMode true (log_call req w)) by (unfold exec; now rewrite He).
    now apply Hafter.
  - intros op Hreq w1.
    destruct (perform_failure op req w Hreq Hon Hfail) as [H1 H2]. fold w1 in H1, H2.
    split; [exact H1|]. split; [exact H2|]. intros ops. now apply Hafter.
Qed.

(** ** Calls in flight *)

(** [safeFetch] is its two parts, one after the other. *)
Lemma safeFetch_split (req : Request) (w : World) :
  safeFetch req w = (safeFetch_start req ≫= safeFetch_settle) w.
Proof.
  unfold safeFetch, safeFetch_start, safeFetch_settle, fetch, settled. run.
  cbn [fst snd]. destruct (isOfflineMode w) eqn:Hoff; [reflexivity|].
  cbn [backend log_call calls isOfflineMode].
  destruct (reply (backend w) (length (calls w)) req) as [| |st]; cbn;
    rewrite ?Hoff; reflexivity.
Qed.

Lemma safeFetch_start_offline (req : Request) (w : World) :
  isOfflineMode w = true -> safeFetch_start req w = (Return rejected, w).
Proof. intros Hoff. unfold safeFetch_start. run. cbn. now rewrite Hoff. Qed.

Lemma safeFetch_start_online (req : Request) (w : World) :
  isOfflineMode w = false ->
  safeFetch_start req w = (Return (issued (length (calls w)) req), log_call req w).
Proof. intros Hon. unfold safeFetch_start. run. cbn. now rewrite Hon. Qed.

Lemma safeFetch_settle_failure (n : nat) (req : Request) (w : World) :
  failure (reply (backend w) n req) ->
  exists e, safeFetch_settle (issued n req) w = (Throw e, set_isOfflineMode true w)
            \/ (isOfflineMode w = true
                /\ safeFetch_settle (issued n req) w = (Throw e, w)).
Proof.
  intros Hfail. unfold safeFetch_settle, settled. run. cbn [fst snd].
  destruct (reply (backend w) n req) as [| |st]; cbn in *.
  - exists FailedToFetch. destruct (isOfflineMode w); cbn; auto.
  - exists AbortError. destruct (isOfflineMode w); cbn; auto.
  - exists ServerError.
    replace (negb (ok {| status := st; call := n |})) with true
      by (unfold ok; cbn; destruct (Z.leb_spec st 299); [lia | now rewrite andb_false_r]).
    replace (500 <=? st) with true by (symmetry; apply Z.leb_le; exact Hfail).
    destruct (isOfflineMode w); cbn; auto.
Qed.

(** The case analysis of a call that settles and of the read that takes
    it up: how the call ends is decided first, then the computation is
    carried out. *)
Ltac settles c w n req st :=
  destruct c as [|n req];
  [|destruct (reply (backend w) n req) as [| |st] eqn:?;
    [| |destruct (negb (ok {| status := st; call := n |})) eqn:?,
          (500 <=? st) eqn:?]].

Ltac carry_out :=
  repeat first
    [ progress cbn -[ok Z.leb]
    | match goal with H : ?l = _ |- context [?l] => rewrite H end ].

(** A read that takes up a rejected call is the read of an offline
    process. *)
Lemma rejected_is_offline (w : World) :
  isOfflineMode w = true ->
  getStoredSeats_after (safeFetch_settle rejected) w = getStoredSeats w
  /\ getStoredUsers_after (safeFetch_settle rejected) w = getStoredUsers w
  /\ getStoredBookings_after (safeFetch_settle rejected) w = getStoredBookings w.
Proof.
  intros Hoff.
  unfold getStoredSeats_after, getStoredSeats, getStoredSeats_array,
    getStoredSeats_array_after, getStoredUsers, getStoredUsers_after,
    getStoredBookings, getStoredBookings_after, try_catch, mbind, Async_bind.
  rewrite !safeFetch_offline by assumption. repeat split.
Qed.


(** X27. The order in which the two requests of a load settle does not
    matter: whatever became of the two calls (rejected by the offline
    test, failed, answered with or without a readable body), taking up the
    read of the seats and then the read of the bookings, or the other way
    round, gives the same seats, the same bookings and the same world. *)
Theorem settlement_order (seats_call bookings_call : InFlight) (w : World) :
  (s ← getStoredSeats_after (safeFetch_settle seats_call);
   b ← getStoredBookings_after (safeFetch_settle bookings_call);
   mret (s, b)) w
  = (b ← getStoredBookings_after (safeFetch_settle bookings_call);
     s ← getStoredSeats_after (safeFetch_settle seats_call);
     mret (s, b)) w.
Proof.
  unfold getStoredSeats_after, getStoredSeats_array_after, getStoredBookings_after,
    safeFetch_settle, settled, res_json, setItem_SEATS, elements.
  run.
  destruct (isOfflineMode w) eqn:Hoff, (libbook_seats (localStorage w)) eqn:Hseats;
    settles seats_call w n req st; try destruct (json_seats (backend w) n) eqn:?;
    settles bookings_call w m req' st'; try destruct (json_bookings (backend w) m) eqn:?;
    carry_out; reflexivity.
Qed.

(** ** The student booking flow *)

Lemma getStoredSeats_falls_back (w : World) :
  falls_back w GET_seats ->
  exists w',
    getStoredSeats w = (Return (stored_seats w), w')
    /\ isOfflineMode w' = true
    /\ stored_bookings w' = stored_bookings w.
Proof.
  intros Hfb. unfold getStoredSeats, getStoredSeats_array, getStoredSeats_array_after.
  unfold mbind at 1. unfold Async_bind at 1.
  rewrite hybrid_falls_back by assumption.
  unfold stored_seats, stored_bookings, setItem_SEATS. run.
  cbn [fst snd]. rewrite fallen_back_localStorage.
  destruct (libbook_seats (localStorage w)) as [seats|].
  - eexists. split; [reflexivity|].
    split; [apply fallen_back_offline | now rewrite fallen_back_localStorage].
  - eexists. split.
    + unfold elements, read. cbn [INITIAL_SEATS set_localStorage default].
      rewrite ?fallen_back_INITIAL_SEATS. reflexivity.
    + cbn [isOfflineMode localStorage set_localStorage libbook_bookings].
      rewrite fallen_back_localStorage.
      split; [apply fallen_back_offline | reflexivity].
Qed.


Lemma loadData_offline (st : StudentDashboard.State) (w : World) :
  isOfflineMode w = true ->
  exists w',
    StudentDashboard.loadData st w
    = (Return (StudentDashboard.setIsLoading false
                 (StudentDashboard.setBookings (stored_bookings w)
                    (StudentDashboard.setSeats (stored_seats w) st))), w')
    /\ isOfflineMode w' = true
    /\ stored_bookings w' = stored_bookings w.
Proof.
  intros Hoff. unfold StudentDashboard.loadData, try_catch, mbind, Async_bind.
  rewrite !safeFetch_start_offline by assumption.
  destruct (rejected_is_offline w Hoff) as (-> & _).
  destruct (getStoredSeats_falls_back w (offline_falls_back _ _ Hoff))
    as (w1 & -> & Hoff1 & Hst1).
  destruct (rejected_is_offline w1 Hoff1) as (_ & _ & ->).
  rewrite getStoredBookings_offline by assumption.
  rewrite Hst1. eauto.
Qed.


(** X28. A load can show the backend's bookings in a process that has
    gone offline. When the process is online, the request for the seats
    fails and the request for the bookings, issued with it, is answered
    with a readable body, the load shows the seats of the fallback store
    and the bookings the backend sent, not those of the fallback store, and
    leaves the process offline, both calls made. *)
Theorem loadData_seats_down :
  forall (w : World) (st : StudentDashboard.State) (code : Z) (b : list Booking.t),
    isOfflineMode w = false ->
    failure (reply (backend w) (length (calls w)) GET_seats) ->
    reply (backend w) (S (length (calls w))) GET_bookings = Responded code ->
    code < 500 ->
    json_bookings (backend w) (S (length (calls w))) = Some b ->
    exists w',
      StudentDashboard.loadData st w
      = (Return (StudentDashboard.setIsLoading false
                   (StudentDashboard.setBookings b
                      (StudentDashboard.setSeats (stored_seats w) st))), w')
      /\ isOfflineMode w' = true
      /\ calls w' = calls w ++ [GET_seats; GET_bookings]
      /\ stored_bookings w' = stored_bookings w.
Proof.
  intros w st code b Hon Hfail Hrep Hlt Hjson.
  assert (negb (ok {| status := code; call := S (length (calls w)) |})
          && (500 <=? code) = false) as Hok
    by (apply andb_false_iff; right; apply Z.leb_gt; exact Hlt).
  unfold StudentDashboard.loadData, try_catch, mbind, Async_bind.
  rewrite safeFetch_start_online by assumption.
  rewrite safeFetch_start_online by assumption.
  cbn [calls log_call]. rewrite length_app. cbn [length].
  replace (length (calls w) + 1)%nat with (S (length (calls w))) by lia.
  unfold getStoredSeats_after, getStoredSeats_array_after, getStoredBookings_after,
    try_catch, mbind, Async_bind.
  destruct (safeFetch_settle_failure (length (calls w)) GET_seats
              (log_call GET_bookings (log_call GET_seats w)) Hfail)
    as [e [-> | [Hoff _]]]; [|cbn in Hoff; congruence].
  unfold safeFetch_settle, settled, res_json, setItem_SEATS, elements, stored_seats.
  run. cbn [backend set_isOfflineMode log_call set_localStorage localStorage fst snd].
  destruct (libbook_seats (localStorage w)) eqn:Hseats.
  all: cbn [backend set_isOfflineMode log_call set_localStorage localStorage fst snd
            INITIAL_SEATS default].
  all: rewrite Hrep; cbn [fst snd status call].
  all: destruct (negb (ok _)); [destruct (500 <=? code); [discriminate Hok|]|].
  all: cbn [fst snd status call backend set_isOfflineMode log_call set_localStorage].
  all: rewrite Hjson.
  all: eexists; (split; [reflexivity|]); cbn; rewrite <- ?app_assoc; auto.
Qed.

Lemma loadData_seats_down_witness :
  exists w',
    StudentDashboard.loadData (StudentDashboard.initial 0 Examples.nine_utc)
      Examples.visit_with_seats_down
    = (Return (StudentDashboard.setIsLoading false
                 (StudentDashboard.setBookings []
                    (StudentDashboard.setSeats INITIAL_SEATS_literal
                       (StudentDashboard.initial 0 Examples.nine_utc)))), w')
    /\ isOfflineMode w' = true
    /\ stored_bookings w' = [Examples.john_L1].
Proof.
  destruct (loadData_seats_down Examples.visit_with_seats_down
              (StudentDashboard.initial 0 Examples.nine_utc) 200 [])
    as (w' & Hload & Hoff & _ & Hstored).
  - reflexivity.
  - simpl. lia.
  - reflexivity.
  - lia.
  - reflexivity.
  - exists w'. split; [exact Hload|]. split; [exact Hoff | exact Hstored].
Defined.

(** What follows from such a load: the dashboard, though offline, checks
    John's request against the bookings the backend sent, [createBooking]
    against those of the fallback store, and John ends with two ACTIVE
    bookings for 2024-05-11 at 10:00. The failure of the request for the
    seats alone does not make the dashboard and the store agree. *)
Lemma load_with_seats_down_double_books :
  falls_back Examples.visit_with_seats_down GET_seats
  /\ user_slots_unique (stored_bookings Examples.visit_with_seats_down)
  /\ stored_bookings
       (exec (sessions [(DEMO_STUDENT, 0, Examples.nine_utc, Examples.john_books_L2)])
          Examples.visit_with_seats_down)
     = [Examples.john_L1; Examples.john_L2].
Proof.
  split; [right; split; [reflexivity | simpl; lia]|].
  split; [|vm_compute; reflexivity].
  intros i j a b Hij Hi Hj _ _.
  destruct i as [|i]; [|destruct i; discriminate Hi].
  destruct j as [|j]; [|destruct j; discriminate Hj].
  now elim Hij.
Qed.

Lemma holds_spec (user : User.t) (st : StudentDashboard.State) (b : Booking.t) :
  StudentDashboard.holds user st b = true
  <-> Booking.status b = ACTIVE
      /\ user_key b = (User.id user, StudentDashboard.selectedDate st,
                       StudentDashboard.selectedTime st).
Proof.
  unfold StudentDashboard.holds, user_key.
  rewrite !andb_true_iff, !streq_true, bool_decide_eq_true.
  split.
  - intros [[[-> ->] ->] ?]. auto.
  - intros [? [=]]. auto.
Qed.

















(** ** The time slots *)

Lemma ALL_TIME_SLOTS_domain :
  length StudentDashboard.ALL_TIME_SLOTS = 12%nat
  /\ StudentDashboard.hourInt <$> StudentDashboard.ALL_TIME_SLOTS
     = [8; 9; 10; 11; 12; 13; 14; 15; 16; 17; 18; 19]
  /\ StudentDashboard.value <$> StudentDashboard.ALL_TIME_SLOTS
     = js <$> ["08:00"; "09:00"; "10:00"; "11:00"; "12:00"; "13:00"; "14:00";
               "15:00"; "16:00"; "17:00"; "18:00"; "19:00"]%string.
Proof. repeat split; vm_compute; reflexivity. Qed.

(** The computation, in terms of the comparison the code makes. *)
Lemma getAvailableTimeSlots_unfold (tz now : Z) (selectedDate : jsstring) :
  StudentDashboard.getAvailableTimeSlots tz now selectedDate
  = if Date.isSameDay tz (Date.parse_date_only selectedDate) (Some now)
    then List.filter (fun slot => Date.getHours tz now <? StudentDashboard.hourInt slot)
           StudentDashboard.ALL_TIME_SLOTS
    else StudentDashboard.ALL_TIME_SLOTS.
Proof.
  unfold StudentDashboard.getAvailableTimeSlots. cbn zeta.
  destruct (Date.isSameDay _ _ _); [reflexivity|].
  induction StudentDashboard.ALL_TIME_SLOTS as [|s l IH]; [reflexivity|].
  simpl. now rewrite IH.
Qed.

(** A date-only string denotes midnight UTC of some day. *)
Lemma parse_date_only_midnight (s : jsstring) (t : Z) :
  Date.parse_date_only s = Some t -> exists day, t = day * Date.msPerDay.
Proof.
  unfold Date.parse_date_only. intros H.
  repeat match type of H with
         | match ?x with _ => _ end = _ => destruct x; try discriminate H
         | (if ?b then _ else _) = _ => destruct b; try discriminate H
         end.
  injection H as <-. eauto.
Qed.

(** On a host at or east of UTC, midnight UTC of a day falls on that day;
    on a host west of UTC it falls on the day before. *)
Lemma localDay_of_midnight_east (tz day : Z) :
  0 <= tz < 1440 -> Date.localDay tz (day * Date.msPerDay) = day.
Proof.
  intros Htz. unfold Date.localDay, Date.msPerDay, Date.msPerMinute.
  symmetry. apply (Z.div_unique_pos _ _ _ (tz * 60000)); lia.
Qed.

Lemma localDay_of_midnight_west (tz day : Z) :
  -1440 <= tz < 0 -> Date.localDay tz (day * Date.msPerDay) = day - 1.
Proof.
  intros Htz. unfold Date.localDay, Date.msPerDay, Date.msPerMinute.
  symmetry. apply (Z.div_unique_pos _ _ _ (86400000 + tz * 60000)); lia.
Qed.

(** East of UTC the slots of the selected day are filtered exactly when
    that day is the host's current day. *)
Lemma getAvailableTimeSlots_east_of_UTC (tz now day : Z) (selectedDate : jsstring) :
  0 <= tz < 1440 ->
  Date.parse_date_only selectedDate = Some (day * Date.msPerDay) ->
  StudentDashboard.getAvailableTimeSlots tz now selectedDate
  = if day =? Date.localDay tz now
    then List.filter (fun slot => Date.getHours tz now <? StudentDashboard.hourInt slot)
           StudentDashboard.ALL_TIME_SLOTS
    else StudentDashboard.ALL_TIME_SLOTS.
Proof.
  intros Htz Hparse. rewrite getAvailableTimeSlots_unfold, Hparse.
  unfold Date.isSameDay. now rewrite localDay_of_midnight_east.
Qed.

(** West of UTC they are filtered exactly when the selected day is the day
    after the host's current day. *)
Lemma getAvailableTimeSlots_west_of_UTC (tz now day : Z) (selectedDate : jsstring) :
  -1440 <= tz < 0 ->
  Date.parse_date_only selectedDate = Some (day * Date.msPerDay) ->
  StudentDashboard.getAvailableTimeSlots tz now selectedDate
  = if day - 1 =? Date.localDay tz now
    then List.filter (fun slot => Date.getHours tz now <? StudentDashboard.hourInt slot)
           StudentDashboard.ALL_TIME_SLOTS
    else StudentDashboard.ALL_TIME_SLOTS.
Proof.
  intros Htz Hparse. rewrite getAvailableTimeSlots_unfold, Hparse.
  unfold Date.isSameDay. now rewrite localDay_of_midnight_west.
Qed.

(** C4, at the failing input. A host five hours west of UTC, at 10:00 of
    2024-05-10 on its clock (15:00 UTC). The dashboard opens on the date
    2024-05-10, its first choice of date, and offers all twelve slots, the
    elapsed 08:00, 09:00 and 10:00 among them; for the next day,
    2024-05-11, it offers only the slots after 10:00. *)
Theorem getAvailableTimeSlots_today_unfiltered_west_of_UTC :
  StudentDashboard.selectedDate
    (StudentDashboard.initial (-300) (19853 * Date.msPerDay + 15 * Date.msPerHour))
  = js "2024-05-10"
  /\ StudentDashboard.availableDates (-300) (19853 * Date.msPerDay + 15 * Date.msPerHour)
     = [js "2024-05-10"; js "2024-05-11"; js "2024-05-12"]
  /\ Date.getHours (-300) (19853 * Date.msPerDay + 15 * Date.msPerHour) = 10
  /\ StudentDashboard.hourInt
       <$> StudentDashboard.getAvailableTimeSlots (-300)
             (19853 * Date.msPerDay + 15 * Date.msPerHour) (js "2024-05-10")
     = [8; 9; 10; 11; 12; 13; 14; 15; 16; 17; 18; 19]
  /\ StudentDashboard.hourInt
       <$> StudentDashboard.getAvailableTimeSlots (-300)
             (19853 * Date.msPerDay + 15 * Date.msPerHour) (js "2024-05-11")
     = [11; 12; 13; 14; 15; 16; 17; 18; 19].
Proof. repeat split; vm_compute; reflexivity. Qed.

(** ** The access controller *)

Lemma safeFetch_calls (req : Request) (w : World) :
  calls (exec (safeFetch req) w) = calls w
  \/ calls (exec (safeFetch req) w) = calls w ++ [req].
Proof.
  destruct (falls_back_or_answered w req) as [[Hoff | [Hon Hfail]] | (Hon & st & Hrep & Hlt)].
  - left. unfold exec. now rewrite safeFetch_offline.
  - right. destruct (safeFetch_failure req w Hon Hfail) as [e He].
    unfold exec. now rewrite He.
  - right. unfold exec. now rewrite (safeFetch_answer req w st).
Qed.

(** Reading the users never changes what the fallback store holds, beyond
    writing the built-in accounts into a store that had none, and makes no
    call other than the read itself. *)
Lemma getStoredUsers_effect (w : World) :
  exists users w',
    getStoredUsers w = (Return users, w')
    /\ stored_users w' = stored_users w
    /\ (forall l, libbook_users (localStorage w) = Some l ->
        localStorage w' = localStorage w)
    /\ (calls w' = calls w \/ calls w' = calls w ++ [GET_users]).
Proof.
  unfold getStoredUsers, getStoredUsers_after, try_catch, mbind, Async_bind.
  destruct (safeFetch_frame GET_users w) as (Hls & _ & _ & _).
  pose proof (safeFetch_calls GET_users w) as Hcalls.
  unfold exec in Hls, Hcalls.
  assert (forall w1, localStorage w1 = localStorage w ->
            (calls w1 = calls w \/ calls w1 = calls w ++ [GET_users]) ->
            exists users w',
              (let (c, w'0) := read (fun w0 => libbook_users (localStorage w0)) w1 in
               match c with
               | Return a =>
                   match a with
                   | Some users0 => mret users0
                   | None =>
                       let initial := [ADMIN_USER; DEMO_STUDENT] in
                       setItem_USERS initial ≫= fun _ => mret initial
                   end w'0
               | Throw e => (Throw e, w'0)
               end) = (Return users, w')
              /\ stored_users w' = stored_users w
              /\ (forall l, libbook_users (localStorage w) = Some l ->
                  localStorage w' = localStorage w)
              /\ (calls w' = calls w \/ calls w' = calls w ++ [GET_users])) as Hhandler.
  { intros w1 Hls1 Hc1. unfold read. simpl. rewrite Hls1.
    destruct (libbook_users (localStorage w)) as [l|] eqn:Hst.
    - exists l, w1. split; [reflexivity|]. unfold stored_users. rewrite Hls1, Hst.
      repeat split; auto.
    - eexists _, _. split; [reflexivity|]. unfold stored_users. simpl. rewrite Hst.
      repeat split; [discriminate | exact Hc1]. }
  destruct (safeFetch GET_users w) as [[res|e] w1]; simpl in Hls, Hcalls;
    [|now apply Hhandler].
  unfold res_json, read, mbind, Async_bind, mret, Async_ret, throw.
  destruct (json_users (backend w1) (call res)) as [users|]; [|now apply Hhandler].
  exists users, w1. split; [reflexivity|]. unfold stored_users. rewrite Hls.
  repeat split; auto.
Qed.

Lemma validateForm_setError (msg : string) (st : Auth.State) :
  Auth.validateForm (Auth.setError msg st) = Auth.validateForm st.
Proof. reflexivity. Qed.

(** C5. Registration with an email some user of the collection already has
    makes no [onLogin] call, creates and persists nothing (the collection
    read back is the same, and the only call made, if any, is the read of
    the users), and ends with an error. For a form that passes
    [validateForm], as every form that reaches [register] does, the error
    is the one for a taken email; a form that does not pass ends with its
    validation message before the store is touched at all. *)
Theorem register_duplicate_email :
  forall (w : World) (now : Z) (st : Auth.State) (users : list User.t),
    Auth.isLogin st = false ->
    result getStoredUsers w = Return users ->
    (exists u, u ∈ users /\ User.email u = Auth.email (Auth.formData st)) ->
    exists st',
      result (Auth.handleSubmit now st) w = Return (st', None)
      /\ stored_users (exec (Auth.handleSubmit now st) w) = stored_users w
      /\ (forall l, libbook_users (localStorage w) = Some l ->
          localStorage (exec (Auth.handleSubmit now st) w) = localStorage w)
      /\ (calls (exec (Auth.handleSubmit now st) w) = calls w
          \/ calls (exec (Auth.handleSubmit now st) w) = calls w ++ [GET_users])
      /\ (Auth.validateForm st = None ->
          Auth.error st' = js "An account with this email already exists."
          /\ exec (Auth.handleSubmit now st) w = exec getStoredUsers w)
      /\ (forall msg, Auth.validateForm st = Some msg ->
          Auth.error st' = js msg /\ exec (Auth.handleSubmit now st) w = w).
Proof.
  intros w now st users Hreg Husers (u & Hin & Hemail).
  destruct (getStoredUsers_effect w) as (users' & w' & Hget & Hst & Hls & Hcalls).
  unfold result in Husers. rewrite Hget in Husers. simpl in Husers.
  injection Husers as ->.
  unfold Auth.handleSubmit, result, exec. cbn zeta.
  rewrite validateForm_setError.
  destruct (Auth.validateForm st) as [msg|] eqn:Hvalid.
  - eexists. split; [reflexivity|]. simpl.
    repeat split; auto; try discriminate. congruence.
  - unfold try_catch, mbind, Async_bind. rewrite Hget.
    assert (Auth.isLogin (Auth.setError "" st) = false) as -> by exact Hreg.
    destruct (list_find _ users) as [[i u']|] eqn:Hfind.
    + eexists. split; [reflexivity|]. simpl.
      repeat split; auto; try discriminate.
    + apply list_find_None in Hfind. rewrite Forall_forall in Hfind.
      exfalso. exact (Hfind u Hin Hemail).
Qed.

Lemma blocked_is_not_invalid :
  js "Your account has been blocked by the administrator."
  <> js "Invalid credentials. Please try again.".
Proof. discriminate. Qed.

(** The outcome of a sign-in whose scan of the users stops at [user]. *)
Lemma login_found (w : World) (now : Z) (st : Auth.State) (users : list User.t)
    (index : nat) (user : User.t) :
  Auth.isLogin st = true ->
  Auth.validateForm st = None ->
  result getStoredUsers w = Return users ->
  list_find (Auth.credentials_match (Auth.formData st)) users = Some (index, user) ->
  (User.isBlocked user = true ->
   exists st',
     result (Auth.handleSubmit now st) w = Return (st', None)
     /\ Auth.error st' = js "Your account has been blocked by the administrator."
     /\ Auth.error st' <> js "Invalid credentials. Please try again.")
  /\ (User.isBlocked user = false ->
      exists st', result (Auth.handleSubmit now st) w = Return (st', Some user)).
Proof.
  intros Hlogin Hvalid Husers Hfind.
  destruct (getStoredUsers_effect w) as (users' & w' & Hget & _).
  unfold result in Husers. rewrite Hget in Husers. simpl in Husers.
  injection Husers as ->.
  unfold Auth.handleSubmit, result. cbn zeta.
  rewrite validateForm_setError, Hvalid.
  unfold try_catch, mbind, Async_bind. rewrite Hget.
  assert (Auth.isLogin (Auth.setError "" st) = true) as -> by exact Hlogin.
  change (Auth.formData (Auth.setError "" st)) with (Auth.formData st).
  rewrite Hfind.
  split; intros ->.
  - eexists. split; [reflexivity|].
    split; [reflexivity | exact blocked_is_not_invalid].
  - eexists. reflexivity.
Qed.

Lemma unique_email_found (fd : Auth.FormData) (users : list User.t) (user : User.t) :
  NoDup (User.email <$> users) ->
  user ∈ users -> Auth.credentials_match fd user ->
  exists index, list_find (Auth.credentials_match fd) users = Some (index, user).
Proof.
  intros Hnodup Hin Hmatch.
  destruct (list_find (Auth.credentials_match fd) users) as [[index user']|] eqn:Hfind.
  - exists index. apply list_find_Some in Hfind as (Hlook & Hmatch' & _).
    apply list_elem_of_lookup in Hin as [j Hj].
    assert (index = j) as ->.
    { eapply (NoDup_lookup _ _ _ (User.email user') Hnodup).
      - rewrite list_lookup_fmap, Hlook. reflexivity.
      - rewrite list_lookup_fmap, Hj. simpl.
        destruct Hmatch as [-> _], Hmatch' as [-> _]. reflexivity. }
    congruence.
  - apply list_find_None in Hfind. rewrite Forall_forall in Hfind.
    exfalso. exact (Hfind user Hin Hmatch).
Qed.

(** C6. A sign-in that passes [validateForm] and whose email and password
    are those of a stored user ends, when that user is blocked, with the
    message for blocked accounts, which is not the one for invalid
    credentials, and without an [onLogin] call; when the user is not
    blocked it calls [onLogin] with that user's record. The user is the
    one the scan of the collection finds; with emails unique, as the data
    model has them, it is any stored user with these credentials. *)
Theorem login_blocked_gate :
  forall (w : World) (now : Z) (st : Auth.State) (users : list User.t),
    Auth.isLogin st = true ->
    Auth.validateForm st = None ->
    result getStoredUsers w = Return users ->
    (forall (index : nat) (user : User.t),
        list_find (Auth.credentials_match (Auth.formData st)) users
        = Some (index, user) ->
        (User.isBlocked user = true ->
         exists st',
           result (Auth.handleSubmit now st) w = Return (st', None)
           /\ Auth.error st' = js "Your account has been blocked by the administrator."
           /\ Auth.error st' <> js "Invalid credentials. Please try again.")
        /\ (User.isBlocked user = false ->
            exists st', result (Auth.handleSubmit now st) w = Return (st', Some user)))
    /\ (NoDup (User.email <$> users) ->
        forall user : User.t,
          user ∈ users ->
          User.email user = Auth.email (Auth.formData st) ->
          User.password user = Some (Auth.password (Auth.formData st)) ->
          (User.isBlocked user = true ->
           exists st',
             result (Auth.handleSubmit now st) w = Return (st', None)
             /\ Auth.error st' = js "Your account has been blocked by the administrator."
             /\ Auth.error st' <> js "Invalid credentials. Please try again.")
          /\ (User.isBlocked user = false ->
              exists st', result (Auth.handleSubmit now st) w = Return (st', Some user))).
Proof.
  intros w now st users Hlogin Hvalid Husers. split.
  - intros index user Hfind. now apply (login_found w now st users index user).
  - intros Hnodup user Hin Hemail Hpassword.
    destruct (unique_email_found (Auth.formData st) users user Hnodup Hin
                (conj Hemail Hpassword)) as [index Hfind].
    now apply (login_found w now st users index user).
Qed.

(** ** The layout editor *)

(** The numeral [toString] writes reads back as the number. *)
Lemma toString_numeral (n : Z) :
  exists numeral : string,
    toString n = js numeral
    /\ Z.of_int <$> NilZero.int_of_string numeral = Some n.
Proof.
  exists (NilZero.string_of_int (Z.to_int n)). split; [reflexivity|].
  rewrite NilZero.isi.
  - simpl. now rewrite DecimalZ.of_to.
  - destruct n; simpl; try discriminate.
    intros [= H]. now apply Unsigned.to_uint_nonnil in H.
  - destruct n; simpl; try discriminate.
    intros [= H]. now apply Unsigned.to_uint_nonnil in H.
Qed.

Lemma saveSeats_then {A : Type} (seats : list Seat.t) (a : A) (w : World) :
  (saveSeats seats ≫= fun _ => mret a) w = (Return a, exec (saveSeats seats) w).
Proof.
  destruct (saveSeats_total seats w) as [[] Hres].
  unfold result in Hres. unfold exec, mbind, Async_bind.
  destruct (saveSeats seats w) as [[[]|e] w']; simpl in *; [reflexivity | discriminate].
Qed.

(** C8. The label of a grid position is the code unit of 'A' plus the row
    [y], followed by the decimal numeral of the column [x] plus one: "A1"
    at (0, 0) and "C5" at (4, 2). A click on an empty cell in edit mode
    appends a seat at that position under that label when no seat is
    selected, and otherwise moves the selected seat there and relabels it,
    leaving its other fields and the other seats as they were; either way
    the whole collection is saved. *)
Theorem generateLabel_from_grid_position :
  AdminDashboard.generateLabel 0 0 = js "A1"
  /\ AdminDashboard.generateLabel 4 2 = js "C5"
  /\ (forall x y : Z,
        0 <= y < 65471 ->
        exists numeral : string,
          AdminDashboard.generateLabel x y = Z.to_N (65 + y) :: js numeral
          /\ Z.of_int <$> NilZero.int_of_string numeral = Some (x + 1))
  /\ (forall (w : World) (now x y : Z) (st : AdminDashboard.State),
        AdminDashboard.isEditMode st = true ->
        AdminDashboard.selectedSeat st = None ->
        exists (newSeat : Seat.t) (st' : AdminDashboard.State),
          result (AdminDashboard.handleEmptySlotClick now x y st) w = Return st'
          /\ AdminDashboard.seats st' = AdminDashboard.seats st ++ [newSeat]
          /\ Seat.x newSeat = x /\ Seat.y newSeat = y
          /\ Seat.label newSeat = AdminDashboard.generateLabel x y
          /\ exec (AdminDashboard.handleEmptySlotClick now x y st) w
             = exec (saveSeats (AdminDashboard.seats st')) w)
  /\ (forall (w : World) (now x y : Z) (st : AdminDashboard.State) (sel : Seat.t),
        AdminDashboard.isEditMode st = true ->
        AdminDashboard.selectedSeat st = Some sel ->
        exists st' : AdminDashboard.State,
          result (AdminDashboard.handleEmptySlotClick now x y st) w = Return st'
          /\ exec (AdminDashboard.handleEmptySlotClick now x y st) w
             = exec (saveSeats (AdminDashboard.seats st')) w
          /\ forall (i : nat) (s : Seat.t),
               AdminDashboard.seats st !! i = Some s ->
               (Seat.id s = Seat.id sel ->
                exists s', AdminDashboard.seats st' !! i = Some s'
                  /\ Seat.x s' = x /\ Seat.y s' = y
                  /\ Seat.label s' = AdminDashboard.generateLabel x y
                  /\ Seat.id s' = Seat.id s /\ Seat.type s' = Seat.type s
                  /\ Seat.isMaintenance s' = Seat.isMaintenance s
                  /\ Seat.rotation s' = Seat.rotation s)
               /\ (Seat.id s <> Seat.id sel -> AdminDashboard.seats st' !! i = Some s)).
Proof.
  split; [reflexivity|]. split; [reflexivity|]. split; [|split].
  - intros x y Hy. destruct (toString_numeral (x + 1)) as (numeral & Hs & Hread).
    exists numeral. split; [|exact Hread].
    unfold AdminDashboard.generateLabel, fromCharCode. rewrite Hs.
    rewrite Z.mod_small by lia. reflexivity.
  - intros w now x y st Hedit Hnone.
    unfold AdminDashboard.handleEmptySlotClick, result, exec.
    rewrite Hedit, Hnone. cbn [negb]. cbn zeta. rewrite saveSeats_then.
    eexists _, _. split; [reflexivity|]. simpl. repeat split; reflexivity.
  - intros w now x y st sel Hedit Hsel.
    unfold AdminDashboard.handleEmptySlotClick, result, exec.
    rewrite Hedit, Hsel. cbn [negb]. cbn zeta. rewrite saveSeats_then.
    eexists. split; [reflexivity|]. split; [reflexivity|].
    intros i s Hi. cbn [fst AdminDashboard.seats AdminDashboard.setSelectedSeat
                        AdminDashboard.setSeats].
    rewrite list_lookup_fmap, Hi. cbn [fmap option_fmap option_map].
    split.
    + intros Hid. apply streq_true in Hid. rewrite Hid.
      eexists. split; [reflexivity|]. repeat split; reflexivity.
    + intros Hid. destruct (streq (Seat.id s) (Seat.id sel)) eqn:E; [|reflexivity].
      apply streq_true in E. contradiction.
Qed.

Lemma or_zero_id (r : Z) : AdminDashboard.or_zero r = r.
Proof. unfold AdminDashboard.or_zero. destruct (r =? 0) eqn:E; [|reflexivity]. lia. Qed.

Lemma quarter_turn (r : Z) :
  0 <= r < 360 ->
  Z.rem (AdminDashboard.or_zero r + 90) 360 = (r + 90) mod 360
  /\ (r + 90) mod 360 = (if r <? 270 then r + 90 else r - 270)
  /\ 0 <= (r + 90) mod 360 < 360.
Proof.
  intros Hr. rewrite or_zero_id. rewrite Z.rem_mod_nonneg by lia.
  assert ((r + 90) mod 360 = (if r <? 270 then r + 90 else r - 270)) as Hmod.
  { destruct (r <? 270) eqn:E.
    - apply Z.mod_small. lia.
    - symmetry. apply (Z.mod_unique_pos _ _ 1); lia. }
  split; [reflexivity|]. split; [exact Hmod|]. apply Z.mod_pos_bound. lia.
Qed.

Lemma four_quarter_turns (r : Z) :
  0 <= r < 360 ->
  ((((r + 90) mod 360 + 90) mod 360 + 90) mod 360 + 90) mod 360 = r.
Proof.
  intros Hr.
  destruct (quarter_turn r Hr) as (_ & H1 & B1).
  destruct (quarter_turn _ B1) as (_ & H2 & B2).
  destruct (quarter_turn _ B2) as (_ & H3 & B3).
  destruct (quarter_turn _ B3) as (_ & H4 & B4).
  rewrite H4, H3, H2, H1.
  repeat match goal with |- context [?a <? ?b] => destruct (Z.ltb_spec a b) end; lia.
Qed.

Lemma handleRotateSeat_step (st : AdminDashboard.State) (sel : Seat.t) (w : World) :
  AdminDashboard.selectedSeat st = Some sel ->
  AdminDashboard.handleRotateSeat st w
  = (Return
       (AdminDashboard.setSelectedSeat
          (Some (Seat.with_rotation
                   (Z.rem (AdminDashboard.or_zero (Seat.rotation sel) + 90) 360) sel))
          (AdminDashboard.setSeats
             ((fun s => if streq (Seat.id s) (Seat.id sel)
                        then Seat.with_rotation
                               (Z.rem (AdminDashboard.or_zero (Seat.rotation sel) + 90) 360) s
                        else s) <$> AdminDashboard.seats st) st)),
     exec (saveSeats
             ((fun s => if streq (Seat.id s) (Seat.id sel)
                        then Seat.with_rotation
                               (Z.rem (AdminDashboard.or_zero (Seat.rotation sel) + 90) 360) s
                        else s) <$> AdminDashboard.seats st)) w).
Proof.
  intros Hsel. unfold AdminDashboard.handleRotateSeat. rewrite Hsel. cbn zeta.
  apply saveSeats_then.
Qed.

Lemma with_rotation_same (s : Seat.t) : Seat.with_rotation (Seat.rotation s) s = s.
Proof. now destruct s. Qed.

Lemma id_with_rotation (r : Z) (s : Seat.t) :
  Seat.id (Seat.with_rotation r s) = Seat.id s.
Proof. reflexivity. Qed.

Lemma with_rotation_twice (r r' : Z) (s : Seat.t) :
  Seat.with_rotation r (Seat.with_rotation r' s) = Seat.with_rotation r s.
Proof. reflexivity. Qed.

Lemma rotate_four_times_result (w : World) (st : AdminDashboard.State) (sel : Seat.t) :
  AdminDashboard.selectedSeat st = Some sel ->
  0 <= Seat.rotation sel < 360 ->
  exists st4,
    result (rotate_four_times st) w = Return st4
    /\ AdminDashboard.selectedSeat st4 = Some sel
    /\ AdminDashboard.users st4 = AdminDashboard.users st
    /\ AdminDashboard.bookings st4 = AdminDashboard.bookings st
    /\ AdminDashboard.isEditMode st4 = AdminDashboard.isEditMode st
    /\ length (AdminDashboard.seats st4) = length (AdminDashboard.seats st)
    /\ forall (i : nat) (s : Seat.t),
         AdminDashboard.seats st !! i = Some s ->
         (Seat.id s = Seat.id sel ->
          AdminDashboard.seats st4 !! i
          = Some (Seat.with_rotation (Seat.rotation sel) s))
         /\ (Seat.id s <> Seat.id sel -> AdminDashboard.seats st4 !! i = Some s).
Proof.
  intros Hsel Hr.
  unfold rotate_four_times, result, mbind, Async_bind.
  rewrite (handleRotateSeat_step st sel w Hsel).
  rewrite (handleRotateSeat_step (AdminDashboard.setSelectedSeat _ _) _ _ eq_refl).
  rewrite (handleRotateSeat_step (AdminDashboard.setSelectedSeat _ _) _ _ eq_refl).
  rewrite (handleRotateSeat_step (AdminDashboard.setSelectedSeat _ _) _ _ eq_refl).
  cbn [fst Seat.rotation Seat.with_rotation Seat.id].
  destruct (quarter_turn _ Hr) as (E1 & _ & B1). rewrite E1.
  destruct (quarter_turn _ B1) as (E2 & _ & B2). rewrite E2.
  destruct (quarter_turn _ B2) as (E3 & _ & B3). rewrite E3.
  destruct (quarter_turn _ B3) as (E4 & _ & B4). rewrite E4.
  rewrite (four_quarter_turns _ Hr).
  eexists. split; [reflexivity|].
  cbn [AdminDashboard.selectedSeat AdminDashboard.setSelectedSeat
       AdminDashboard.seats AdminDashboard.setSeats AdminDashboard.users
       AdminDashboard.bookings AdminDashboard.isEditMode].
  split; [now destruct sel|]. do 3 (split; [reflexivity|]).
  split; [now rewrite !length_fmap|].
  intros i s Hi. rewrite !list_lookup_fmap, Hi.
  cbn [fmap option_fmap option_map].
  destruct (streq (Seat.id s) (Seat.id sel)) eqn:E.
  - repeat first [rewrite id_with_rotation | rewrite E | rewrite with_rotation_twice].
    split; [reflexivity|]. intros Hne. apply streq_true in E. contradiction.
  - repeat rewrite E.
    split; [|reflexivity]. intros Heq. apply streq_true in Heq. congruence.
Qed.

Lemma rotate_times_selected (n : nat) (w : World) (st : AdminDashboard.State)
    (sel : Seat.t) :
  AdminDashboard.selectedSeat st = Some sel ->
  0 <= Seat.rotation sel < 360 ->
  exists stn,
    result (rotate_times n st) w = Return stn
    /\ AdminDashboard.selectedSeat stn
       = Some (Seat.with_rotation ((Seat.rotation sel + 90 * Z.of_nat n) mod 360) sel).
Proof.
  revert w st sel. induction n as [|n IH]; intros w st sel Hsel Hr.
  - exists st. split; [reflexivity|]. rewrite Hsel. f_equal.
    rewrite Z.mul_0_r, Z.add_0_r, Z.mod_small by lia.
    symmetry. apply with_rotation_same.
  - cbn [rotate_times]. unfold result, mbind, Async_bind.
    rewrite (handleRotateSeat_step st sel w Hsel).
    destruct (quarter_turn _ Hr) as (E1 & _ & B1). rewrite E1.
    match goal with
    | |- context [rotate_times n ?st1 ?w1] =>
        destruct (IH w1 st1 (Seat.with_rotation ((Seat.rotation sel + 90) mod 360) sel)
                    eq_refl B1) as (stn & Hres & Hseln)
    end.
    exists stn. unfold result in Hres. split; [exact Hres|].
    rewrite Hseln, with_rotation_twice.
    change (Seat.rotation (Seat.with_rotation ?r sel)) with r.
    replace (Seat.rotation sel + 90 * Z.of_nat (S n))
      with (Seat.rotation sel + 90 + 90 * Z.of_nat n) by lia.
    rewrite <- (Zplus_mod_idemp_l (Seat.rotation sel + 90)). reflexivity.
Qed.

(** C9. One press of the rotate button gives the selected seat, and the
    seats of the layout that carry its id, the rotation (r + 90) mod 360,
    where r is the rotation of the selected seat: a rotation other than r,
    every other field and every other seat being as before. After n
    presses the selected seat has the rotation (r + 90 n) mod 360, so 0,
    90, 180, 270 and 0 again from 0. For a rotation in the range the editor
    produces, 0 <= r < 360, four presses give the selected seat back as it
    was, and the whole editor state when the seats of the layout under that
    id had the rotation r too. *)
Theorem rotate_four_times_restores :
  forall (w : World) (st : AdminDashboard.State) (sel : Seat.t),
    AdminDashboard.selectedSeat st = Some sel ->
    0 <= Seat.rotation sel < 360 ->
    (exists st1 sel1,
        result (AdminDashboard.handleRotateSeat st) w = Return st1
        /\ AdminDashboard.selectedSeat st1 = Some sel1
        /\ Seat.rotation sel1 = (Seat.rotation sel + 90) mod 360
        /\ Seat.rotation sel1 <> Seat.rotation sel
        /\ same_but_rotation sel sel1
        /\ exec (AdminDashboard.handleRotateSeat st) w
           = exec (saveSeats (AdminDashboard.seats st1)) w
        /\ length (AdminDashboard.seats st1) = length (AdminDashboard.seats st)
        /\ forall (i : nat) (s : Seat.t),
             AdminDashboard.seats st !! i = Some s ->
             (Seat.id s = Seat.id sel ->
              exists s1,
                AdminDashboard.seats st1 !! i = Some s1
                /\ Seat.rotation s1 = (Seat.rotation sel + 90) mod 360
                /\ same_but_rotation s s1)
             /\ (Seat.id s <> Seat.id sel -> AdminDashboard.seats st1 !! i = Some s))
    /\ (forall n : nat,
          exists stn seln,
            result (rotate_times n st) w = Return stn
            /\ AdminDashboard.selectedSeat stn = Some seln
            /\ Seat.rotation seln = (Seat.rotation sel + 90 * Z.of_nat n) mod 360
            /\ same_but_rotation sel seln)
    /\ (exists st4,
          result (rotate_four_times st) w = Return st4
          /\ result (rotate_times 4 st) w = Return st4
          /\ AdminDashboard.selectedSeat st4 = Some sel
          /\ (forall (i : nat) (s : Seat.t),
                AdminDashboard.seats st !! i = Some s ->
                (Seat.id s = Seat.id sel ->
                 exists s4,
                   AdminDashboard.seats st4 !! i = Some s4
                   /\ Seat.rotation s4 = Seat.rotation sel
                   /\ same_but_rotation s s4)
                /\ (Seat.id s <> Seat.id sel ->
                    AdminDashboard.seats st4 !! i = Some s))
          /\ ((forall s, s ∈ AdminDashboard.seats st -> Seat.id s = Seat.id sel ->
                         Seat.rotation s = Seat.rotation sel) ->
              st4 = st)).
Proof.
  intros w st sel Hsel Hr. split; [|split].
  - unfold result, exec. rewrite (handleRotateSeat_step st sel w Hsel).
    destruct (quarter_turn _ Hr) as (E1 & E1' & _). rewrite E1.
    eexists _, _. split; [reflexivity|]. split; [reflexivity|].
    split; [reflexivity|]. split.
    { cbn [Seat.rotation Seat.with_rotation]. rewrite E1'.
      destruct (Seat.rotation sel <? 270); lia. }
    split; [repeat split|]. split; [reflexivity|].
    cbn [fst AdminDashboard.seats AdminDashboard.setSelectedSeat AdminDashboard.setSeats].
    split; [now rewrite length_fmap|].
    intros i s Hi.
    rewrite list_lookup_fmap, Hi. cbn [fmap option_fmap option_map].
    destruct (streq (Seat.id s) (Seat.id sel)) eqn:E.
    + split.
      * intros _. eexists. split; [reflexivity|]. split; [reflexivity | repeat split].
      * intros Hne. apply streq_true in E. contradiction.
    + split; [|reflexivity]. intros Heq. apply streq_true in Heq. congruence.
  - intros n. destruct (rotate_times_selected n w st sel Hsel Hr) as (stn & Hres & Hseln).
    exists stn. eexists. split; [exact Hres|]. split; [exact Hseln|].
    split; [reflexivity | repeat split].
  - destruct (rotate_four_times_result w st sel Hsel Hr)
      as (st4 & Hres & Hsel4 & Hu & Hb & He & Hlen & Hseats).
    exists st4. split; [exact Hres|].
    split.
    { rewrite <- Hres. unfold rotate_four_times, rotate_times, result, mbind, Async_bind.
      destruct (AdminDashboard.handleRotateSeat st w) as [[st1|e] w1]; [|reflexivity].
      destruct (AdminDashboard.handleRotateSeat st1 w1) as [[st2|e] w2]; [|reflexivity].
      destruct (AdminDashboard.handleRotateSeat st2 w2) as [[st3|e] w3]; [|reflexivity].
      destruct (AdminDashboard.handleRotateSeat st3 w3) as [[st4'|e] w4]; reflexivity. }
    split; [exact Hsel4|]. split.
    { intros i s Hi. destruct (Hseats i s Hi) as [Hsame Hother]. split; [|exact Hother].
      intros Hid. eexists. split; [exact (Hsame Hid)|].
      split; [reflexivity | repeat split]. }
    intros Hsync.
    assert (AdminDashboard.seats st4 = AdminDashboard.seats st) as Hs.
    { apply list_eq. intros i.
      destruct (AdminDashboard.seats st !! i) as [s|] eqn:Hi.
      - destruct (Hseats i s Hi) as [Hsame Hother].
        destruct (decide (Seat.id s = Seat.id sel)) as [Heq|Hne].
        + rewrite (Hsame Heq). f_equal.
          rewrite <- (Hsync s) by (eauto using list_elem_of_lookup_2).
          apply with_rotation_same.
        + exact (Hother Hne).
      - apply lookup_ge_None in Hi. apply lookup_ge_None. lia. }
    destruct st4, st. simpl in *. congruence.
Qed.

(** ** The properties at concrete inputs *)

Lemma unique_active_singleton {K : Type} (key : Booking.t -> K) (b : Booking.t) :
  unique_active key [b].
Proof.
  intros i j a c Hij Hi Hj _ _.
  destruct i as [|i]; [|destruct i; discriminate Hi].
  destruct j as [|j]; [|destruct j; discriminate Hj].
  now elim Hij.
Qed.

(** C1, witness: on the browser where John holds seat L1, Jane's request
    for the same seat and slot is refused and her request for seat L2 is
    recorded. *)
Lemma createBooking_seat_slot_invariant_witness :
  seat_slots_unique
    (stored_bookings
       (exec (perform_all (CreateBooking <$> [Examples.jane_L1; Examples.jane_L2]))
          Examples.offline_world))
  /\ (result (createBooking Examples.jane_L1) Examples.offline_world = Return false
      /\ localStorage (exec (createBooking Examples.jane_L1) Examples.offline_world)
         = localStorage Examples.offline_world)
  /\ (result (createBooking Examples.jane_L2) Examples.backend_down = Return true
      /\ localStorage (exec (createBooking Examples.jane_L2) Examples.backend_down)
         = with_bookings ([Examples.john_L1] ++ [Examples.jane_L2])
             (localStorage Examples.backend_down)).
Proof.
  destruct createBooking_seat_slot_invariant as [Hrun Hcall].
  split; [|split].
  - apply Hrun. apply unique_active_singleton.
  - destruct (Hcall Examples.offline_world Examples.jane_L1) as [Htaken _].
    + left. reflexivity.
    + apply Htaken. exists Examples.john_L1.
      split; [apply list_elem_of_here|]. split; reflexivity.
  - destruct (Hcall Examples.backend_down Examples.jane_L2) as [_ Hfree].
    + right. split; [reflexivity | exact I].
    + apply Hfree. intros (a & Hin & _ & Hkey).
      apply list_elem_of_singleton in Hin. subst a. discriminate Hkey.
Defined.

(** C2, witness: the backend is down at the first call. *)
Lemma offline_mode_is_sticky_witness :
  isOfflineMode Examples.backend_down = false
  /\ failure (next_reply Examples.backend_down GET_users)
  /\ isOfflineMode (exec (safeFetch GET_users) Examples.backend_down) = true
  /\ calls (exec (perform_all [GetStoredBookings; CreateBooking Examples.jane_L2;
                               ToggleSeatMaintenance (js "s-l2")])
              (exec (perform GetStoredUsers) Examples.backend_down))
     = calls Examples.backend_down ++ [GET_users]
  /\ result getStoredBookings
       (exec (perform_all [GetStoredBookings; CreateBooking Examples.jane_L2;
                           ToggleSeatMaintenance (js "s-l2")])
          (exec (perform GetStoredUsers) Examples.backend_down))
     = Return
         (stored_bookings
            (exec (perform_all [GetStoredBookings; CreateBooking Examples.jane_L2;
                                ToggleSeatMaintenance (js "s-l2")])
               (exec (perform GetStoredUsers) Examples.backend_down))).
Proof.
  destruct (offline_mode_is_sticky Examples.backend_down GET_users eq_refl I)
    as [[Hflag _] Hop].
  split; [reflexivity|]. split; [exact I|]. split; [exact Hflag|].
  destruct (Hop GetStoredUsers eq_refl) as (_ & Hcalls & Hafter).
  destruct (Hafter [GetStoredBookings; CreateBooking Examples.jane_L2;
                    ToggleSeatMaintenance (js "s-l2")])
    as (_ & Hsame & _ & (_ & _ & Hbookings & _)).
  split; [rewrite Hsame; exact Hcalls | exact Hbookings].
Defined.

(** C5, witness: a second registration under John's email. *)
Lemma register_duplicate_email_witness :
  exists st',
    result (Auth.handleSubmit 1715331900000 Examples.register_john_again)
      Examples.offline_world = Return (st', None)
    /\ Auth.error st' = js "An account with this email already exists."
    /\ localStorage
         (exec (Auth.handleSubmit 1715331900000 Examples.register_john_again)
            Examples.offline_world)
       = localStorage Examples.offline_world.
Proof.
  destruct (register_duplicate_email Examples.offline_world 1715331900000
              Examples.register_john_again [ADMIN_USER; DEMO_STUDENT])
    as (st' & Hres & _ & Hls & _ & Hvalid & _).
  - reflexivity.
  - vm_compute. reflexivity.
  - exists DEMO_STUDENT. split; [|vm_compute; reflexivity].
    apply list_elem_of_further, list_elem_of_here.
  - exists st'. split; [exact Hres|]. split.
    + apply Hvalid. vm_compute. reflexivity.
    + apply (Hls [ADMIN_USER; DEMO_STUDENT]). reflexivity.
Defined.

(** C6, witness: John signs in with his password after he was blocked. *)
Lemma login_blocked_gate_witness :
  exists st',
    result (Auth.handleSubmit 1715331900000 Examples.login_john)
      Examples.john_blocked_world = Return (st', None)
    /\ Auth.error st' = js "Your account has been blocked by the administrator."
    /\ Auth.error st' <> js "Invalid credentials. Please try again.".
Proof.
  destruct (login_blocked_gate Examples.john_blocked_world 1715331900000
              Examples.login_john [ADMIN_USER; Examples.blocked_john])
    as [Hfound _].
  - reflexivity.
  - vm_compute. reflexivity.
  - vm_compute. reflexivity.
  - destruct (Hfound 1%nat Examples.blocked_john) as [Hblocked _].
    + vm_compute. reflexivity.
    + apply Hblocked. reflexivity.
Defined.

(** C7, witness: John's booking, cancelled twice. *)
Lemma cancelBooking_idempotent_witness :
  exec (cancelBooking (Booking.id Examples.john_L1))
    (exec (cancelBooking (Booking.id Examples.john_L1)) Examples.offline_world)
  = exec (cancelBooking (Booking.id Examples.john_L1)) Examples.offline_world.
Proof.
  destruct (cancelBooking_idempotent Examples.offline_world
              (Booking.id Examples.john_L1)) as (_ & Hsame & _).
  - left. reflexivity.
  - exists Examples.john_L1. split; [apply list_elem_of_here | reflexivity].
  - exact Hsame.
Defined.

(** C8, witness: row 2, column 4, and a click on that cell in the editor. *)
Lemma generateLabel_from_grid_position_witness :
  (exists numeral : string,
      AdminDashboard.generateLabel 4 2 = Z.to_N (65 + 2) :: js numeral
      /\ Z.of_int <$> NilZero.int_of_string numeral = Some (4 + 1))
  /\ (exists newSeat st',
         result (AdminDashboard.handleEmptySlotClick 1715331900000 4 2 Examples.editor)
           Examples.offline_world = Return st'
         /\ AdminDashboard.seats st' = AdminDashboard.seats Examples.editor ++ [newSeat]
         /\ Seat.label newSeat = js "C5").
Proof.
  destruct generateLabel_from_grid_position as (_ & HC5 & Hlabel & Hcreate & _).
  split.
  - apply Hlabel. lia.
  - destruct (Hcreate Examples.offline_world 1715331900000 4 2 Examples.editor
                eq_refl eq_refl) as (newSeat & st' & Hres & Hseats & _ & _ & Hl & _).
    exists newSeat, st'. split; [exact Hres|]. split; [exact Hseats|].
    rewrite Hl. exact HC5.
Defined.

(** C9, witness: seat L2, at 180 degrees, rotated four times. *)
Lemma rotate_four_times_restores_witness :
  (exists st1 sel1,
      result (AdminDashboard.handleRotateSeat Examples.editor_on_L2)
        Examples.offline_world = Return st1
      /\ AdminDashboard.selectedSeat st1 = Some sel1
      /\ Seat.rotation sel1 = 270)
  /\ exists st4,
       result (rotate_four_times Examples.editor_on_L2) Examples.offline_world
       = Return st4
       /\ AdminDashboard.selectedSeat st4 = Some Examples.seat_L2.
Proof.
  destruct (rotate_four_times_restores Examples.offline_world Examples.editor_on_L2
              Examples.seat_L2)
    as ((st1 & sel1 & Hres1 & Hsel1 & Hrot1 & _) & _ & st4 & Hres & _ & Hsel & _).
  - reflexivity.
  - simpl. lia.
  - split.
    + exists st1, sel1. split; [exact Hres1|]. split; [exact Hsel1 | exact Hrot1].
    + exists st4. split; [exact Hres | exact Hsel].
Defined.

(** C10, witness: seat L2 put under maintenance and back. *)
Lemma toggleSeatMaintenance_involution_witness :
  stored_seats
    (exec (toggleSeatMaintenance (js "s-l2"))
       (exec (toggleSeatMaintenance (js "s-l2")) Examples.offline_world))
  = stored_seats Examples.offline_world.
Proof.
  destruct (toggleSeatMaintenance_involution Examples.offline_world (js "s-l2"))
    as [Hpresent _].
  - left. reflexivity.
  - destruct Hpresent as (index & seat & seat' & Hrest).
    + exists Examples.seat_L2.
      split; [apply list_elem_of_further, list_elem_of_here | reflexivity].
    + apply Hrest.
Defined.

(** The rotations the front end itself produces stay in the range of C9:
    the built-in layout, a new seat, and the outcome of a rotation. *)
Lemma rotations_in_range :
  Forall (fun s => 0 <= Seat.rotation s < 360) INITIAL_SEATS_literal
  /\ (forall r, 0 <= r -> 0 <= Z.rem (AdminDashboard.or_zero r + 90) 360 < 360).
Proof.
  split.
  - unfold INITIAL_SEATS_literal, seat. repeat constructor; simpl; lia.
  - intros r Hr. rewrite or_zero_id. apply Z.rem_bound_pos; lia.
Qed.

(** A sign-in form passes [validateForm] exactly when its email has the
    shape of an address and its password at least four code units, which
    registration requires of every account it creates. *)
Lemma validateForm_login (st : Auth.State) :
  Auth.isLogin st = true ->
  (Auth.validateForm st = None
   <-> test Auth.emailRegex (Auth.email (Auth.formData st)) = true
       /\ (4 <= length (Auth.password (Auth.formData st)))%nat).
Proof.
  intros Hlogin. unfold Auth.validateForm. cbn zeta. rewrite Hlogin. cbn [negb].
  destruct (test Auth.emailRegex _); cbn [negb].
  - destruct (Z.ltb_spec (Z.of_nat (length (Auth.password (Auth.formData st)))) 4).
    + split; [discriminate | intros [_ ?]; lia].
    + split; [intros _; split; [reflexivity | lia] | reflexivity].
  - split; [discriminate | intros [? _]; discriminate].
Qed.

(** * Beyond the claims *)

(** ** The store: round trips *)

(** X1. A user saved to the fallback store is read back last, after the
    users the store held (the built-in accounts when it held none); the
    other collections and the session are untouched. *)
Theorem saveUser_round_trip :
  forall (w : World) (user : User.t),
    falls_back w (POST_users user) ->
    result getStoredUsers (exec (saveUser user) w) = Return (stored_users w ++ [user])
    /\ exec getStoredUsers (exec (saveUser user) w) = exec (saveUser user) w
    /\ localStorage (exec (saveUser user) w)
       = with_users (stored_users w ++ [user]) (localStorage w).
Proof.
  intros w user Hfb. unfold result, exec.
  rewrite saveUser_falls_back by assumption. cbn [snd].
  rewrite getStoredUsers_offline by (simpl; apply fallen_back_offline).
  simpl. repeat split.
Qed.

Lemma saveUser_round_trip_witness :
  falls_back Examples.backend_down (POST_users Examples.blocked_john)
  /\ result getStoredUsers (exec (saveUser Examples.blocked_john) Examples.backend_down)
     = Return ([ADMIN_USER; DEMO_STUDENT] ++ [Examples.blocked_john]).
Proof.
  assert (falls_back Examples.backend_down (POST_users Examples.blocked_john)) as Hfb
    by (right; split; [reflexivity | exact I]).
  split; [exact Hfb|].
  exact (proj1 (saveUser_round_trip Examples.backend_down Examples.blocked_john Hfb)).
Defined.

(** X2. The fallback store keeps the layout as one value: after
    [saveSeats seats], reading the seats gives exactly [seats], whatever
    layout was stored before, so of two saves the second wins; the
    constant [INITIAL_SEATS] and the other collections are untouched. *)
Theorem saveSeats_round_trip :
  forall (w : World) (seats : list Seat.t),
    falls_back w (POST_seats seats) ->
    result getStoredSeats (exec (saveSeats seats) w) = Return seats
    /\ exec getStoredSeats (exec (saveSeats seats) w) = exec (saveSeats seats) w
    /\ localStorage (exec (saveSeats seats) w) = with_seats seats (localStorage w)
    /\ INITIAL_SEATS (exec (saveSeats seats) w) = INITIAL_SEATS w
    /\ forall seats' : list Seat.t,
         result getStoredSeats (exec (saveSeats seats') (exec (saveSeats seats) w))
         = Return seats'.
Proof.
  intros w seats Hfb.
  assert (forall l w0, falls_back w0 (POST_seats l) ->
            getStoredSeats (exec (saveSeats l) w0) = (Return l, exec (saveSeats l) w0)) as Hread.
  { intros l w0 Hfb0. unfold exec. rewrite saveSeats_falls_back by assumption.
    cbn [snd]. rewrite getStoredSeats_offline by (simpl; apply fallen_back_offline).
    reflexivity. }
  assert (isOfflineMode (exec (saveSeats seats) w) = true) as Hoff.
  { unfold exec. rewrite saveSeats_falls_back by assumption.
    simpl. apply fallen_back_offline. }
  unfold result. rewrite Hread by assumption.
  split; [reflexivity|]. split; [unfold exec at 1; now rewrite Hread|].
  split; [|split].
  - unfold exec. now rewrite saveSeats_falls_back.
  - unfold exec. rewrite saveSeats_falls_back by assumption.
    simpl. apply fallen_back_INITIAL_SEATS.
  - intros seats'. now rewrite Hread by auto.
Qed.

Lemma saveSeats_round_trip_witness :
  result getStoredSeats (exec (saveSeats [Examples.seat_L2]) Examples.offline_world)
  = Return [Examples.seat_L2].
Proof.
  apply (saveSeats_round_trip Examples.offline_world [Examples.seat_L2]).
  left. reflexivity.
Defined.

(** X3. Against the fallback store [updateUser] replaces the record of the
    first user that has the id of its argument and touches no other
    record, so the collection keeps its length; with an id that no user
    has it changes no record and adds none. *)
Theorem updateUser_replaces_by_id :
  forall (w : World) (updatedUser : User.t),
    falls_back w (PUT_users updatedUser) ->
    let w1 := exec (updateUser updatedUser) w in
    length (stored_users w1) = length (stored_users w)
    /\ (forall (index : nat) (u : User.t),
          list_find (fun u => User.id u = User.id updatedUser) (stored_users w)
          = Some (index, u) ->
          stored_users w1 !! index = Some updatedUser
          /\ forall j, j <> index -> stored_users w1 !! j = stored_users w !! j)
    /\ ((forall u, u ∈ stored_users w -> User.id u <> User.id updatedUser) ->
        stored_users w1 = stored_users w).
Proof.
  intros w updatedUser Hfb w1.
  assert (stored_users w1
          = match list_find (fun u => User.id u = User.id updatedUser) (stored_users w) with
            | Some (index, _) => <[index := updatedUser]> (stored_users w)
            | None => stored_users w
            end) as Hst.
  { unfold w1, exec. rewrite updateUser_falls_back by assumption. cbn zeta.
    destruct (list_find _ _) as [[index u]|]; [reflexivity|].
    unfold stored_users. destruct (libbook_users (localStorage w)) eqn:E; simpl.
    - now rewrite fallen_back_localStorage, E.
    - reflexivity. }
  rewrite Hst. split; [|split].
  - destruct (list_find _ _) as [[index u]|]; [apply length_insert | reflexivity].
  - intros index u Hfind. rewrite Hfind.
    apply list_find_Some in Hfind as (Hlook & _ & _). split.
    + apply list_lookup_insert_eq. eapply lookup_lt_Some; eauto.
    + intros j Hj. now apply list_lookup_insert_ne.
  - intros Hnone.
    assert (list_find (fun u => User.id u = User.id updatedUser) (stored_users w) = None)
      as -> by (apply list_find_None; rewrite Forall_forall; exact Hnone).
    reflexivity.
Qed.

Lemma updateUser_replaces_by_id_witness :
  stored_users (exec (updateUser Examples.blocked_john) Examples.offline_world)
  !! 1%nat = Some Examples.blocked_john.
Proof.
  destruct (updateUser_replaces_by_id Examples.offline_world Examples.blocked_john)
    as (_ & Hfound & _).
  - left. reflexivity.
  - apply (Hfound 1%nat DEMO_STUDENT). vm_compute. reflexivity.
Defined.

(** ** The store: the session *)

(** X4. The session is kept in [localStorage] alone, whether the process
    is online or offline: [getSession] after [setSession user] gives
    [user], after [clearSession] gives nothing, and neither operation calls
    the backend, changes the offline flag or touches the three
    collections. *)
Theorem session_round_trip :
  forall (w : World) (user : User.t),
    result getSession (exec (setSession user) w) = Return (Some user)
    /\ result getSession (exec clearSession w) = Return None
    /\ exec (setSession user) w
       = set_localStorage (with_current_user (Some user) (localStorage w)) w
    /\ exec clearSession w
       = set_localStorage (with_current_user None (localStorage w)) w
    /\ exec getSession w = w
    /\ result getSession (exec clearSession (exec (setSession user) w)) = Return None.
Proof. intros w user. repeat split. Qed.

(** ** The store: calls the backend answers *)

Lemma perform_answered (op : Operation) (req : Request) (w : World) (st : Z) :
  is_mutation op = true -> remote_call op = Some req ->
  isOfflineMode w = false -> next_reply w req = Responded st -> st < 500 ->
  perform op w = (Return (), log_call req w).
Proof.
  intros Hmut Hreq Hon Hrep Hlt.
  destruct op; try discriminate Hmut; simpl in Hreq; injection Hreq as <-;
    cbn [perform];
    unfold saveUser, updateUser, saveSeats, createBooking, cancelBooking,
      toggleSeatMaintenance, try_catch, mbind, Async_bind;
    rewrite (safeFetch_answer _ _ st) by assumption; reflexivity.
Qed.

(** X5. A write the backend answers with any status below 500, a refusal
    such as 404 or 409 just as a success, completes without error, makes
    that one call, leaves the process online and writes nothing to the
    fallback store; [createBooking] reports success exactly for status
    201. *)
Theorem answered_write_stays_remote :
  forall (w : World) (op : Operation) (req : Request) (st : Z),
    is_mutation op = true ->
    remote_call op = Some req ->
    isOfflineMode w = false ->
    next_reply w req = Responded st ->
    st < 500 ->
    result (perform op) w = Return ()
    /\ localStorage (exec (perform op) w) = localStorage w
    /\ INITIAL_SEATS (exec (perform op) w) = INITIAL_SEATS w
    /\ isOfflineMode (exec (perform op) w) = false
    /\ calls (exec (perform op) w) = calls w ++ [req]
    /\ forall booking : Booking.t,
         op = CreateBooking booking ->
         result (createBooking booking) w = Return (st =? 201).
Proof.
  intros w op req st Hmut Hreq Hon Hrep Hlt.
  unfold result, exec. rewrite (perform_answered op req w st) by assumption.
  simpl. repeat split; try assumption.
  intros booking ->. simpl in Hreq. injection Hreq as <-.
  now rewrite (createBooking_answered booking w st).
Qed.

(** ** The store: reads *)

Lemma getStoredBookings_falls_back (w : World) :
  falls_back w GET_bookings ->
  getStoredBookings w = (Return (stored_bookings w), fallen_back GET_bookings w).
Proof.
  intros Hfb. unfold getStoredBookings, getStoredBookings_after. rewrite hybrid_falls_back by assumption.
  unfold stored_bookings. run. cbn [fst snd]. now rewrite fallen_back_localStorage.
Qed.

Lemma getStoredSeats_falls_back_eq (w : World) :
  falls_back w GET_seats ->
  getStoredSeats w
  = (Return (stored_seats w),
     match libbook_seats (localStorage w) with
     | Some _ => fallen_back GET_seats w
     | None =>
         set_localStorage (with_seats (INITIAL_SEATS w) (localStorage w))
           (fallen_back GET_seats w)
     end).
Proof.
  intros Hfb. unfold getStoredSeats, getStoredSeats_array, getStoredSeats_array_after.
  unfold mbind at 1. unfold Async_bind at 1.
  rewrite hybrid_falls_back by assumption.
  unfold stored_seats, setItem_SEATS, elements. run. cbn [fst snd].
  rewrite !fallen_back_localStorage.
  destruct (libbook_seats (localStorage w)); [reflexivity|].
  cbn. now rewrite !fallen_back_INITIAL_SEATS, !fallen_back_localStorage.
Qed.

(** X6. A read that falls back gives what the fallback store holds; where
    it holds nothing, the users are the two built-in accounts and the
    seats the built-in layout, both written to the store by that read,
    while the bookings are the empty list and nothing is written. A
    second read gives the same and changes nothing. *)
Theorem fallback_reads :
  forall w : World,
    (falls_back w GET_users ->
     result getStoredUsers w = Return (stored_users w)
     /\ (libbook_users (localStorage w) = None ->
         result getStoredUsers w = Return [ADMIN_USER; DEMO_STUDENT]
         /\ libbook_users (localStorage (exec getStoredUsers w))
            = Some [ADMIN_USER; DEMO_STUDENT])
     /\ getStoredUsers (exec getStoredUsers w)
        = (Return (stored_users w), exec getStoredUsers w))
    /\ (falls_back w GET_seats ->
        result getStoredSeats w = Return (stored_seats w)
        /\ (libbook_seats (localStorage w) = None ->
            result getStoredSeats w = Return (INITIAL_SEATS w)
            /\ libbook_seats (localStorage (exec getStoredSeats w))
               = Some (INITIAL_SEATS w))
        /\ getStoredSeats (exec getStoredSeats w)
           = (Return (stored_seats w), exec getStoredSeats w))
    /\ (falls_back w GET_bookings ->
        result getStoredBookings w = Return (stored_bookings w)
        /\ (libbook_bookings (localStorage w) = None ->
            result getStoredBookings w = Return []
            /\ localStorage (exec getStoredBookings w) = localStorage w)
        /\ getStoredBookings (exec getStoredBookings w)
           = (Return (stored_bookings w), exec getStoredBookings w)).
Proof.
  intros w. split; [|split]; intros Hfb; unfold result, exec.
  - rewrite getStoredUsers_falls_back by assumption. cbn [fst snd].
    split; [reflexivity|]. split.
    + intros Hnone. unfold stored_users. rewrite Hnone. split; reflexivity.
    + rewrite getStoredUsers_offline
        by (destruct (libbook_users (localStorage w)); simpl; apply fallen_back_offline).
      unfold stored_users.
      destruct (libbook_users (localStorage w)) eqn:E; simpl;
        rewrite ?fallen_back_localStorage, ?E; reflexivity.
  - rewrite getStoredSeats_falls_back_eq by assumption. cbn [fst snd].
    split; [reflexivity|]. split.
    + intros Hnone. unfold stored_seats. rewrite Hnone. split; reflexivity.
    + rewrite getStoredSeats_offline
        by (destruct (libbook_seats (localStorage w)); simpl; apply fallen_back_offline).
      unfold stored_seats.
      destruct (libbook_seats (localStorage w)) eqn:E; simpl;
        rewrite ?fallen_back_localStorage, ?E; reflexivity.
  - rewrite getStoredBookings_falls_back by assumption. cbn [fst snd].
    split; [reflexivity|]. split.
    + intros Hnone. unfold stored_bookings. rewrite Hnone.
      split; [reflexivity | apply fallen_back_localStorage].
    + rewrite getStoredBookings_offline by apply fallen_back_offline.
      unfold stored_bookings. now rewrite fallen_back_localStorage.
Qed.

Lemma fallback_reads_witness :
  result getStoredUsers (page_load Examples.empty_storage Examples.unreachable)
  = Return [ADMIN_USER; DEMO_STUDENT]
  /\ result getStoredBookings (page_load Examples.empty_storage Examples.unreachable)
     = Return [].
Proof.
  destruct (fallback_reads (page_load Examples.empty_storage Examples.unreachable))
    as (Husers & _ & Hbookings).
  split.
  - destruct Husers as (_ & Hnone & _); [right; split; [reflexivity | exact I]|].
    apply Hnone. reflexivity.
  - destruct Hbookings as (_ & Hnone & _); [right; split; [reflexivity | exact I]|].
    apply Hnone. reflexivity.
Defined.

(** X7. When the backend answers a read with a body that is not JSON, the
    read gives what the fallback store holds, as if the call had failed,
    but the offline flag stays unset: the process is still online and the
    next operation calls the backend again. *)
Theorem unreadable_body_reads_fallback :
  forall (w : World) (st : Z),
    isOfflineMode w = false ->
    st < 500 ->
    (next_reply w GET_bookings = Responded st ->
     json_bookings (backend w) (length (calls w)) = None ->
     getStoredBookings w = (Return (stored_bookings w), log_call GET_bookings w))
    /\ (next_reply w GET_users = Responded st ->
        json_users (backend w) (length (calls w)) = None ->
        result getStoredUsers w = Return (stored_users w)
        /\ isOfflineMode (exec getStoredUsers w) = false
        /\ calls (exec getStoredUsers w) = calls w ++ [GET_users])
    /\ (next_reply w GET_seats = Responded st ->
        json_seats (backend w) (length (calls w)) = None ->
        result getStoredSeats w = Return (stored_seats w)
        /\ isOfflineMode (exec getStoredSeats w) = false
        /\ calls (exec getStoredSeats w) = calls w ++ [GET_seats]).
Proof.
  intros w st Hon Hlt. split; [|split]; intros Hrep Hjson.
  - unfold getStoredBookings, getStoredBookings_after, try_catch, mbind, Async_bind.
    rewrite (safeFetch_answer _ _ st) by assumption.
    unfold res_json. run. cbn. rewrite Hjson. reflexivity.
  - unfold result, exec, getStoredUsers, getStoredUsers_after, try_catch, mbind, Async_bind.
    rewrite (safeFetch_answer _ _ st) by assumption.
    unfold res_json, setItem_USERS, stored_users. run. cbn. rewrite Hjson.
    change (localStorage (log_call GET_users w)) with (localStorage w).
    destruct (libbook_users (localStorage w)) eqn:E; simpl; rewrite ?E; simpl; auto.
  - unfold result, exec, getStoredSeats, getStoredSeats_array, getStoredSeats_array_after, try_catch, mbind,
      Async_bind.
    rewrite (safeFetch_answer _ _ st) by assumption.
    unfold res_json, setItem_SEATS, stored_seats, elements. run. cbn. rewrite Hjson.
    change (localStorage (log_call GET_seats w)) with (localStorage w).
    destruct (libbook_seats (localStorage w)) eqn:E; simpl; rewrite ?E; simpl; auto.
Qed.

Lemma answered_write_stays_remote_witness :
  result (perform (SaveUser Examples.blocked_john))
    (page_load Examples.after_offline_visit Examples.refusing) = Return ()
  /\ localStorage
       (exec (perform (SaveUser Examples.blocked_john))
          (page_load Examples.after_offline_visit Examples.refusing))
     = Examples.after_offline_visit.
Proof.
  destruct (answered_write_stays_remote
              (page_load Examples.after_offline_visit Examples.refusing)
              (SaveUser Examples.blocked_john) (POST_users Examples.blocked_john) 409)
    as (Hres & Hls & _); try reflexivity.
  split; [exact Hres | exact Hls].
Defined.

Lemma unreadable_body_reads_fallback_witness :
  getStoredBookings (page_load Examples.after_offline_visit Examples.garbled)
  = (Return [Examples.john_L1],
     log_call GET_bookings (page_load Examples.after_offline_visit Examples.garbled)).
Proof.
  destruct (unreadable_body_reads_fallback
              (page_load Examples.after_offline_visit Examples.garbled) 200)
    as (Hbookings & _); [reflexivity | lia |].
  apply Hbookings; reflexivity.
Defined.

(** ** The store: nothing is deleted *)

Lemma bookings_kept_refl (l : list Booking.t) : bookings_kept l l.
Proof. intros i b Hi. exists b. split; [exact Hi | now left]. Qed.

Lemma bookings_kept_trans (l1 l2 l3 : list Booking.t) :
  bookings_kept l1 l2 -> bookings_kept l2 l3 -> bookings_kept l1 l3.
Proof.
  intros H12 H23 i b Hi. destruct (H12 i b Hi) as (b2 & Hi2 & Hb2).
  destruct (H23 i b2 Hi2) as (b3 & Hi3 & Hb3). exists b3. split; [exact Hi3|].
  destruct Hb2 as [-> | ->], Hb3 as [-> | ->]; unfold same_or_cancelled; auto.
Qed.

Lemma users_kept_refl (l : list User.t) : users_kept l l.
Proof. intros i u Hi. exists u. auto. Qed.

Lemma users_kept_trans (l1 l2 l3 : list User.t) :
  users_kept l1 l2 -> users_kept l2 l3 -> users_kept l1 l3.
Proof.
  intros H12 H23 i u Hi. destruct (H12 i u Hi) as (u2 & Hi2 & Hu2).
  destruct (H23 i u2 Hi2) as (u3 & Hi3 & Hu3). exists u3. split; [exact Hi3|].
  congruence.
Qed.

(** The reads leave the bookings and the users of the fallback store as
    they are, in every mode. *)
Lemma reads_keep_records (w : World) :
  (stored_bookings (exec getStoredUsers w) = stored_bookings w
   /\ stored_users (exec getStoredUsers w) = stored_users w)
  /\ (stored_bookings (exec getStoredSeats w) = stored_bookings w
      /\ stored_users (exec getStoredSeats w) = stored_users w)
  /\ (stored_bookings (exec getStoredBookings w) = stored_bookings w
      /\ stored_users (exec getStoredBookings w) = stored_users w).
Proof.
  split; [|split].
  - destruct (falls_back_or_answered w GET_users) as [Hfb | (Hon & st & Hrep & Hlt)].
    + unfold exec. rewrite getStoredUsers_falls_back by assumption.
      unfold stored_bookings, stored_users.
      destruct (libbook_users (localStorage w)) eqn:E; simpl;
        rewrite ?fallen_back_localStorage, ?E; auto.
    + unfold exec, getStoredUsers, getStoredUsers_after, try_catch, mbind, Async_bind.
      rewrite (safeFetch_answer _ _ st) by assumption.
      unfold res_json, setItem_USERS, stored_users, stored_bookings. run. cbn.
      change (localStorage (log_call GET_users w)) with (localStorage w).
      destruct (json_users _ _); [auto|].
      destruct (libbook_users (localStorage w)) eqn:E; simpl; rewrite ?E; simpl; rewrite ?E; auto.
  - destruct (falls_back_or_answered w GET_seats) as [Hfb | (Hon & st & Hrep & Hlt)].
    + unfold exec. rewrite getStoredSeats_falls_back_eq by assumption.
      unfold stored_bookings, stored_users.
      destruct (libbook_seats (localStorage w)) eqn:E; simpl;
        rewrite ?fallen_back_localStorage, ?E; auto.
    + unfold exec, getStoredSeats, getStoredSeats_array, getStoredSeats_array_after, try_catch, mbind, Async_bind.
      rewrite (safeFetch_answer _ _ st) by assumption.
      unfold res_json, setItem_SEATS, stored_users, stored_bookings, elements. run. cbn.
      change (localStorage (log_call GET_seats w)) with (localStorage w).
      destruct (json_seats _ _); [auto|].
      destruct (libbook_seats (localStorage w)) eqn:E; simpl; rewrite ?E; simpl; rewrite ?E; auto.
  - destruct (falls_back_or_answered w GET_bookings) as [Hfb | (Hon & st & Hrep & Hlt)].
    + unfold exec. rewrite getStoredBookings_falls_back by assumption.
      unfold stored_bookings, stored_users. simpl.
      now rewrite fallen_back_localStorage.
    + unfold exec, getStoredBookings, getStoredBookings_after, try_catch, mbind, Async_bind.
      rewrite (safeFetch_answer _ _ st) by assumption.
      unfold res_json. run. cbn. destruct (json_bookings _ _); auto.
Qed.

Lemma perform_keeps_records (op : Operation) (w : World) :
  bookings_kept (stored_bookings w) (stored_bookings (exec (perform op) w))
  /\ users_kept (stored_users w) (stored_users (exec (perform op) w)).
Proof.
  assert (forall w', stored_bookings w' = stored_bookings w ->
                     stored_users w' = stored_users w ->
                     bookings_kept (stored_bookings w) (stored_bookings w')
                     /\ users_kept (stored_users w) (stored_users w')) as Hsame.
  { intros w' -> ->. split; [apply bookings_kept_refl | apply users_kept_refl]. }
  destruct (reads_keep_records w) as ((Hu1 & Hu2) & (Hs1 & Hs2) & (Hb1 & Hb2)).
  destruct op as [| | |user|updatedUser|seats|booking|bookingId|seatId| |user|];
    cbn [perform]; rewrite ?exec_discard;
    try (apply Hsame; assumption);
    try (apply Hsame; reflexivity).
  - (* saveUser *)
    destruct (falls_back_or_answered w (POST_users user))
      as [Hfb | (Hon & st & Hrep & Hlt)].
    + unfold exec. rewrite saveUser_falls_back by assumption. simpl.
      split.
      * unfold stored_bookings. simpl. apply bookings_kept_refl.
      * unfold stored_users at 2. simpl. intros i u Hi. exists u.
        split; [now apply lookup_app_l_Some | reflexivity].
    + pose proof (perform_answered (SaveUser user) _ w st eq_refl eq_refl Hon Hrep Hlt)
        as Heq. cbn [perform] in Heq. unfold exec. rewrite Heq.
      apply Hsame; reflexivity.
  - (* updateUser *)
    destruct (falls_back_or_answered w (PUT_users updatedUser))
      as [Hfb | (Hon & st & Hrep & Hlt)].
    + unfold exec. rewrite updateUser_falls_back by assumption. cbn zeta.
      destruct (list_find _ _) as [[index u0]|] eqn:Hfind.
      * simpl. split; [unfold stored_bookings; simpl; apply bookings_kept_refl|].
        unfold stored_users at 2. simpl.
        apply list_find_Some in Hfind as (Hlook & Hid & _).
        intros i u Hi. destruct (decide (i = index)) as [->|Hne].
        -- exists updatedUser. split; [|congruence].
           apply list_lookup_insert_eq. eapply lookup_lt_Some; eauto.
        -- exists u. split; [|reflexivity].
           now rewrite list_lookup_insert_ne by congruence.
      * apply Hsame; unfold stored_bookings, stored_users;
          destruct (libbook_users (localStorage w)) eqn:E; simpl;
          rewrite ?fallen_back_localStorage, ?E; reflexivity.
    + pose proof (perform_answered (UpdateUser updatedUser) _ w st eq_refl eq_refl
                    Hon Hrep Hlt) as Heq.
      cbn [perform] in Heq. unfold exec. rewrite Heq. apply Hsame; reflexivity.
  - (* saveSeats *)
    destruct (falls_back_or_answered w (POST_seats seats))
      as [Hfb | (Hon & st & Hrep & Hlt)].
    + unfold exec. rewrite saveSeats_falls_back by assumption.
      apply Hsame; reflexivity.
    + pose proof (perform_answered (SaveSeats seats) _ w st eq_refl eq_refl
                    Hon Hrep Hlt) as Heq.
      cbn [perform] in Heq. unfold exec. rewrite Heq. apply Hsame; reflexivity.
  - (* createBooking *)
    split.
    + destruct (createBooking_stored booking w) as [-> | [_ ->]];
        [apply bookings_kept_refl|].
      intros i b Hi. exists b. split; [now apply lookup_app_l_Some | now left].
    + destruct (falls_back_or_answered w (POST_bookings booking))
        as [Hfb | (Hon & st & Hrep & Hlt)].
      * unfold exec. rewrite createBooking_falls_back by assumption. cbn zeta.
        destruct (existsb _ _); simpl; unfold stored_users; simpl;
          rewrite ?fallen_back_localStorage; apply users_kept_refl.
      * unfold exec. rewrite (createBooking_answered _ _ st) by assumption.
        apply users_kept_refl.
  - (* cancelBooking *)
    destruct (falls_back_or_answered w (PUT_bookings_cancel bookingId))
      as [Hfb | (Hon & st & Hrep & Hlt)].
    + unfold exec. rewrite cancelBooking_falls_back by assumption. cbn zeta.
      destruct (list_find _ _) as [[index b0]|] eqn:Hfind.
      * simpl. split; [|unfold stored_users; simpl; apply users_kept_refl].
        unfold stored_bookings at 2. simpl.
        apply list_find_Some in Hfind as (Hlook & _ & _).
        intros i b Hi. destruct (decide (i = index)) as [->|Hne].
        -- exists (Booking.with_status CANCELLED b0).
           split; [apply list_lookup_insert_eq; eapply lookup_lt_Some; eauto|].
           right. congruence.
        -- exists b. split; [|now left].
           now rewrite list_lookup_insert_ne by congruence.
      * apply Hsame; unfold stored_bookings, stored_users; simpl;
          now rewrite fallen_back_localStorage.
    + pose proof (perform_answered (CancelBooking bookingId) _ w st eq_refl eq_refl
                    Hon Hrep Hlt) as Heq.
      cbn [perform] in Heq. unfold exec. rewrite Heq. apply Hsame; reflexivity.
  - (* toggleSeatMaintenance *)
    destruct (falls_back_or_answered w (POST_seats_toggle_maintenance seatId))
      as [Hfb | (Hon & st & Hrep & Hlt)].
    + unfold exec. rewrite toggleSeatMaintenance_falls_back by assumption. cbn zeta.
      apply Hsame; unfold stored_bookings, stored_users;
        destruct (libbook_seats (localStorage w));
        destruct (list_find _ _) as [[index s0]|]; simpl;
        rewrite ?fallen_back_localStorage; reflexivity.
    + pose proof (perform_answered (ToggleSeatMaintenance seatId) _ w st eq_refl
                    eq_refl Hon Hrep Hlt) as Heq.
      cbn [perform] in Heq. unfold exec. rewrite Heq. apply Hsame; reflexivity.
Qed.

(** X8. No operation of the store ever deletes a booking or a user, in any
    mode and whatever the backend does: after any sequence of operations
    every booking the fallback store held is still there at its position,
    unchanged or with its status set to CANCELLED, and every user is still
    there at its position under the same id. *)
Theorem records_are_never_deleted :
  forall (w : World) (ops : list Operation),
    bookings_kept (stored_bookings w) (stored_bookings (exec (perform_all ops) w))
    /\ users_kept (stored_users w) (stored_users (exec (perform_all ops) w))
    /\ (length (stored_bookings w)
        <= length (stored_bookings (exec (perform_all ops) w)))%nat
    /\ (length (stored_users w)
        <= length (stored_users (exec (perform_all ops) w)))%nat.
Proof.
  assert (forall ops w,
             bookings_kept (stored_bookings w)
               (stored_bookings (exec (perform_all ops) w))
             /\ users_kept (stored_users w)
                  (stored_users (exec (perform_all ops) w))) as Hkept.
  { induction ops as [|op ops IH]; intros w; cbn [perform_all].
    - split; [apply bookings_kept_refl | apply users_kept_refl].
    - destruct (exec_seq (perform op) (fun _ => perform_all ops) w (perform_total op))
        as ([] & _ & -> & _).
      destruct (perform_keeps_records op w) as [Hb Hu].
      destruct (IH (exec (perform op) w)) as [Hb' Hu'].
      split; [eapply bookings_kept_trans | eapply users_kept_trans]; eauto. }
  intros w ops. destruct (Hkept ops w) as [Hb Hu].
  split; [exact Hb|]. split; [exact Hu|]. split.
  - destruct (stored_bookings w) as [|b0 l] eqn:E using rev_ind; [simpl; lia|].
    destruct (Hb (length l) b0) as (b' & Hlook & _).
    { rewrite lookup_app_r by lia. now rewrite Nat.sub_diag. }
    apply lookup_lt_Some in Hlook. rewrite length_app. simpl. lia.
  - destruct (stored_users w) as [|u0 l] eqn:E using rev_ind; [simpl; lia|].
    destruct (Hu (length l) u0) as (u' & Hlook & _).
    { rewrite lookup_app_r by lia. now rewrite Nat.sub_diag. }
    apply lookup_lt_Some in Hlook. rewrite length_app. simpl. lia.
Qed.

(** ** The store: a cancelled slot is free again *)

(** X9. Against the fallback store, with ACTIVE bookings on distinct
    seats and slots: a request for the seat and slot of an ACTIVE booking
    is refused, and once that booking is cancelled the same request is
    recorded. *)
Theorem cancelled_slot_can_be_booked_again :
  forall (w : World) (bookingId : jsstring) (index : nat) (held booking : Booking.t),
    isOfflineMode w = true ->
    seat_slots_unique (stored_bookings w) ->
    list_find (fun b => Booking.id b = bookingId) (stored_bookings w)
    = Some (index, held) ->
    Booking.status held = ACTIVE ->
    slot_key held = slot_key booking ->
    result (createBooking booking) w = Return false
    /\ result (createBooking booking) (exec (cancelBooking bookingId) w) = Return true
    /\ stored_bookings
         (exec (createBooking booking) (exec (cancelBooking bookingId) w))
       = <[index := Booking.with_status CANCELLED held]> (stored_bookings w) ++ [booking].
Proof.
  intros w bookingId index held booking Hoff Huniq Hfind Hact Hkey.
  pose proof Hfind as Hfind'.
  apply list_find_Some in Hfind' as (Hlook & _ & _).
  assert (existsb (occupies booking) (stored_bookings w) = true) as Hocc.
  { apply occupied_spec. exists held.
    split; [eapply list_elem_of_lookup_2; eauto | auto]. }
  assert (exec (cancelBooking bookingId) w
          = set_localStorage
              (with_bookings
                 (<[index := Booking.with_status CANCELLED held]> (stored_bookings w))
                 (localStorage w)) w) as Hw1.
  { unfold exec. rewrite cancelBooking_falls_back by auto. cbn zeta.
    rewrite Hfind, fallen_back_id by assumption. reflexivity. }
  assert (existsb (occupies booking)
            (<[index := Booking.with_status CANCELLED held]> (stored_bookings w))
          = false) as Hfree.
  { apply not_true_is_false. intros E.
    apply occupied_spec in E as (a & Hin & Ha & Hka).
    apply list_elem_of_lookup in Hin as [j Hj].
    apply list_lookup_insert_Some in Hj as [(_ & <- & _) | [Hne Hj]];
      [discriminate Ha|].
    exfalso. apply (Huniq j index a held); auto; congruence. }
  split.
  - unfold result. rewrite (createBooking_falls_back booking w) by auto.
    cbn zeta. now rewrite Hocc.
  - rewrite Hw1. unfold result, exec.
    rewrite createBooking_falls_back by (left; exact Hoff). cbn zeta.
    change (stored_bookings (set_localStorage (with_bookings ?l _) _)) with l.
    rewrite Hfree. split; reflexivity.
Qed.

Lemma cancelled_slot_can_be_booked_again_witness :
  result (createBooking Examples.jane_L1) Examples.offline_world = Return false
  /\ result (createBooking Examples.jane_L1)
       (exec (cancelBooking (Booking.id Examples.john_L1)) Examples.offline_world)
     = Return true.
Proof.
  destruct (cancelled_slot_can_be_booked_again Examples.offline_world
              (Booking.id Examples.john_L1) 0%nat Examples.john_L1 Examples.jane_L1)
    as (Hrefused & Hrecorded & _).
  - reflexivity.
  - apply unique_active_singleton.
  - vm_compute. reflexivity.
  - reflexivity.
  - reflexivity.
  - split; [exact Hrefused | exact Hrecorded].
Defined.

(** ** The form: what [validateForm] accepts *)

Lemma nullable_spec (r : regex) : nullable r = true <-> matches r [].
Proof.
  split.
  - induction r as [| |p|r1 IH1 r2 IH2|r IH]; simpl; intros H; try discriminate.
    + constructor.
    + apply andb_true_iff in H as [H1 H2].
      change (@nil N) with (@nil N ++ @nil N). constructor; auto.
    + constructor.
  - intros H. remember [] as s eqn:Es.
    induction H as [|p c Hp|r1 r2 s1 s2 H1 IH1 H2 IH2|r|r s1 s2 H1 IH1 H2 IH2];
      simpl; try reflexivity; try discriminate.
    apply app_eq_nil in Es as [-> ->]. rewrite IH1, IH2; reflexivity.
Qed.

Lemma matches_star_inv (r : regex) (c : N) (s : jsstring) :
  matches (Star r) (c :: s) ->
  exists s1 s2, s = s1 ++ s2 /\ matches r (c :: s1) /\ matches (Star r) s2.
Proof.
  intros H. remember (Star r) as r' eqn:Er. remember (c :: s) as s' eqn:Es.
  revert s Es.
  induction H as [|p c' Hp|r1 r2 s1 s2 H1 IH1 H2 IH2|r0|r0 s1 s2 H1 IH1 H2 IH2];
    intros s Es; try discriminate.
  injection Er as ->.
  destruct s1 as [|c1 s1].
  - simpl in Es. now apply IH2.
  - simpl in Es. injection Es as -> <-. eauto.
Qed.

Lemma deriv_spec (r : regex) (c : N) (s : jsstring) :
  matches r (c :: s) <-> exists d, In d (deriv c r) /\ matches d s.
Proof.
  revert s. induction r as [| |p|r1 IH1 r2 IH2|r IH]; intros s; simpl.
  - split; [inversion 1 | intros (d & [] & _)].
  - split; [inversion 1 | intros (d & [] & _)].
  - split.
    + inversion 1; subst. exists Eps. rewrite H2. split; [now left | constructor].
    + intros (d & Hin & Hd). destruct (p c) eqn:Hp; [|destruct Hin].
      destruct Hin as [<- | []]. inversion Hd; subst. now constructor.
  - split.
    + intros H. inversion H as [| |? ? s1 s2 H1 H2 Heq| |]; subst.
      destruct s1 as [|c1 s1].
      * simpl in *. subst s2.
        apply nullable_spec in H1. rewrite H1.
        apply IH2 in H2 as (d & Hin & Hd). exists d.
        split; [apply in_or_app; now right | exact Hd].
      * match goal with E : _ ++ _ = _ :: _ |- _ => simpl in E; injection E as -> <- end.
        apply IH1 in H1 as (d & Hin & Hd). exists (Cat d r2). split.
        -- apply in_or_app. left. apply in_map_iff. eauto.
        -- now constructor.
    + intros (d & Hin & Hd). apply in_app_or in Hin as [Hin | Hin].
      * apply in_map_iff in Hin as (d1 & <- & Hin1).
        inversion Hd as [| |? ? s1 s2 H1 H2 Heq| |]; subst.
        change (c :: s1 ++ s2) with ((c :: s1) ++ s2).
        constructor; [|exact H2]. apply IH1. eauto.
      * destruct (nullable r1) eqn:Hn; [|destruct Hin].
        change (c :: s) with ([] ++ c :: s). constructor.
        -- now apply nullable_spec.
        -- apply IH2. eauto.
  - split.
    + intros H. apply matches_star_inv in H as (s1 & s2 & -> & H1 & H2).
      apply IH in H1 as (d & Hin & Hd). exists (Cat d (Star r)). split.
      * apply in_map_iff. eauto.
      * now constructor.
    + intros (d & Hin & Hd). apply in_map_iff in Hin as (d1 & <- & Hin1).
      inversion Hd as [| |? ? s1 s2 H1 H2 Heq| |]; subst.
      change (c :: s1 ++ s2) with ((c :: s1) ++ s2).
      constructor; [|exact H2]. apply IH. eauto.
Qed.

Lemma matchFrom_spec (rs : list regex) (s : jsstring) :
  matchFrom rs s = true <-> exists r, In r rs /\ matches r s.
Proof.
  revert rs. induction s as [|c s IH]; intros rs; simpl.
  - rewrite existsb_exists. split; intros (r & Hin & Hr); exists r;
      (split; [exact Hin | now apply nullable_spec]).
  - rewrite IH. split.
    + intros (d & Hin & Hd). apply in_concat in Hin as (ds & Hds & Hin).
      apply in_map_iff in Hds as (r & <- & Hr).
      exists r. split; [exact Hr|]. apply deriv_spec. eauto.
    + intros (r & Hr & Hm). apply deriv_spec in Hm as (d & Hin & Hd).
      exists d. split; [|exact Hd]. apply in_concat. exists (deriv c r).
      split; [apply in_map_iff; eauto | exact Hin].
Qed.

(** The matcher by derivatives accepts exactly the strings the expression
    denotes. *)
Lemma test_spec (r : regex) (s : jsstring) : test r s = true <-> matches r s.
Proof.
  unfold test. rewrite matchFrom_spec. split.
  - intros (r' & [<- | []] & H). exact H.
  - intros H. exists r. split; [now left | exact H].
Qed.

Lemma matches_star_class (p : N -> bool) (s : jsstring) :
  matches (Star (Class p)) s <-> Forall (fun c => p c = true) s.
Proof.
  split.
  - intros H. remember (Star (Class p)) as r eqn:Er.
    induction H as [|p' c Hp|r1 r2 s1 s2 H1 IH1 H2 IH2|r0|r0 s1 s2 H1 IH1 H2 IH2];
      try discriminate; [constructor|].
    injection Er as ->. inversion H1; subst. simpl. constructor; auto.
  - induction 1 as [|c s Hc Hs IH]; [constructor|].
    change (c :: s) with ([c] ++ s). constructor; [now constructor | exact IH].
Qed.

Lemma matches_plus_class (p : N -> bool) (s : jsstring) :
  matches (Plus (Class p)) s <-> s <> [] /\ Forall (fun c => p c = true) s.
Proof.
  unfold Plus. split.
  - intros H. inversion H as [| |? ? s1 s2 H1 H2 Heq| |]; subst.
    inversion H1; subst. apply matches_star_class in H2. simpl.
    split; [discriminate | constructor; auto].
  - intros [Hne Hall]. destruct s as [|c s]; [contradiction|].
    inversion Hall; subst. change (c :: s) with ([c] ++ s).
    constructor; [now constructor | now apply matches_star_class].
Qed.

Lemma matches_repeat_class (p : N -> bool) (n : nat) (s : jsstring) :
  matches (Repeat n (Class p)) s <-> length s = n /\ Forall (fun c => p c = true) s.
Proof.
  revert s. induction n as [|n IH]; intros s; simpl.
  - split.
    + inversion 1. split; [reflexivity | constructor].
    + intros [Hlen _]. destruct s; [constructor | discriminate].
  - split.
    + intros H. inversion H as [| |? ? s1 s2 H1 H2 Heq| |]; subst.
      inversion H1; subst. apply IH in H2 as [<- Hall]. simpl.
      split; [reflexivity | constructor; auto].
    + intros [Hlen Hall]. destruct s as [|c s]; [discriminate|].
      inversion Hall; subst. injection Hlen as Hlen.
      change (c :: s) with ([c] ++ s).
      constructor; [now constructor | apply IH; auto].
Qed.

Lemma matches_chr (c : N) (s : jsstring) : matches (Chr c) s <-> s = [c].
Proof.
  unfold Chr. split.
  - inversion 1; subst. f_equal. symmetry. now apply N.eqb_eq.
  - intros ->. constructor. apply N.eqb_refl.
Qed.

Lemma emailRegex_spec (s : jsstring) :
  test Auth.emailRegex s = true <-> email_shape s.
Proof.
  rewrite test_spec. unfold Auth.emailRegex, email_shape, plain_run. split.
  - intros H.
    inversion H as [| |? ? a s2 Ha H2 Heq| |]; subst.
    inversion H2 as [| |? ? at_ s3 Hat H3 Heq| |]; subst.
    inversion H3 as [| |? ? b s4 Hb H4 Heq| |]; subst.
    inversion H4 as [| |? ? dot c Hdot Hc Heq| |]; subst.
    apply matches_chr in Hat, Hdot. subst.
    apply matches_plus_class in Ha, Hb, Hc.
    exists a, b, c. auto.
  - intros (a & b & c & -> & Ha & Hb & Hc).
    constructor; [now apply matches_plus_class|].
    constructor; [now apply matches_chr|].
    constructor; [now apply matches_plus_class|].
    constructor; [now apply matches_chr | now apply matches_plus_class].
Qed.

Lemma trimStart_blank (s : jsstring) :
  trimStart s = [] <-> Forall (fun c => isWhiteSpace c = true) s.
Proof.
  induction s as [|c s IH]; simpl.
  - split; [constructor | reflexivity].
  - destruct (isWhiteSpace c) eqn:E.
    + rewrite IH. split; [now constructor | now inversion 1].
    + split; [discriminate | inversion 1; congruence].
Qed.

Lemma trimStart_suffix (s : jsstring) :
  exists pre, s = pre ++ trimStart s /\ Forall (fun c => isWhiteSpace c = true) pre.
Proof.
  induction s as [|c s (pre & IH & Hpre)]; simpl.
  - exists []. split; [reflexivity | constructor].
  - destruct (isWhiteSpace c) eqn:E.
    + exists (c :: pre). split; [simpl; congruence | now constructor].
    + exists []. split; [reflexivity | constructor].
Qed.

Lemma trim_not_blank (s : jsstring) : truthy (trim s) = true <-> not_blank s.
Proof.
  unfold not_blank.
  assert (forall l : jsstring, truthy l = true <-> l <> []) as Htruthy
    by (intros [|? ?]; simpl; split; congruence).
  rewrite Htruthy. unfold trim.
  assert (forall l : jsstring, rev l = [] <-> l = []) as Hrev.
  { intros l. split; [|now intros ->].
    intros H. apply (f_equal (@rev N)) in H. now rewrite rev_involutive in H. }
  rewrite Hrev, trimStart_blank. rewrite Forall_forall.
  split.
  - intros Hne.
    destruct (trimStart s) as [|c t] eqn:Et.
    { exfalso. apply Hne. intros x Hx. apply list_elem_of_In, in_rev in Hx.
      destruct Hx. }
    destruct (trimStart_suffix s) as (pre & Hs & _). rewrite Et in Hs.
    exists c. split; [rewrite Hs; apply list_elem_of_In, in_or_app; right; now left|].
    assert (trimStart (c :: t) = c :: t) as Hfix.
    { rewrite <- Et. clear. induction s as [|x s IH]; [reflexivity|].
      simpl. destruct (isWhiteSpace x) eqn:E; [exact IH|]. simpl. now rewrite E. }
    simpl in Hfix. destruct (isWhiteSpace c); [|reflexivity].
    exfalso. assert (length (trimStart t) <= length t)%nat as Hlen.
    { clear. induction t as [|x t IH]; simpl; [lia|].
      destruct (isWhiteSpace x); simpl; lia. }
    rewrite Hfix in Hlen. simpl in Hlen. lia.
  - intros (c & Hin & Hc) Hall.
    destruct (trimStart_suffix s) as (pre & Hs & Hpre).
    rewrite Forall_forall in Hpre.
    rewrite Hs in Hin. apply list_elem_of_In, in_app_or in Hin as [Hin | Hin].
    + apply list_elem_of_In in Hin. rewrite (Hpre c Hin) in Hc. discriminate.
    + apply in_rev, list_elem_of_In in Hin. rewrite (Hall c Hin) in Hc. discriminate.
Qed.

(** X10. [validateForm] accepts a form exactly when its email is
    [local@domain.tld], three non-empty runs free of white space and '@',
    and its password has at least four code units, and, for a
    registration, when moreover name and student id are not blank, a
    department is chosen and the mobile number is exactly ten digits. The
    year and section are never checked. *)
Theorem validateForm_accepts :
  forall st : Auth.State,
    Auth.validateForm st = None
    <-> email_shape (Auth.email (Auth.formData st))
        /\ (4 <= length (Auth.password (Auth.formData st)))%nat
        /\ (Auth.isLogin st = false ->
            not_blank (Auth.name (Auth.formData st))
            /\ not_blank (Auth.studentId (Auth.formData st))
            /\ Auth.department (Auth.formData st) <> []
            /\ ten_digits (Auth.mobile (Auth.formData st))).
Proof.
  intros st. unfold Auth.validateForm. cbn zeta.
  rewrite <- emailRegex_spec.
  destruct (test Auth.emailRegex _); cbn [negb];
    [|split; [discriminate | intros [? _]; discriminate]].
  destruct (Z.ltb_spec (Z.of_nat (length (Auth.password (Auth.formData st)))) 4);
    [split; [discriminate | intros (_ & ? & _); lia]|].
  destruct (Auth.isLogin st); cbn [negb].
  { split; [intros _ | reflexivity].
    split; [reflexivity|]. split; [lia | discriminate]. }
  pose proof (trim_not_blank (Auth.name (Auth.formData st))) as Hname.
  destruct (truthy (trim (Auth.name (Auth.formData st)))); cbn [negb].
  2:{ split; [discriminate|]. intros (_ & _ & Hreg).
      destruct (Hreg eq_refl) as (Hn & _). apply Hname in Hn. discriminate. }
  pose proof (trim_not_blank (Auth.studentId (Auth.formData st))) as Hsid.
  destruct (truthy (trim (Auth.studentId (Auth.formData st)))); cbn [negb].
  2:{ split; [discriminate|]. intros (_ & _ & Hreg).
      destruct (Hreg eq_refl) as (_ & Hn & _). apply Hsid in Hn. discriminate. }
  destruct (Auth.department (Auth.formData st)) as [|d ds] eqn:Hdep; cbn [truthy negb].
  { split; [discriminate|]. intros (_ & _ & Hreg).
    destruct (Hreg eq_refl) as (_ & _ & Hn & _). contradiction. }
  pose proof (test_spec Auth.mobileRegex (Auth.mobile (Auth.formData st))) as Hmob.
  unfold Auth.mobileRegex in Hmob at 2. rewrite matches_repeat_class in Hmob.
  destruct (test Auth.mobileRegex _); cbn [negb].
  - split; [|reflexivity]. intros _.
    split; [reflexivity|]. split; [lia|]. intros _.
    split; [now apply Hname|]. split; [now apply Hsid|].
    split; [discriminate | now apply Hmob].
  - split; [discriminate|]. intros (_ & _ & Hreg).
    destruct (Hreg eq_refl) as (_ & _ & _ & Hn). apply Hmob in Hn. discriminate.
Qed.

(** ** The form: registration *)

Lemma register_falls_back (w : World) (now : Z) (st : Auth.State) :
  Auth.isLogin st = false ->
  Auth.validateForm st = None ->
  falls_back w GET_users ->
  (forall u, u ∈ stored_users w -> User.email u <> Auth.email (Auth.formData st)) ->
  Auth.handleSubmit now st w
  = (Return (Auth.setIsLoading true (Auth.setError "" st),
             Some (account_of now (Auth.formData st))),
     set_localStorage
       (with_users (stored_users w ++ [account_of now (Auth.formData st)])
          (localStorage w))
       (fallen_back GET_users w)).
Proof.
  intros Hreg Hvalid Hfb Hfree.
  unfold Auth.handleSubmit. cbn zeta. rewrite validateForm_setError, Hvalid.
  unfold try_catch. unfold mbind at 1. unfold Async_bind at 1.
  rewrite getStoredUsers_falls_back by assumption.
  assert (Auth.isLogin (Auth.setError "" st) = false) as -> by exact Hreg.
  change (Auth.formData (Auth.setError "" st)) with (Auth.formData st).
  assert (list_find (fun u => User.email u = Auth.email (Auth.formData st))
            (stored_users w) = None) as ->
    by (apply list_find_None; rewrite Forall_forall; exact Hfree).
  unfold mbind, Async_bind.
  rewrite saveUser_falls_back
    by (left; destruct (libbook_users (localStorage w)); simpl;
        apply fallen_back_offline).
  unfold account_of, stored_users.
  destruct (libbook_users (localStorage w)) eqn:E; simpl;
    rewrite ?fallen_back_localStorage, ?E; simpl;
    rewrite ?fallen_back_id by (simpl; apply fallen_back_offline);
    rewrite ?fallen_back_localStorage, ?E; reflexivity.
Qed.

Lemma validateForm_sign_in (st : Auth.State) :
  Auth.validateForm st = None ->
  Auth.validateForm (sign_in_form (Auth.email (Auth.formData st))
                       (Auth.password (Auth.formData st))) = None.
Proof.
  unfold Auth.validateForm. cbn zeta.
  change (Auth.email (Auth.formData (sign_in_form ?e ?p))) with e.
  change (Auth.password (Auth.formData (sign_in_form ?e ?p))) with p.
  change (Auth.isLogin (sign_in_form _ _)) with true.
  destruct (negb (test Auth.emailRegex _)); [discriminate|].
  destruct (Z.of_nat _ <? 4); [discriminate | reflexivity].
Qed.

Lemma find_appended_account (fd : Auth.FormData) (users : list User.t) (u : User.t) :
  (forall u', u' ∈ users -> User.email u' <> Auth.email fd) ->
  Auth.credentials_match fd u ->
  list_find (Auth.credentials_match fd) (users ++ [u]) = Some (length users, u).
Proof.
  intros Hfree Hmatch. apply list_find_Some. split; [|split].
  - rewrite lookup_app_r by lia. now rewrite Nat.sub_diag.
  - exact Hmatch.
  - intros j y Hj Hlt [Hemail _]. rewrite lookup_app_l in Hj by assumption.
    apply (Hfree y); [eapply list_elem_of_lookup_2; eauto | exact Hemail].
Qed.

(** X11. A registration that passes [validateForm], runs against the
    fallback store and brings an email no stored user has, creates a
    STUDENT account that is not blocked, with the fields of the form and the
    id [user-<now>], appends it to the collection and calls [onLogin] with
    it; a later sign-in with the same email and password calls [onLogin]
    with that same account. *)
Theorem register_then_login :
  forall (w : World) (now now' : Z) (st : Auth.State),
    Auth.isLogin st = false ->
    Auth.validateForm st = None ->
    falls_back w GET_users ->
    (forall u, u ∈ stored_users w -> User.email u <> Auth.email (Auth.formData st)) ->
    let account := account_of now (Auth.formData st) in
    let w1 := exec (Auth.handleSubmit now st) w in
    (exists st', result (Auth.handleSubmit now st) w = Return (st', Some account))
    /\ User.role account = STUDENT
    /\ User.isBlocked account = false
    /\ stored_users w1 = stored_users w ++ [account]
    /\ exists st'',
         result (Auth.handleSubmit now'
                   (sign_in_form (Auth.email (Auth.formData st))
                      (Auth.password (Auth.formData st)))) w1
         = Return (st'', Some account).
Proof.
  intros w now now' st Hreg Hvalid Hfb Hfree account w1.
  pose proof (register_falls_back w now st Hreg Hvalid Hfb Hfree) as Heq.
  assert (stored_users w1 = stored_users w ++ [account]) as Hst
    by (unfold w1, exec; rewrite Heq; reflexivity).
  assert (isOfflineMode w1 = true) as Hoff
    by (unfold w1, exec; rewrite Heq; simpl; apply fallen_back_offline).
  split; [eexists; unfold result; rewrite Heq; reflexivity|].
  split; [reflexivity|]. split; [reflexivity|]. split; [exact Hst|].
  set (form := sign_in_form (Auth.email (Auth.formData st))
                 (Auth.password (Auth.formData st))).
  assert (Auth.validateForm form = None) as Hvalid'.
  { apply (validateForm_sign_in st). exact Hvalid. }
  destruct (login_found w1 now' form (stored_users w1) (length (stored_users w)) account)
    as [_ Hok]; try reflexivity; try assumption.
  - unfold result. now rewrite getStoredUsers_offline.
  - rewrite Hst. apply find_appended_account; [exact Hfree|]. split; reflexivity.
  - now apply Hok.
Qed.

Lemma register_then_login_witness :
  exists st'',
    result (Auth.handleSubmit 1715332000000
              (sign_in_form (js "jane@student.edu") (js "secret")))
      (exec (Auth.handleSubmit 1715331900000 Examples.register_jane)
         Examples.backend_down)
    = Return (st'', Some (account_of 1715331900000
                            (Auth.formData Examples.register_jane))).
Proof.
  destruct (register_then_login Examples.backend_down 1715331900000 1715332000000
              Examples.register_jane) as (_ & _ & _ & _ & Hlogin).
  - reflexivity.
  - vm_compute. reflexivity.
  - right. split; [reflexivity | exact I].
  - intros u Hu Hemail.
    apply elem_of_cons in Hu as [-> | Hu]; [discriminate Hemail|].
    apply list_elem_of_singleton in Hu. subst u. discriminate Hemail.
  - exact Hlogin.
Defined.

(** X12. Registration against the fallback store keeps the emails of the
    collection distinct: whatever the form holds, valid or not, taken
    email or not, sign-in or registration, the emails of the stored users
    are pairwise different after [handleSubmit] if they were before. *)
Theorem handleSubmit_keeps_emails_unique :
  forall (w : World) (now : Z) (st : Auth.State),
    falls_back w GET_users ->
    NoDup (User.email <$> stored_users w) ->
    NoDup (User.email <$> stored_users (exec (Auth.handleSubmit now st) w)).
Proof.
  intros w now st Hfb Hnodup.
  assert (stored_users (exec getStoredUsers w) = stored_users w) as Hread
    by apply reads_keep_records.
  destruct (Auth.validateForm st) as [msg|] eqn:Hvalid.
  { unfold exec, Auth.handleSubmit. cbn zeta.
    rewrite validateForm_setError, Hvalid. exact Hnodup. }
  destruct (Auth.isLogin st) eqn:Hlogin.
  - (* a sign-in only reads *)
    unfold exec, Auth.handleSubmit. cbn zeta. rewrite validateForm_setError, Hvalid.
    unfold try_catch. unfold mbind at 1. unfold Async_bind at 1.
    rewrite getStoredUsers_falls_back by assumption.
    assert (Auth.isLogin (Auth.setError "" st) = true) as -> by exact Hlogin.
    unfold exec in Hread. rewrite getStoredUsers_falls_back in Hread by assumption.
    simpl in Hread.
    destruct (list_find _ _) as [[i u]|]; [destruct (User.isBlocked u)|];
      simpl; now rewrite Hread.
  - destruct (list_find (fun u => User.email u = Auth.email (Auth.formData st))
                (stored_users w)) as [[i u]|] eqn:Hfind.
    + unfold exec, Auth.handleSubmit. cbn zeta. rewrite validateForm_setError, Hvalid.
      unfold try_catch. unfold mbind at 1. unfold Async_bind at 1.
      rewrite getStoredUsers_falls_back by assumption.
      assert (Auth.isLogin (Auth.setError "" st) = false) as -> by exact Hlogin.
      change (Auth.formData (Auth.setError "" st)) with (Auth.formData st).
      rewrite Hfind.
      unfold exec in Hread. rewrite getStoredUsers_falls_back in Hread by assumption.
      simpl in Hread. simpl. now rewrite Hread.
    + assert (forall u, u ∈ stored_users w ->
                        User.email u <> Auth.email (Auth.formData st)) as Hfree
        by (apply list_find_None in Hfind; rewrite Forall_forall in Hfind; exact Hfind).
      unfold exec. rewrite (register_falls_back w now st Hlogin Hvalid Hfb Hfree).
      cbn [snd]. change (stored_users (set_localStorage (with_users ?l _) _)) with l.
      rewrite fmap_app. apply NoDup_app. split; [exact Hnodup|].
      split; [|apply NoDup_singleton].
      intros e He Hnew. apply list_elem_of_singleton in Hnew. subst e.
      apply list_elem_of_fmap in He as (u & Hemail & Hu).
      apply (Hfree u Hu). now symmetry.
Qed.

Lemma handleSubmit_keeps_emails_unique_witness :
  NoDup (User.email
           <$> stored_users
                 (exec (Auth.handleSubmit 1715331900000 Examples.register_jane)
                    Examples.backend_down)).
Proof.
  apply (handleSubmit_keeps_emails_unique Examples.backend_down 1715331900000
           Examples.register_jane).
  - right. split; [reflexivity | exact I].
  - apply NoDup_cons. split.
    + intros Hin. apply list_elem_of_singleton in Hin. discriminate Hin.
    + apply NoDup_singleton.
Defined.

(** ** The administrator: blocking a student *)

Lemma refreshData_offline (st : AdminDashboard.State) (w : World) :
  isOfflineMode w = true ->
  exists w',
    AdminDashboard.refreshData st w
    = (Return {| AdminDashboard.seats := stored_seats w;
                 AdminDashboard.users := stored_users w;
                 AdminDashboard.bookings := stored_bookings w;
                 AdminDashboard.isEditMode := AdminDashboard.isEditMode st;
                 AdminDashboard.selectedSeat := AdminDashboard.selectedSeat st |}, w')
    /\ isOfflineMode w' = true
    /\ stored_seats w' = stored_seats w
    /\ stored_users w' = stored_users w
    /\ stored_bookings w' = stored_bookings w
    /\ calls w' = calls w.
Proof.
  intros Hoff. unfold AdminDashboard.refreshData, try_catch, mbind, Async_bind.
  rewrite !safeFetch_start_offline by assumption.
  destruct (rejected_is_offline w Hoff) as (-> & _).
  rewrite getStoredSeats_offline by assumption.
  set (w1 := match libbook_seats (localStorage w) with
             | Some _ => w
             | None => set_localStorage (with_seats (INITIAL_SEATS w) (localStorage w)) w
             end).
  assert (isOfflineMode w1 = true) as Hoff1
    by (unfold w1; destruct (libbook_seats (localStorage w)); assumption).
  assert (stored_seats w1 = stored_seats w /\ stored_users w1 = stored_users w
          /\ stored_bookings w1 = stored_bookings w /\ calls w1 = calls w)
    as (Hs1 & Hu1 & Hb1 & Hc1).
  { unfold w1, stored_seats, stored_users, stored_bookings.
    destruct (libbook_seats (localStorage w)) eqn:E; simpl; rewrite ?E; auto. }
  destruct (rejected_is_offline w1 Hoff1) as (_ & -> & _).
  rewrite getStoredUsers_offline by assumption.
  set (w2 := match libbook_users (localStorage w1) with
             | Some _ => w1
             | None => set_localStorage
                         (with_users [ADMIN_USER; DEMO_STUDENT] (localStorage w1)) w1
             end).
  assert (isOfflineMode w2 = true) as Hoff2
    by (unfold w2; destruct (libbook_users (localStorage w1)); assumption).
  assert (stored_seats w2 = stored_seats w1 /\ stored_users w2 = stored_users w1
          /\ stored_bookings w2 = stored_bookings w1 /\ calls w2 = calls w1)
    as (Hs2 & Hu2 & Hb2 & Hc2).
  { unfold w2, stored_seats, stored_users, stored_bookings.
    destruct (libbook_users (localStorage w1)) eqn:E; simpl; rewrite ?E; auto. }
  destruct (rejected_is_offline w2 Hoff2) as (_ & _ & ->).
  rewrite getStoredBookings_offline by assumption.
  exists w2. rewrite Hb2, Hb1, Hu1. cbn [mret Async_ret].
  repeat split; congruence.
Qed.


Lemma find_by_id (users : list User.t) (i : nat) (u target : User.t) :
  NoDup (User.id <$> users) ->
  users !! i = Some u -> User.id u = User.id target ->
  list_find (fun u' => User.id u' = User.id target) users = Some (i, u).
Proof.
  intros Hnodup Hi Hid. apply list_find_Some. split; [exact Hi|]. split; [exact Hid|].
  intros j y Hj Hlt Hy.
  assert (j = i); [|lia].
  apply (NoDup_lookup _ _ _ (User.id target) Hnodup);
    rewrite list_lookup_fmap; [rewrite Hj | rewrite Hi]; simpl; congruence.
Qed.

Lemma handleBlockUser_falls_back (target u : User.t) (i : nat)
    (st : AdminDashboard.State) (w : World) :
  User.role target = STUDENT ->
  falls_back w (PUT_users (User.with_isBlocked (negb (User.isBlocked target)) target)) ->
  NoDup (User.id <$> stored_users w) ->
  stored_users w !! i = Some u -> User.id u = User.id target ->
  exists st' w',
    AdminDashboard.handleBlockUser target st w = (Return st', w')
    /\ isOfflineMode w' = true
    /\ stored_users w'
       = <[i := User.with_isBlocked (negb (User.isBlocked target)) target]> (stored_users w)
    /\ AdminDashboard.users st' = stored_users w'.
Proof.
  intros Hrole Hfb Hnodup Hi Hid.
  unfold AdminDashboard.handleBlockUser. rewrite Hrole.
  unfold mbind, Async_bind.
  rewrite updateUser_falls_back by assumption. cbn zeta.
  change (User.id (User.with_isBlocked _ target)) with (User.id target).
  rewrite (find_by_id _ i u target Hnodup Hi Hid).
  match goal with
  | |- context [AdminDashboard.refreshData st ?w1] =>
      destruct (refreshData_offline st w1) as (w' & Heq & Hoff & _ & Hu & _);
        [simpl; apply fallen_back_offline|]
  end.
  rewrite Heq. eexists _, w'. split; [reflexivity|]. split; [exact Hoff|].
  split; [exact Hu | simpl; now rewrite Hu].
Qed.

Lemma find_credentials_replaced (fd : Auth.FormData) (users : list User.t) (i : nat)
    (u u' : User.t) :
  NoDup (User.email <$> users) ->
  users !! i = Some u ->
  User.email u' = User.email u ->
  Auth.credentials_match fd u' ->
  list_find (Auth.credentials_match fd) (<[i := u']> users) = Some (i, u').
Proof.
  intros Hnodup Hi Hemail Hmatch.
  assert (i < length users)%nat as Hlt by (eapply lookup_lt_Some; eauto).
  apply list_find_Some. split; [now apply list_lookup_insert_eq|].
  split; [exact Hmatch|].
  intros j y Hj Hji [Hy _].
  rewrite list_lookup_insert_ne in Hj by lia.
  assert (j = i); [|lia].
  apply (NoDup_lookup _ _ _ (User.email u) Hnodup);
    rewrite list_lookup_fmap; [rewrite Hj | rewrite Hi]; simpl; [|reflexivity].
  destruct Hmatch as [Hu' _]. congruence.
Qed.

(** X13. Blocking reaches the sign-in. With ids and emails unique in the
    fallback store, [handleBlockUser] on a stored student who is not
    blocked replaces that record, at its position, by the same record with
    [isBlocked] set, and refreshes the dashboard's list from the store; the
    student's sign-in is then refused with the message for blocked
    accounts. [handleBlockUser] on the refreshed record restores the
    collection, and the same sign-in succeeds with the original record. *)
Theorem handleBlockUser_gates_login :
  forall (w : World) (now : Z) (st : AdminDashboard.State) (form : Auth.State)
         (i : nat) (u : User.t),
    stored_users w !! i = Some u ->
    NoDup (User.id <$> stored_users w) ->
    NoDup (User.email <$> stored_users w) ->
    User.role u = STUDENT ->
    User.isBlocked u = false ->
    falls_back w (PUT_users (User.with_isBlocked true u)) ->
    Auth.isLogin form = true ->
    Auth.validateForm form = None ->
    Auth.credentials_match (Auth.formData form) u ->
    let blocked := User.with_isBlocked true u in
    exists st1 w1 st2 w2,
      AdminDashboard.handleBlockUser u st w = (Return st1, w1)
      /\ stored_users w1 = <[i := blocked]> (stored_users w)
      /\ AdminDashboard.users st1 = stored_users w1
      /\ (exists st',
            result (Auth.handleSubmit now form) w1 = Return (st', None)
            /\ Auth.error st' = js "Your account has been blocked by the administrator.")
      /\ AdminDashboard.handleBlockUser blocked st1 w1 = (Return st2, w2)
      /\ stored_users w2 = stored_users w
      /\ exists st', result (Auth.handleSubmit now form) w2 = Return (st', Some u).
Proof.
  intros w now st form i u Hi Hids Hemails Hrole Hfree Hfb Hlogin Hvalid Hmatch blocked.
  assert (i < length (stored_users w))%nat as Hlt by (eapply lookup_lt_Some; eauto).
  destruct (handleBlockUser_falls_back u u i st w) as (st1 & w1 & Heq1 & Hoff1 & Hu1 & Hst1);
    try assumption; try reflexivity.
  { now rewrite Hfree. }
  rewrite Hfree in Hu1. cbn [negb] in Hu1. fold blocked in Hu1.
  assert (stored_users w1 !! i = Some blocked) as Hi1
    by (rewrite Hu1; now apply list_lookup_insert_eq).
  assert (NoDup (User.id <$> stored_users w1)) as Hids1.
  { rewrite Hu1, list_fmap_insert.
    change (User.id blocked) with (User.id u).
    rewrite list_insert_id; [exact Hids|]. now rewrite list_lookup_fmap, Hi. }
  destruct (handleBlockUser_falls_back blocked blocked i st1 w1)
    as (st2 & w2 & Heq2 & Hoff2 & Hu2 & Hst2); try assumption; try reflexivity.
  { now left. }
  change (User.with_isBlocked (negb (User.isBlocked blocked)) blocked)
    with (User.with_isBlocked false u) in Hu2.
  assert (User.with_isBlocked false u = u) as Hback
    by (destruct u; simpl in *; now subst).
  rewrite Hback, Hu1, list_insert_insert_eq, list_insert_id in Hu2 by assumption.
  exists st1, w1, st2, w2.
  split; [exact Heq1|]. split; [exact Hu1|]. split; [exact Hst1|].
  split; [|split; [exact Heq2 | split; [exact Hu2|]]].
  - destruct (login_found w1 now form (stored_users w1) i blocked) as [Hblocked _];
      try assumption.
    + unfold result. now rewrite getStoredUsers_offline.
    + rewrite Hu1. apply (find_credentials_replaced _ _ _ u); auto.
    + destruct (Hblocked eq_refl) as (st' & Hres & Herr & _). now exists st'.
  - destruct (login_found w2 now form (stored_users w2) i u) as [_ Hok];
      try assumption.
    + unfold result. now rewrite getStoredUsers_offline.
    + rewrite Hu2. rewrite <- (list_insert_id (stored_users w) i u Hi).
      apply (find_credentials_replaced _ _ _ u); auto.
    + now apply Hok.
Qed.

Lemma handleBlockUser_gates_login_witness :
  exists st1 w1,
    AdminDashboard.handleBlockUser DEMO_STUDENT Examples.editor Examples.offline_world
    = (Return st1, w1)
    /\ exists st',
         result (Auth.handleSubmit 1715332000000 Examples.login_john) w1
         = Return (st', None)
         /\ Auth.error st' = js "Your account has been blocked by the administrator.".
Proof.
  destruct (handleBlockUser_gates_login Examples.offline_world 1715332000000
              Examples.editor Examples.login_john 1%nat DEMO_STUDENT)
    as (st1 & w1 & _ & _ & Heq & _ & _ & Hrefused & _).
  - reflexivity.
  - apply NoDup_cons. split.
    + intros Hin. apply list_elem_of_singleton in Hin. discriminate Hin.
    + apply NoDup_singleton.
  - apply NoDup_cons. split.
    + intros Hin. apply list_elem_of_singleton in Hin. discriminate Hin.
    + apply NoDup_singleton.
  - reflexivity.
  - reflexivity.
  - left. reflexivity.
  - reflexivity.
  - vm_compute. reflexivity.
  - split; reflexivity.
  - exists st1, w1. split; [exact Heq | exact Hrefused].
Defined.

(** ** The application: the session decides the screen *)

Lemma keeps_session_ret {A : Type} (a : A) : keeps_session (mret a).
Proof. intros w. reflexivity. Qed.

Lemma keeps_session_throw {A : Type} (e : Error) : keeps_session (@throw A e).
Proof. intros w. reflexivity. Qed.

Lemma keeps_session_read {A : Type} (f : World -> A) : keeps_session (read f).
Proof. intros w. reflexivity. Qed.

Lemma keeps_session_write (f : World -> World) :
  (forall w, session (f w) = session w) -> keeps_session (write f).
Proof. intros Hf w. apply Hf. Qed.

Lemma keeps_session_bind {A B : Type} (m : Async A) (k : A -> Async B) :
  keeps_session m -> (forall a, keeps_session (k a)) -> keeps_session (m ≫= k).
Proof.
  intros Hm Hk w. rewrite exec_bind.
  destruct (result m w) as [a|e]; [rewrite Hk|]; apply Hm.
Qed.

Lemma keeps_session_try_catch {A : Type} (body : Async A) (h : Error -> Async A) :
  keeps_session body -> (forall e, keeps_session (h e)) ->
  keeps_session (try_catch body h).
Proof.
  intros Hb Hh w. pose proof (Hb w) as Hw.
  unfold exec, try_catch in *. destruct (body w) as [[a|e] w']; simpl in *; [auto|].
  pose proof (Hh e w') as Hw'. unfold exec in Hw'. congruence.
Qed.

Lemma keeps_session_safeFetch (req : Request) : keeps_session (safeFetch req).
Proof.
  intros w. unfold session. destruct (safeFetch_frame req w) as (-> & _). reflexivity.
Qed.

Create HintDb session.

#[local] Hint Resolve keeps_session_ret keeps_session_throw keeps_session_read
  keeps_session_safeFetch : session.

Ltac session :=
  repeat first
    [ progress auto with session
    | apply keeps_session_try_catch; [|intros ?]
    | apply keeps_session_bind; [|intros ?]
    | apply keeps_session_write; intros ?; reflexivity
    | match goal with
      | |- keeps_session (match ?x with _ => _ end) => destruct x
      | |- keeps_session (if ?x then _ else _) => destruct x
      | |- keeps_session (let _ := _ in _) => cbn zeta
      end ].

Lemma perform_keeps_session (op : Operation) :
  is_session_write op = false -> keeps_session (perform op).
Proof.
  destruct op; try discriminate; intros _;
    unfold perform, getStoredUsers, getStoredUsers_after, getStoredSeats, getStoredSeats_array, getStoredSeats_array_after,
      getStoredBookings, saveUser, updateUser, saveSeats, createBooking,
      cancelBooking, toggleSeatMaintenance, getSession, res_json,
      setItem_USERS, setItem_SEATS, setItem_BOOKINGS, elements, assign;
    session.
Qed.

Lemma perform_all_keeps_session (ops : list Operation) :
  Forall (fun op => is_session_write op = false) ops ->
  keeps_session (perform_all ops).
Proof.
  induction 1 as [|op ops Hop _ IH]; cbn [perform_all]; [apply keeps_session_ret|].
  apply keeps_session_bind; [now apply perform_keeps_session | intros _; exact IH].
Qed.

(** X14. Once [handleLogin] has run, the user stays signed in across
    page loads whatever the store does in between, short of writing the
    session: after any sequence of reads and writes of the three
    collections, online or offline (a block of that very user included),
    the mount effect restores the same record and the application shows the
    dashboard of its role; after [handleLogout] the next load shows the
    sign-in form. *)
Theorem session_outlives_store_operations :
  forall (w : World) (user : User.t) (st st' : App.State) (ops : list Operation),
    Forall (fun op => is_session_write op = false) ops ->
    let w1 := exec (perform_all ops) (exec (App.handleLogin user st) w) in
    result App.load w1
    = Return {| App.currentUser := Some user; App.isLoading := false |}
    /\ App.render {| App.currentUser := Some user; App.isLoading := false |}
       = match User.role user with
         | ADMIN => App.AdminDashboardFor user
         | STUDENT => App.StudentDashboardFor user
         end
    /\ exists st'',
         result App.load (exec (App.handleLogout st') w1) = Return st''
         /\ App.render st'' = App.AuthScreen.
Proof.
  intros w user st st' ops Hops w1.
  assert (session w1 = Some user) as Hsession
    by (unfold w1; rewrite perform_all_keeps_session by assumption; reflexivity).
  split; [|split].
  - unfold result, App.load, App.checkSession, getSession, mbind, Async_bind, read.
    cbn. unfold session in Hsession. now rewrite Hsession.
  - reflexivity.
  - eexists. split; reflexivity.
Qed.

Lemma session_outlives_store_operations_witness :
  result App.load
    (exec (perform_all [UpdateUser Examples.blocked_john; GetStoredUsers])
       (exec (App.handleLogin DEMO_STUDENT App.initial) Examples.offline_world))
  = Return {| App.currentUser := Some DEMO_STUDENT; App.isLoading := false |}.
Proof.
  apply (session_outlives_store_operations Examples.offline_world DEMO_STUDENT
           App.initial App.initial [UpdateUser Examples.blocked_john; GetStoredUsers]).
  repeat constructor.
Defined.

(** ** The seat map: which cells show which seats *)


Lemma lookup_flat_map_blocks {A B : Type} (f : A -> list B) (n : nat) (l : list A)
    (i j : nat) :
  (forall a, length (f a) = n) -> (j < n)%nat ->
  flat_map f l !! (i * n + j)%nat = l !! i ≫= fun a => f a !! j.
Proof.
  intros Hf Hj. revert i. induction l as [|a l IH]; intros i.
  - now destruct i.
  - destruct i as [|i]; simpl.
    + rewrite lookup_app_l by (rewrite Hf; exact Hj). reflexivity.
    + rewrite lookup_app_r by (rewrite Hf; lia).
      rewrite Hf. replace (n + i * n + j - n)%nat with (i * n + j)%nat by lia.
      apply IH.
Qed.

Lemma maxRow_bounds (p : SeatMap.Props) :
  8 <= SeatMap.maxRow p
  /\ forall s, s ∈ SeatMap.seats p -> Seat.y s <= SeatMap.maxRow p.
Proof.
  unfold SeatMap.maxRow. induction (SeatMap.seats p) as [|s0 l [IH1 IH2]].
  - split; [simpl; lia|]. intros s Hs. inversion Hs.
  - change (fold_right Z.max 8 (Seat.y <$> s0 :: l))
      with (Z.max (Seat.y s0) (fold_right Z.max 8 (Seat.y <$> l))).
    split; [lia|]. intros s Hs. apply elem_of_cons in Hs as [-> | Hs]; [lia|].
    specialize (IH2 s Hs). lia.
Qed.


Lemma renderGrid_lookup (p : SeatMap.Props) (x y : nat) :
  (x < 15)%nat -> (Z.of_nat y < SeatMap.rows p) ->
  SeatMap.renderGrid p !! (y * 15 + x)%nat
  = Some (SeatMap.renderCell p (Z.of_nat x) (Z.of_nat y)).
Proof.
  intros Hx Hy. unfold SeatMap.renderGrid.
  rewrite (lookup_flat_map_blocks _ 15) by (intros; now rewrite length_fmap, length_seq || lia).
  rewrite lookup_seq_lt by lia. cbn [mbind option_bind Nat.add].
  rewrite list_lookup_fmap. change (Z.to_nat SeatMap.COLS) with 15%nat.
  rewrite lookup_seq_lt by lia. reflexivity.
Qed.


Lemma renderCell_seat (p : SeatMap.Props) (x y : Z) (s : Seat.t)
    (status : SeatMap.SeatStatus) (sel click : bool) (config : SeatMap.StyleConfig) :
  SeatMap.renderCell p x y = SeatMap.SeatButton s status sel click config ->
  List.find (fun s' => (Seat.x s' =? x) && (Seat.y s' =? y)) (SeatMap.seats p) = Some s
  /\ Seat.x s = x /\ Seat.y s = y
  /\ status = SeatMap.getSeatStatus p s
  /\ click = SeatMap.isAdmin p
             || match status with SeatMap.AVAILABLE => true | _ => false end.
Proof.
  unfold SeatMap.renderCell.
  destruct (List.find _ _) as [s'|] eqn:Hfind;
    [|destruct (SeatMap.isEditMode p); discriminate].
  cbn zeta. intros [= <- <- <- <- <-].
  pose proof (find_some _ _ Hfind) as [_ Hpos].
  apply andb_true_iff in Hpos as [Hx Hy].
  repeat split; try reflexivity; lia.
Qed.


(** X16. What a click on a cell of the grid does. It calls [onSeatClick]
    with a seat of the list that stands at the cell's position, and for a
    student only when that seat is not under maintenance and not among the
    seats booked in the slot; it calls [onEmptySlotClick], with the cell's
    own coordinates, only in edit mode and only where no seat stands. *)
Theorem onClick_cell :
  forall (p : SeatMap.Props) (x y : Z),
    (forall s, SeatMap.onClick p (SeatMap.renderCell p x y) = Some (SeatMap.onSeatClick s) ->
               s ∈ SeatMap.seats p /\ Seat.x s = x /\ Seat.y s = y
               /\ (SeatMap.isAdmin p = false ->
                   Seat.isMaintenance s = false
                   /\ Seat.id s ∉ SeatMap.bookingsForSlot p))
    /\ (forall x' y',
          SeatMap.onClick p (SeatMap.renderCell p x y)
          = Some (SeatMap.onEmptySlotClick x' y') ->
          x' = x /\ y' = y /\ SeatMap.isEditMode p = true
          /\ forall s, s ∈ SeatMap.seats p -> (Seat.x s, Seat.y s) <> (x, y)).
Proof.
  intros p x y. split.
  - intros s Hclick.
    destruct (SeatMap.renderCell p x y) as [s' status sel click config|x' y'|] eqn:Hcell;
      simpl in Hclick.
    + destruct click eqn:Hc; [|discriminate]. injection Hclick as ->.
      apply renderCell_seat in Hcell as (Hfind & Hx & Hy & Hstatus & Hclickable).
      split; [apply list_elem_of_In; exact (proj1 (find_some _ _ Hfind))|].
      split; [exact Hx|]. split; [exact Hy|].
      intros Hstudent. rewrite Hstudent in Hclickable. simpl in Hclickable.
      unfold SeatMap.getSeatStatus in Hstatus.
      destruct (Seat.isMaintenance s); [subst status; discriminate|].
      split; [reflexivity|].
      destruct (existsb _ _) eqn:Hbooked; [subst status; discriminate|].
      intros Hin. apply not_true_iff_false in Hbooked. apply Hbooked.
      apply existsb_exists. exists (Seat.id s).
      split; [now apply list_elem_of_In | apply bool_decide_eq_true_2; reflexivity].
    + destruct (SeatMap.hasOnEmptySlotClick p); discriminate.
    + discriminate.
  - intros x' y' Hclick. unfold SeatMap.renderCell in Hclick.
    destruct (List.find _ _) as [s'|] eqn:Hfind.
    + cbn zeta in Hclick. simpl in Hclick. destruct (_ || _); discriminate.
    + destruct (SeatMap.isEditMode p); simpl in Hclick; [|discriminate].
      destruct (SeatMap.hasOnEmptySlotClick p); [|discriminate].
      injection Hclick as <- <-. repeat split; try reflexivity.
      intros s Hs [= Hx Hy].
      apply list_elem_of_In in Hs. pose proof (find_none _ _ Hfind s Hs) as Hnone.
      simpl in Hnone. apply andb_false_iff in Hnone as [Hne | Hne]; lia.
Qed.

(** X17. In edit mode the grid ends with a row in which every cell is
    the dashed button of an empty slot, one row below the lowest seat (or
    below row 8), so that the layout can always grow downwards. *)
Theorem edit_mode_adds_an_empty_row :
  forall (p : SeatMap.Props) (x : nat),
    (x < 15)%nat ->
    SeatMap.isEditMode p = true ->
    SeatMap.rows p = SeatMap.maxRow p + 2
    /\ SeatMap.renderGrid p !! (Z.to_nat (SeatMap.maxRow p + 1) * 15 + x)%nat
       = Some (SeatMap.EmptySlotButton (Z.of_nat x) (SeatMap.maxRow p + 1)).
Proof.
  intros p x Hx Hedit. pose proof (maxRow_bounds p) as [H8 Hmax].
  assert (SeatMap.rows p = SeatMap.maxRow p + 2) as Hrows
    by (unfold SeatMap.rows; now rewrite Hedit).
  split; [exact Hrows|].
  rewrite renderGrid_lookup by lia. rewrite Z2Nat.id by lia.
  unfold SeatMap.renderCell.
  destruct (List.find _ _) as [s|] eqn:Hfind; [|now rewrite Hedit].
  apply find_some in Hfind as [Hs Hpos]. apply andb_true_iff in Hpos as [_ Hy].
  apply list_elem_of_In in Hs. specialize (Hmax s Hs). lia.
Qed.

Lemma edit_mode_adds_an_empty_row_witness :
  SeatMap.renderGrid (AdminDashboard.seatMapProps Examples.editor)
  !! (Z.to_nat (SeatMap.maxRow (AdminDashboard.seatMapProps Examples.editor) + 1) * 15
      + 3)%nat
  = Some (SeatMap.EmptySlotButton 3
            (SeatMap.maxRow (AdminDashboard.seatMapProps Examples.editor) + 1)).
Proof.
  apply (edit_mode_adds_an_empty_row (AdminDashboard.seatMapProps Examples.editor) 3).
  - lia.
  - reflexivity.
Defined.

(** ** The layout editor: one seat per cell *)

Lemma well_laid_fmap (g : Seat.t -> Seat.t) (l : list Seat.t) :
  (forall s, Seat.id (g s) = Seat.id s) ->
  (forall s, position (g s) = position s) ->
  well_laid l -> well_laid (g <$> l).
Proof.
  intros Hid Hpos [H1 H2]. unfold well_laid. rewrite <- !list_fmap_compose.
  rewrite (list_fmap_ext (Seat.id ∘ g) Seat.id l) by (intros; simpl; auto).
  rewrite (list_fmap_ext (position ∘ g) position l) by (intros; simpl; auto).
  now split.
Qed.

Lemma NoDup_fmap_filter {B : Type} (g : Seat.t -> B) (f : Seat.t -> bool)
    (l : list Seat.t) :
  NoDup (g <$> l) -> NoDup (g <$> List.filter f l).
Proof.
  induction l as [|s l IH]; [auto|]. rewrite fmap_cons. intros Hnd.
  apply NoDup_cons in Hnd as [Hnotin Hnd]. simpl.
  destruct (f s); [|now apply IH].
  rewrite fmap_cons. apply NoDup_cons. split; [|now apply IH].
  intros Hin. apply Hnotin.
  apply list_elem_of_fmap in Hin as (s' & Heq & Hs').
  apply list_elem_of_In, filter_In in Hs' as [Hs' _].
  apply list_elem_of_fmap. exists s'. split; [exact Heq | now apply list_elem_of_In].
Qed.

Lemma well_laid_filter (f : Seat.t -> bool) (l : list Seat.t) :
  well_laid l -> well_laid (List.filter f l).
Proof. intros [H1 H2]. split; now apply NoDup_fmap_filter. Qed.

Lemma well_laid_snoc (l : list Seat.t) (n : Seat.t) :
  well_laid l ->
  (forall s, s ∈ l -> Seat.id s <> Seat.id n) ->
  (forall s, s ∈ l -> position s <> position n) ->
  well_laid (l ++ [n]).
Proof.
  intros [H1 H2] Hid Hpos. unfold well_laid. rewrite !fmap_app.
  split; apply NoDup_app; (split; [assumption|]); (split; [|apply NoDup_singleton]).
  - intros i Hi Hn. apply list_elem_of_singleton in Hn. subst i.
    apply list_elem_of_fmap in Hi as (s & Heq & Hs). apply (Hid s Hs). now symmetry.
  - intros q Hq Hn. apply list_elem_of_singleton in Hn. subst q.
    apply list_elem_of_fmap in Hq as (s & Heq & Hs). apply (Hpos s Hs). now symmetry.
Qed.

Lemma moved_others (i : jsstring) (x y : Z) (lbl : jsstring) (l : list Seat.t) :
  (forall s, s ∈ l -> Seat.id s <> i) ->
  (fun s => if streq (Seat.id s) i then Seat.with_position x y lbl s else s) <$> l = l.
Proof.
  induction l as [|s l IH]; intros Hne; [reflexivity|].
  rewrite fmap_cons, IH by (intros s' Hs'; apply Hne; now right).
  unfold streq. rewrite bool_decide_eq_false_2; [reflexivity|].
  apply Hne. now left.
Qed.

Lemma well_laid_move (i : jsstring) (x y : Z) (lbl : jsstring) (l : list Seat.t) :
  well_laid l ->
  (forall s, s ∈ l -> position s <> (x, y)) ->
  well_laid ((fun s => if streq (Seat.id s) i then Seat.with_position x y lbl s else s)
               <$> l).
Proof.
  set (move := fun s => if streq (Seat.id s) i then Seat.with_position x y lbl s else s).
  intros [Hids Hpos] Hfree. split.
  - rewrite <- list_fmap_compose.
    rewrite (list_fmap_ext (Seat.id ∘ move) Seat.id l); [exact Hids|].
    intros _ s _. unfold move. simpl. now destruct (streq _ _), s.
  - induction l as [|s l IH]; [constructor|].
    rewrite !fmap_cons in *.
    apply NoDup_cons in Hids as [Hid Hids]. apply NoDup_cons in Hpos as [Hp Hpos].
    assert (forall s', s' ∈ l -> position s' <> (x, y)) as Hfree'
      by (intros s' Hs'; apply Hfree; now right).
    apply NoDup_cons. split; [|now apply IH].
    unfold move at 1. unfold streq. destruct (bool_decide_reflect (Seat.id s = i)) as [Hi | Hi].
    + (* the seat that moves: no other seat has its id *)
      unfold move. rewrite moved_others.
      * change (position (Seat.with_position x y lbl s)) with (x, y).
        intros Hin. apply list_elem_of_fmap in Hin as (s' & Heq & Hs').
        apply (Hfree' s' Hs'). now symmetry.
      * intros s' Hs' Heq. apply Hid. apply list_elem_of_fmap.
        exists s'. split; [congruence | exact Hs'].
    + intros Hin. apply list_elem_of_fmap in Hin as (q & Heq & Hq).
      apply list_elem_of_fmap in Hq as (s' & -> & Hs').
      unfold move in Heq. destruct (streq (Seat.id s') i).
      * change (position (Seat.with_position x y lbl s')) with (x, y) in Heq.
        apply (Hfree s); [now left | exact Heq].
      * apply Hp. apply list_elem_of_fmap. now exists s'.
Qed.

Lemma renderCell_empty (p : SeatMap.Props) (x y x' y' : Z) :
  SeatMap.renderCell p x y = SeatMap.EmptySlotButton x' y' ->
  x' = x /\ y' = y /\ forall s, s ∈ SeatMap.seats p -> position s <> (x, y).
Proof.
  unfold SeatMap.renderCell.
  destruct (List.find _ _) as [s'|] eqn:Hfind; [discriminate|].
  destruct (SeatMap.isEditMode p); [|discriminate].
  intros [= <- <-]. repeat split. intros s Hs [= Hx Hy].
  apply list_elem_of_In in Hs. pose proof (find_none _ _ Hfind s Hs) as Hnone.
  simpl in Hnone. apply andb_false_iff in Hnone as [Hne | Hne]; lia.
Qed.

Lemma saved_in_sync (seats : list Seat.t) (w : World) :
  isOfflineMode w = true ->
  isOfflineMode (exec (saveSeats seats) w) = true
  /\ stored_seats (exec (saveSeats seats) w) = seats.
Proof.
  intros Hoff. unfold exec. rewrite saveSeats_falls_back by now left.
  split; [simpl; apply fallen_back_offline | reflexivity].
Qed.

(** X18. The layout editor keeps one seat per cell. In edit mode, with a
    layout in which no two seats share an id or a position, each action of
    the administrator (a click on the cell the map shows at any position,
    a change of type, a rotation, a deletion confirmed or not) completes
    and leaves such a layout, still in edit mode, provided the id
    [seat-<Date.now()>] a creation would use is not taken; and when the
    process is offline with the dashboard's seats those of the store, they
    are again those of the store afterwards. *)
Theorem editor_keeps_one_seat_per_cell :
  forall (w : World) (now : Z) (a : EditorAction) (st : AdminDashboard.State),
    AdminDashboard.isEditMode st = true ->
    well_laid (AdminDashboard.seats st) ->
    (forall s, s ∈ AdminDashboard.seats st -> Seat.id s <> js "seat-" ++ toString now) ->
    exists st',
      result (edit now a st) w = Return st'
      /\ AdminDashboard.isEditMode st' = true
      /\ well_laid (AdminDashboard.seats st')
      /\ (isOfflineMode w = true ->
          stored_seats w = AdminDashboard.seats st ->
          isOfflineMode (exec (edit now a st) w) = true
          /\ stored_seats (exec (edit now a st) w) = AdminDashboard.seats st').
Proof.
  intros w now a st Hedit Hlaid Hfresh.
  assert (exists st', result (mret st : Async _) w = Return st'
            /\ AdminDashboard.isEditMode st' = true
            /\ well_laid (AdminDashboard.seats st')
            /\ (isOfflineMode w = true ->
                stored_seats w = AdminDashboard.seats st ->
                isOfflineMode (exec (mret st : Async AdminDashboard.State) w) = true
                /\ stored_seats (exec (mret st : Async AdminDashboard.State) w)
                   = AdminDashboard.seats st')) as Hsame
    by (exists st; split; [reflexivity|]; split; [exact Hedit|];
        split; [exact Hlaid|]; intros Hoff Hsync; split; assumption).
  assert (forall (seats' : list Seat.t) (sel : option Seat.t),
             well_laid seats' ->
             exists st',
               result (saveSeats seats' ≫= fun _ =>
                         mret (AdminDashboard.setSelectedSeat sel
                                 (AdminDashboard.setSeats seats' st))) w = Return st'
               /\ AdminDashboard.isEditMode st' = true
               /\ well_laid (AdminDashboard.seats st')
               /\ (isOfflineMode w = true ->
                   stored_seats w = AdminDashboard.seats st ->
                   isOfflineMode
                     (exec (saveSeats seats' ≫= fun _ =>
                              mret (AdminDashboard.setSelectedSeat sel
                                      (AdminDashboard.setSeats seats' st))) w) = true
                   /\ stored_seats
                        (exec (saveSeats seats' ≫= fun _ =>
                                 mret (AdminDashboard.setSelectedSeat sel
                                         (AdminDashboard.setSeats seats' st))) w)
                      = AdminDashboard.seats st')) as Hsaved.
  { intros seats' sel Hlaid'. eexists. unfold result, exec.
    rewrite saveSeats_then. cbn [fst snd].
    split; [reflexivity|]. split; [exact Hedit|]. split; [exact Hlaid'|].
    intros Hoff _. now apply saved_in_sync. }
  destruct a as [x y|type| |confirmed]; cbn [edit].
  - (* a click on the map *)
    unfold AdminDashboard.clickCell.
    destruct (SeatMap.renderCell (AdminDashboard.seatMapProps st) x y)
      as [s status sel click config|x' y'|] eqn:Hcell; cbn [SeatMap.onClick].
    + destruct click; [|exact Hsame].
      unfold AdminDashboard.handleSeatInteraction. rewrite Hedit.
      destruct (AdminDashboard.is_selected st s); eexists;
        (split; [reflexivity|]); (split; [exact Hedit|]);
        (split; [exact Hlaid|]); intros Hoff Hsync; split; assumption.
    + apply renderCell_empty in Hcell as (-> & -> & Hfree).
      change (SeatMap.hasOnEmptySlotClick (AdminDashboard.seatMapProps st)) with true.
      cbn iota. unfold AdminDashboard.handleEmptySlotClick. rewrite Hedit. cbn [negb].
      destruct (AdminDashboard.selectedSeat st) as [sel|] eqn:Hsel; cbn zeta.
      * apply Hsaved. now apply well_laid_move.
      * assert (forall l, AdminDashboard.setSeats l st
                          = AdminDashboard.setSelectedSeat None
                              (AdminDashboard.setSeats l st)) as Hnone
          by (intros l; unfold AdminDashboard.setSelectedSeat, AdminDashboard.setSeats;
              simpl; now rewrite Hsel).
        rewrite Hnone. apply Hsaved.
        apply well_laid_snoc; [exact Hlaid | exact Hfresh | exact Hfree].
    + exact Hsame.
  - unfold AdminDashboard.handleChangeType.
    destruct (AdminDashboard.selectedSeat st) as [sel|]; [|exact Hsame]. cbn zeta.
    apply Hsaved. apply well_laid_fmap; [| |exact Hlaid];
      intros s; now destruct (streq _ _), s.
  - unfold AdminDashboard.handleRotateSeat.
    destruct (AdminDashboard.selectedSeat st) as [sel|]; [|exact Hsame]. cbn zeta.
    apply Hsaved. apply well_laid_fmap; [| |exact Hlaid];
      intros s; now destruct (streq _ _), s.
  - unfold AdminDashboard.handleDeleteSeat.
    destruct (AdminDashboard.selectedSeat st) as [sel|]; [|exact Hsame].
    destruct confirmed; [|exact Hsame]. cbn zeta.
    apply Hsaved. now apply well_laid_filter.
Qed.

Lemma editor_keeps_one_seat_per_cell_witness :
  exists st',
    result (edit 1715331900000 (ClickAt 0 0) Examples.editor) Examples.offline_world
    = Return st'
    /\ well_laid (AdminDashboard.seats st').
Proof.
  destruct (editor_keeps_one_seat_per_cell Examples.offline_world 1715331900000
              (ClickAt 0 0) Examples.editor) as (st' & Hres & _ & Hlaid & _).
  - reflexivity.
  - split; apply (bool_decide_unpack _); vm_compute; exact I.
  - apply Forall_forall. apply (bool_decide_unpack _). vm_compute. exact I.
  - exists st'. split; [exact Hres | exact Hlaid].
Defined.

(** ** The student's history *)

Lemma insert_by_timestamp_perm (b : Booking.t) (l : list Booking.t) :
  StudentDashboard.insert_by_timestamp b l ≡ₚ b :: l.
Proof.
  induction l as [|c l IH]; [reflexivity|]. simpl.
  destruct (_ <=? 0); [reflexivity|]. rewrite IH. apply Permutation_swap.
Qed.

Lemma insert_by_timestamp_sorted (b : Booking.t) (l : list Booking.t) :
  StronglySorted not_older l ->
  StronglySorted not_older (StudentDashboard.insert_by_timestamp b l).
Proof.
  induction l as [|c l IH]; intros Hs; simpl.
  - repeat constructor.
  - apply StronglySorted_inv in Hs as [Hs Hc].
    destruct (Z.leb_spec (Booking.timestamp c - Booking.timestamp b) 0) as [Hle | Hgt].
    + constructor; [now constructor|].
      constructor; [unfold not_older; lia|].
      eapply Forall_impl; [exact Hc|]. unfold not_older. intros d Hd. lia.
    + constructor; [now apply IH|].
      rewrite insert_by_timestamp_perm. constructor; [unfold not_older; lia | exact Hc].
Qed.

Lemma insert_by_timestamp_made_at (t : Z) (b : Booking.t) (l : list Booking.t) :
  made_at t (StudentDashboard.insert_by_timestamp b l) = made_at t (b :: l).
Proof.
  unfold made_at. induction l as [|c l IH]; [reflexivity|].
  cbn [StudentDashboard.insert_by_timestamp].
  destruct (Z.leb_spec (Booking.timestamp c - Booking.timestamp b) 0) as [Hle | Hgt];
    [reflexivity|].
  cbn [List.filter] in *. rewrite IH.
  destruct (Z.eqb_spec (Booking.timestamp c) t), (Z.eqb_spec (Booking.timestamp b) t);
    try reflexivity. lia.
Qed.

(** X19. The history a student sees is the stable sort of their own
    bookings by decreasing time of booking: [myBookings] is a permutation
    of the bookings whose [userId] is the user's, whatever their status;
    no booking stands before a more recent one; and bookings made at the
    same instant keep the order they have in the collection. *)
Theorem myBookings_stable_sort :
  forall (user : User.t) (st : StudentDashboard.State),
    let mine :=
      List.filter (fun b => streq (Booking.userId b) (User.id user))
        (StudentDashboard.bookings st) in
    StudentDashboard.myBookings user st ≡ₚ mine
    /\ StronglySorted not_older (StudentDashboard.myBookings user st)
    /\ (forall t, made_at t (StudentDashboard.myBookings user st) = made_at t mine)
    /\ (forall b, b ∈ StudentDashboard.myBookings user st
                  <-> b ∈ StudentDashboard.bookings st
                      /\ Booking.userId b = User.id user).
Proof.
  intros user st mine. unfold StudentDashboard.myBookings. fold mine.
  assert (StudentDashboard.sort_by_timestamp mine ≡ₚ mine) as Hperm.
  { induction mine as [|b l IH]; [reflexivity|].
    cbn [StudentDashboard.sort_by_timestamp fold_right].
    rewrite insert_by_timestamp_perm. now constructor. }
  split; [exact Hperm|]. split; [|split].
  - induction mine as [|b l IH]; [constructor|].
    apply insert_by_timestamp_sorted, IH.
    unfold StudentDashboard.sort_by_timestamp.
    clear. induction l as [|c l IH]; [reflexivity|].
    cbn [fold_right]. rewrite insert_by_timestamp_perm. now constructor.
  - intros t. clear Hperm. induction mine as [|b l IH]; [reflexivity|].
    cbn [StudentDashboard.sort_by_timestamp fold_right].
    rewrite insert_by_timestamp_made_at. unfold made_at in *. cbn [List.filter].
    unfold StudentDashboard.sort_by_timestamp in IH. now rewrite IH.
  - intros b. rewrite Hperm. unfold mine.
    rewrite !list_elem_of_In, filter_In. unfold streq.
    now rewrite bool_decide_eq_true.
Qed.

(** ** The student's booking form *)

Lemma ALL_TIME_SLOTS_hour_later :
  Forall (fun slot =>
            Date.hour_later (StudentDashboard.value slot)
            = Some (padStart2 (toString (StudentDashboard.hourInt slot + 1)) ++ js ":00"))
    StudentDashboard.ALL_TIME_SLOTS.
Proof. repeat constructor. Qed.

Lemma getAvailableTimeSlots_offered (tz now : Z) (date : jsstring)
    (slot : StudentDashboard.Slot) :
  slot ∈ StudentDashboard.getAvailableTimeSlots tz now date ->
  slot ∈ StudentDashboard.ALL_TIME_SLOTS.
Proof.
  unfold StudentDashboard.getAvailableTimeSlots. cbn zeta.
  rewrite !list_elem_of_In, filter_In. tauto.
Qed.

Lemma loadData_total (st : StudentDashboard.State) :
  never_throws (StudentDashboard.loadData st).
Proof. unfold StudentDashboard.loadData. total. Qed.

Lemma handleBook_total (user : User.t) (now now' : Z) (st : StudentDashboard.State) :
  selectable (StudentDashboard.selectedTime st) ->
  never_throws (StudentDashboard.handleBook user now now' st).
Proof.
  intros Hsel. unfold StudentDashboard.handleBook.
  destruct (StudentDashboard.selectedSeat st) as [seat|]; [|total].
  destruct Hsel as [Hnone | (slot & Hslot & Hvalue)].
  - rewrite Hnone. cbn [truthy negb]. total.
  - destruct (negb _); [total|]. cbn zeta. destruct (existsb _ _); [total|].
    pose proof ALL_TIME_SLOTS_hour_later as Hall. rewrite Forall_forall in Hall.
    rewrite <- Hvalue, (Hall slot Hslot).
    apply never_throws_bind; [|intros ?; total].
    apply never_throws_try_catch. intros ?. total.
Qed.

(** X20. The effect that watches the date keeps the selected time among
    the slots on offer: after it, the selected time is the value of one of
    the slots [getAvailableTimeSlots] returns for the selected date, or the
    empty string when there is none; running it again changes nothing; and
    with such a time [handleBook] never rejects, the time always being one
    that [format] can advance by an hour. *)
Theorem resetSelectedTime_keeps_time_on_offer :
  forall (tz now : Z) (st : StudentDashboard.State),
    let offered := StudentDashboard.getAvailableTimeSlots tz now
                     (StudentDashboard.selectedDate st) in
    let st' := StudentDashboard.resetSelectedTime tz now st in
    ((offered = [] /\ StudentDashboard.selectedTime st' = [])
     \/ exists slot, slot ∈ offered
                     /\ StudentDashboard.value slot = StudentDashboard.selectedTime st')
    /\ StudentDashboard.resetSelectedTime tz now st' = st'
    /\ (forall slot, slot ∈ offered ->
                     StudentDashboard.value slot = StudentDashboard.selectedTime st ->
                     st' = st)
    /\ forall (user : User.t) (n n' : Z) (w : World),
         exists st'', result (StudentDashboard.handleBook user n n' st') w = Return st''.
Proof.
  intros tz now st offered st'.
  set (valid := existsb (fun s => streq (StudentDashboard.value s)
                                    (StudentDashboard.selectedTime st)) offered).
  assert (StudentDashboard.selectedDate st' = StudentDashboard.selectedDate st) as Hdate.
  { unfold st', StudentDashboard.resetSelectedTime. cbn zeta.
    destruct (StudentDashboard.getAvailableTimeSlots _ _ _); [reflexivity|].
    destruct (negb _); reflexivity. }
  assert ((offered = [] /\ st' = StudentDashboard.setSelectedTime [] st)
          \/ (exists first rest,
                 offered = first :: rest
                 /\ ((valid = true /\ st' = st)
                     \/ (valid = false
                         /\ st' = StudentDashboard.setSelectedTime
                                    (StudentDashboard.value first) st)))) as Hcases.
  { unfold st', StudentDashboard.resetSelectedTime, valid, offered. cbn zeta.
    destruct (StudentDashboard.getAvailableTimeSlots _ _ _) as [|first rest];
      [left; now split|].
    right. exists first, rest. split; [reflexivity|].
    destruct (existsb _ _); cbn [negb]; [left | right]; now split. }
  clearbody st'.
  assert ((offered = [] /\ StudentDashboard.selectedTime st' = [])
          \/ exists slot, slot ∈ offered
                          /\ StudentDashboard.value slot
                             = StudentDashboard.selectedTime st') as Hoffer.
  { destruct Hcases as [[Hnone ->] | (first & rest & Hsome & [[Hvalid ->] | [Hvalid ->]])].
    - left. now split.
    - right. apply existsb_exists in Hvalid as (slot & Hin & Heq).
      exists slot. split; [now apply list_elem_of_In|].
      now apply bool_decide_eq_true_1 in Heq.
    - right. exists first. split; [rewrite Hsome; now left | reflexivity]. }
  split; [exact Hoffer|]. split; [|split].
  - unfold StudentDashboard.resetSelectedTime. cbn zeta. rewrite Hdate. fold offered.
    destruct Hcases as [[Hnone ->] | (first & rest & Hsome & [[Hvalid ->] | [Hvalid ->]])].
    + now rewrite Hnone.
    + fold valid. rewrite Hvalid, Hsome. reflexivity.
    + rewrite Hsome.
      change (StudentDashboard.selectedTime (StudentDashboard.setSelectedTime ?v st))
        with v.
      cbn [existsb]. unfold streq at 1. rewrite bool_decide_eq_true_2 by reflexivity.
      reflexivity.
  - intros slot Hin Hvalue.
    assert (valid = true) as Hvalid.
    { apply existsb_exists. exists slot. split; [now apply list_elem_of_In|].
      now apply bool_decide_eq_true_2. }
    destruct Hcases as [[Hnone _] | (first & rest & Hsome & [[_ ->] | [Hinvalid _]])].
    + rewrite Hnone in Hin. inversion Hin.
    + reflexivity.
    + congruence.
  - intros user n n' w. apply handleBook_total.
    destruct Hoffer as [[_ Hnone] | (slot & Hin & Hvalue)]; [now left | right].
    exists slot. split; [|exact Hvalue].
    eapply getAvailableTimeSlots_offered. exact Hin.
Qed.

Lemma ALL_TIME_SLOTS_values :
  Forall (fun slot => truthy (StudentDashboard.value slot) = true)
    StudentDashboard.ALL_TIME_SLOTS.
Proof. repeat constructor. Qed.

Lemma student_click (st : StudentDashboard.State) (x y : Z) (s : Seat.t) :
  SeatMap.onClick (StudentDashboard.seatMapProps st)
    (SeatMap.renderCell (StudentDashboard.seatMapProps st) x y)
  = Some (SeatMap.onSeatClick s) ->
  Seat.isMaintenance s = false
  /\ existsb (streq (Seat.id s)) (StudentDashboard.activeSlotBookings st) = false.
Proof.
  intros Hclick.
  destruct (SeatMap.renderCell (StudentDashboard.seatMapProps st) x y)
    as [s' status sel click config|x' y'|] eqn:Hcell; simpl in Hclick;
    [|discriminate..].
  destruct click; [|discriminate]. injection Hclick as ->.
  apply renderCell_seat in Hcell as (_ & _ & _ & Hstatus & Hclickable).
  simpl in Hclickable. unfold SeatMap.getSeatStatus in Hstatus.
  destruct (Seat.isMaintenance s); [subst status; discriminate|].
  split; [reflexivity|].
  change (SeatMap.bookingsForSlot (StudentDashboard.seatMapProps st))
    with (StudentDashboard.activeSlotBookings st) in Hstatus.
  destruct (existsb _ _); [subst status; discriminate | reflexivity].
Qed.

(** X21. Booking a seat from the dashboard, against the offline store the
    dashboard has loaded: with a seat selected, the time that of a slot,
    and no ACTIVE booking of the user or of the seat in that slot,
    [handleBook] appends an ACTIVE booking of the seat for the user, from
    the slot's hour to the next, reloads, clears the selection and shows
    the success toast. From then on the map gives no click on a seat of
    that id in that slot, and a further request of the same student for
    the slot, on whatever seat, is turned down by the dashboard without
    touching the store. *)
Theorem handleBook_books_the_seat :
  forall (w : World) (user : User.t) (now now' : Z) (st : StudentDashboard.State)
         (seat : Seat.t) (slot : StudentDashboard.Slot),
    isOfflineMode w = true ->
    StudentDashboard.bookings st = stored_bookings w ->
    StudentDashboard.selectedSeat st = Some seat ->
    slot ∈ StudentDashboard.ALL_TIME_SLOTS ->
    StudentDashboard.selectedTime st = StudentDashboard.value slot ->
    (forall b, b ∈ stored_bookings w ->
               Booking.status b = ACTIVE ->
               Booking.date b = StudentDashboard.selectedDate st ->
               Booking.startTime b = StudentDashboard.selectedTime st ->
               Booking.userId b <> User.id user /\ Booking.seatId b <> Seat.id seat) ->
    exists st' w',
      StudentDashboard.handleBook user now now' st w = (Return st', w')
      /\ stored_bookings w' = stored_bookings w ++ [requested user seat slot now now' st]
      /\ StudentDashboard.bookings st' = stored_bookings w'
      /\ StudentDashboard.selectedSeat st' = None
      /\ StudentDashboard.toast st' = Some (js "Seat booked successfully!",
                                            StudentDashboard.success)
      /\ (forall s x y,
            Seat.id s = Seat.id seat ->
            SeatMap.onClick (StudentDashboard.seatMapProps st')
              (SeatMap.renderCell (StudentDashboard.seatMapProps st') x y)
            <> Some (SeatMap.onSeatClick s))
      /\ forall other n n',
           StudentDashboard.handleBook user n n'
             (StudentDashboard.setSelectedSeat (Some other) st') w'
           = (Return (StudentDashboard.showToast
                        "You already have a booking for this time slot."
                        StudentDashboard.error
                        (StudentDashboard.setSelectedSeat (Some other) st')), w').
Proof.
  intros w user now now' st seat slot Hoff Hsync Hseat Hslot Htime Hfree.
  set (new := requested user seat slot now now' st).
  pose proof ALL_TIME_SLOTS_values as Hvalues. rewrite Forall_forall in Hvalues.
  pose proof ALL_TIME_SLOTS_hour_later as Hlater. rewrite Forall_forall in Hlater.
  assert (existsb (StudentDashboard.holds user st) (StudentDashboard.bookings st)
          = false) as Hnoconflict.
  { apply not_true_is_false. intros Hex.
    apply existsb_exists in Hex as (b & Hin & Hholds).
    apply holds_spec in Hholds as [Hact [= Hu Hd Ht]].
    rewrite Hsync in Hin. apply list_elem_of_In in Hin.
    destruct (Hfree b Hin Hact Hd Ht) as [Hne _]. contradiction. }
  assert (existsb (occupies new) (stored_bookings w) = false) as Hnotaken.
  { apply not_true_is_false. intros Hex.
    apply occupied_spec in Hex as (b & Hin & Hact & [= Hs Hd Ht]).
    rewrite <- Htime in Ht.
    destruct (Hfree b Hin Hact Hd Ht) as [_ Hne]. contradiction. }
  set (w1 := set_localStorage
               (with_bookings (stored_bookings w ++ [new]) (localStorage w)) w).
  destruct (loadData_offline (StudentDashboard.setIsLoading true st) w1 Hoff)
    as (w2 & Hload & Hoff2 & Hstored2).
  assert (StudentDashboard.handleBook user now now' st w
          = (Return (StudentDashboard.setIsLoading false
                       (StudentDashboard.setSelectedSeat None
                          (StudentDashboard.showToast "Seat booked successfully!"
                             StudentDashboard.success
                             (StudentDashboard.setIsLoading false
                                (StudentDashboard.setBookings (stored_bookings w1)
                                   (StudentDashboard.setSeats (stored_seats w1)
                                      (StudentDashboard.setIsLoading true st))))))),
             w2)) as Hbook.
  { unfold StudentDashboard.handleBook. rewrite Hseat, !Htime, (Hvalues slot Hslot).
    cbn [negb]. cbn zeta. rewrite Hnoconflict, (Hlater slot Hslot).
    unfold mbind, Async_bind, try_catch.
    rewrite createBooking_falls_back by now left. cbn zeta.
    unfold new, requested in Hnotaken. rewrite Hnotaken.
    rewrite fallen_back_id by assumption.
    change (set_localStorage _ w) with w1.
    rewrite Hload. reflexivity. }
  eexists _, w2. split; [exact Hbook|].
  assert (stored_bookings w2 = stored_bookings w ++ [new]) as Hstored
    by (rewrite Hstored2; reflexivity).
  split; [exact Hstored|]. split; [now rewrite Hstored|].
  split; [reflexivity|]. split; [reflexivity|].
  match goal with |- (forall s x y, _ -> SeatMap.onClick (_ ?st1) _ <> _) /\ _ =>
    set (st' := st1) end.
  assert (StudentDashboard.bookings st' = stored_bookings w ++ [new]) as Hb' by reflexivity.
  assert (StudentDashboard.selectedDate st' = StudentDashboard.selectedDate st) as Hd'
    by reflexivity.
  assert (StudentDashboard.selectedTime st' = StudentDashboard.value slot) as Ht'
    by exact Htime.
  split.
  - intros s x y Hid Hclick. apply student_click in Hclick as [_ Hnot].
    apply not_true_iff_false in Hnot. apply Hnot.
    apply existsb_exists. exists (Seat.id seat).
    split; [|apply bool_decide_eq_true_2; exact Hid].
    unfold StudentDashboard.activeSlotBookings. rewrite Hb', Hd', Ht'.
    apply list_elem_of_In, list_elem_of_fmap. exists new. split; [reflexivity|].
    apply list_elem_of_In, filter_In. split; [apply in_or_app; right; now left|].
    unfold new, requested, streq. cbn.
    rewrite !bool_decide_eq_true_2 by reflexivity. reflexivity.
  - intros other n n'. unfold StudentDashboard.handleBook.
    change (StudentDashboard.selectedSeat (StudentDashboard.setSelectedSeat ?v _))
      with v. cbn iota.
    change (StudentDashboard.selectedTime (StudentDashboard.setSelectedSeat _ st'))
      with (StudentDashboard.selectedTime st').
    rewrite Ht', (Hvalues slot Hslot). cbn [negb]. cbn zeta.
    assert (existsb (StudentDashboard.holds user
                       (StudentDashboard.setSelectedSeat (Some other) st'))
              (StudentDashboard.bookings
                 (StudentDashboard.setSelectedSeat (Some other) st')) = true) as ->;
      [|reflexivity].
    apply existsb_exists. exists new. split.
    + change (In new (StudentDashboard.bookings st')). rewrite Hb'.
      apply in_or_app. right. now left.
    + apply holds_spec. split; [reflexivity|].
      change (StudentDashboard.selectedDate (StudentDashboard.setSelectedSeat _ st'))
        with (StudentDashboard.selectedDate st').
      change (StudentDashboard.selectedTime (StudentDashboard.setSelectedSeat _ st'))
        with (StudentDashboard.selectedTime st').
      rewrite Hd', Ht'. reflexivity.
Qed.

Lemma handleBook_books_the_seat_witness :
  exists st' w',
    StudentDashboard.handleBook DEMO_STUDENT 1715332000000 1715332000001
      Examples.john_picks_L2 Examples.offline_world = (Return st', w')
    /\ stored_bookings w'
       = [Examples.john_L1;
          requested DEMO_STUDENT Examples.seat_L2 (StudentDashboard.slot_of_index 3)
            1715332000000 1715332000001 Examples.john_picks_L2].
Proof.
  destruct (handleBook_books_the_seat Examples.offline_world DEMO_STUDENT
              1715332000000 1715332000001 Examples.john_picks_L2 Examples.seat_L2
              (StudentDashboard.slot_of_index 3))
    as (st' & w' & Hbook & Hstored & _).
  - reflexivity.
  - reflexivity.
  - reflexivity.
  - apply list_elem_of_fmap. exists 3%nat. split; [reflexivity|].
    apply list_elem_of_In, in_seq. lia.
  - reflexivity.
  - intros b Hb _ _ Htime. apply list_elem_of_singleton in Hb. subst b.
    discriminate Htime.
  - exists st', w'. split; [exact Hbook | exact Hstored].
Defined.

(** X22. Cancelling from the history, against the offline store the
    dashboard has loaded: a confirmed [handleCancel] sets the first booking
    of the given id to CANCELLED, at its position, reloads and shows the
    toast; the cancel button is not rendered for that record any more; and
    if it was ACTIVE, with ACTIVE bookings on distinct seats and slots, its
    seat is no longer among the seats booked in its slot, where it was
    before. A cancellation that is not confirmed does nothing. *)
Theorem handleCancel_frees_the_seat :
  forall (w : World) (st : StudentDashboard.State) (bookingId : jsstring)
         (index : nat) (b : Booking.t),
    isOfflineMode w = true ->
    StudentDashboard.bookings st = stored_bookings w ->
    list_find (fun b => Booking.id b = bookingId) (stored_bookings w)
    = Some (index, b) ->
    exists st' w',
      StudentDashboard.handleCancel bookingId true st w = (Return st', w')
      /\ stored_bookings w'
         = <[index := Booking.with_status CANCELLED b]> (stored_bookings w)
      /\ StudentDashboard.bookings st' = stored_bookings w'
      /\ StudentDashboard.toast st' = Some (js "Booking cancelled.",
                                            StudentDashboard.success)
      /\ StudentDashboard.canCancel (Booking.with_status CANCELLED b) = false
      /\ (Booking.status b = ACTIVE ->
          seat_slots_unique (stored_bookings w) ->
          StudentDashboard.selectedDate st = Booking.date b ->
          StudentDashboard.selectedTime st = Booking.startTime b ->
          Booking.seatId b ∈ StudentDashboard.activeSlotBookings st
          /\ Booking.seatId b ∉ StudentDashboard.activeSlotBookings st')
      /\ StudentDashboard.handleCancel bookingId false st w = (Return st, w).
Proof.
  intros w st bookingId index b Hoff Hsync Hfind.
  set (cancelled := <[index := Booking.with_status CANCELLED b]> (stored_bookings w)).
  set (w1 := set_localStorage (with_bookings cancelled (localStorage w)) w).
  destruct (loadData_offline (StudentDashboard.setIsLoading true st) w1 Hoff)
    as (w2 & Hload & Hoff2 & Hstored2).
  assert (StudentDashboard.handleCancel bookingId true st w
          = (Return (StudentDashboard.setIsLoading false
                       (StudentDashboard.showToast "Booking cancelled."
                          StudentDashboard.success
                          (StudentDashboard.setIsLoading false
                             (StudentDashboard.setBookings (stored_bookings w1)
                                (StudentDashboard.setSeats (stored_seats w1)
                                   (StudentDashboard.setIsLoading true st)))))),
             w2)) as Hcancel.
  { unfold StudentDashboard.handleCancel, mbind, Async_bind, try_catch.
    rewrite cancelBooking_falls_back by now left. cbn zeta.
    rewrite Hfind, fallen_back_id by assumption. fold cancelled. fold w1.
    rewrite Hload. reflexivity. }
  eexists _, w2. split; [exact Hcancel|].
  assert (stored_bookings w2 = cancelled) as Hstored by (rewrite Hstored2; reflexivity).
  split; [exact Hstored|]. split; [now rewrite Hstored|].
  split; [reflexivity|]. split; [reflexivity|]. split; [|reflexivity].
  intros Hact Huniq Hdate Htime.
  pose proof Hfind as Hfind'. apply list_find_Some in Hfind' as (Hlook & _ & _).
  unfold StudentDashboard.activeSlotBookings.
  cbn [StudentDashboard.bookings StudentDashboard.selectedDate
       StudentDashboard.selectedTime StudentDashboard.setIsLoading
       StudentDashboard.showToast StudentDashboard.setBookings
       StudentDashboard.setSeats].
  change (stored_bookings w1) with cancelled. rewrite Hsync, Hdate, Htime.
  split.
  - apply list_elem_of_fmap. exists b. split; [reflexivity|].
    apply list_elem_of_In, filter_In.
    split; [apply list_elem_of_In; eapply list_elem_of_lookup_2; eauto|].
    unfold streq. rewrite !bool_decide_eq_true_2 by auto. reflexivity.
  - intros Hin. apply list_elem_of_fmap in Hin as (a & Hseat & Ha).
    apply list_elem_of_In, filter_In in Ha as [Ha Hcond].
    apply andb_true_iff in Hcond as [Hcond Hacta].
    apply andb_true_iff in Hcond as [Hda Hta].
    apply bool_decide_eq_true_1 in Hacta, Hda, Hta.
    apply list_elem_of_In, list_elem_of_lookup in Ha as [j Hj].
    unfold cancelled in Hj. apply list_lookup_insert_Some in Hj
      as [(-> & <- & _) | (Hne & Hj)]; [discriminate Hacta|].
    apply (Huniq index j b a Hne Hlook Hj Hact Hacta).
    unfold slot_key. congruence.
Qed.

Lemma handleCancel_frees_the_seat_witness :
  exists st' w',
    StudentDashboard.handleCancel (js "bk-1715331600000") true Examples.john_picks_L2
      Examples.offline_world = (Return st', w')
    /\ stored_bookings w' = [Booking.with_status CANCELLED Examples.john_L1].
Proof.
  destruct (handleCancel_frees_the_seat Examples.offline_world Examples.john_picks_L2
              (js "bk-1715331600000") 0%nat Examples.john_L1)
    as (st' & w' & Hcancel & Hstored & _).
  - reflexivity.
  - reflexivity.
  - vm_compute. reflexivity.
  - exists st', w'. split; [exact Hcancel | exact Hstored].
Defined.

(** ** The layout editor: deleting a seat *)

Lemma find_deleted (i : jsstring) (seatId : jsstring) (l : list Seat.t) :
  seatId = i ->
  List.find (fun s => streq (Seat.id s) seatId)
    (List.filter (fun s => negb (streq (Seat.id s) i)) l) = None.
Proof.
  intros ->. induction l as [|s l IH]; [reflexivity|]. simpl.
  destruct (streq (Seat.id s) i) eqn:E; simpl; [exact IH|]. now rewrite E.
Qed.

(** X23. Deleting a seat leaves its bookings behind. A confirmed
    [handleDeleteSeat] that falls back to the local store removes from the
    layout every seat with the id of the selected one, keeps the others in
    order, saves the result and clears the selection, and does not touch
    the bookings; a booking of the deleted seat is from then on shown with
    the seat "Unknown", in the student's history as in the administrator's
    export. A deletion that is not confirmed does nothing. *)
Theorem handleDeleteSeat_orphans_bookings :
  forall (w : World) (st : AdminDashboard.State) (sel : Seat.t),
    AdminDashboard.selectedSeat st = Some sel ->
    let kept := List.filter (fun s => negb (streq (Seat.id s) (Seat.id sel)))
                  (AdminDashboard.seats st) in
    falls_back w (POST_seats kept) ->
    exists st' w',
      AdminDashboard.handleDeleteSeat true st w = (Return st', w')
      /\ AdminDashboard.seats st' = kept
      /\ AdminDashboard.selectedSeat st' = None
      /\ stored_seats w' = kept
      /\ stored_bookings w' = stored_bookings w
      /\ (forall (b : Booking.t) (student : StudentDashboard.State),
            Booking.seatId b = Seat.id sel ->
            AdminDashboard.fields st' b !! 4%nat = Some (js "Unknown")
            /\ exists student',
                 result (StudentDashboard.loadData student) w' = Return student'
                 /\ StudentDashboard.seatLabel student' b = js "Unknown")
      /\ AdminDashboard.handleDeleteSeat false st w = (Return st, w).
Proof.
  intros w st sel Hsel kept Hfb.
  unfold AdminDashboard.handleDeleteSeat. rewrite Hsel. cbn zeta. fold kept.
  rewrite saveSeats_then. unfold exec. rewrite saveSeats_falls_back by assumption.
  cbn [snd].
  set (w' := set_localStorage (with_seats kept (localStorage w))
               (fallen_back (POST_seats kept) w)).
  assert (isOfflineMode w' = true) as Hoff by (simpl; apply fallen_back_offline).
  eexists _, w'. split; [reflexivity|].
  split; [reflexivity|]. split; [reflexivity|]. split; [reflexivity|].
  split; [|split; [|reflexivity]].
  - unfold stored_bookings, w'.
    cbn [localStorage set_localStorage with_seats libbook_bookings]. reflexivity.
  - intros b student Hb. split.
    + unfold AdminDashboard.fields. cbn zeta. cbn [lookup list_lookup].
      change (AdminDashboard.seats (AdminDashboard.setSelectedSeat None
                                      (AdminDashboard.setSeats kept st))) with kept.
      unfold kept. now rewrite find_deleted.
    + destruct (loadData_offline student w' Hoff) as (w'' & Hload & _).
      eexists. unfold result. rewrite Hload. split; [reflexivity|].
      unfold StudentDashboard.seatLabel.
      change (StudentDashboard.seats _) with (stored_seats w').
      change (stored_seats w') with kept. unfold kept. now rewrite find_deleted.
Qed.

Lemma handleDeleteSeat_orphans_bookings_witness :
  exists st' w',
    AdminDashboard.handleDeleteSeat true Examples.editor_on_L2 Examples.offline_world
    = (Return st', w')
    /\ stored_bookings w' = [Examples.john_L1]
    /\ forall s, s ∈ stored_seats w' -> Seat.id s <> js "s-l2".
Proof.
  destruct (handleDeleteSeat_orphans_bookings Examples.offline_world
              Examples.editor_on_L2 Examples.seat_L2)
    as (st' & w' & Hdelete & _ & _ & Hseats & Hbookings & _).
  - reflexivity.
  - left. reflexivity.
  - exists st', w'. split; [exact Hdelete|]. split; [exact Hbookings|].
    rewrite Hseats. apply Forall_forall. apply (bool_decide_unpack _).
    vm_compute. exact I.
Defined.

(** ** The administrator's export *)

Lemma lt_irrefl (a : jsstring) : lt a a = false.
Proof. induction a as [|x a IH]; [reflexivity|]. simpl. now rewrite N.ltb_irrefl. Qed.

Lemma lt_total (a b : jsstring) : lt a b = false -> lt b a = false -> a = b.
Proof.
  revert b. induction a as [|x a IH]; intros [|y b]; simpl; try discriminate; auto.
  destruct (N.ltb_spec x y), (N.ltb_spec y x); try discriminate; try lia.
  intros Hab Hba. assert (x = y) as -> by lia. f_equal. now apply IH.
Qed.

Lemma lt_between (a b c : jsstring) :
  lt b a = false -> lt c b = false -> lt c a = false.
Proof.
  revert b c. induction a as [|x a IH]; intros [|y b] [|z c]; simpl; auto;
    try discriminate.
  destruct (N.ltb_spec y x), (N.ltb_spec x y), (N.ltb_spec z y), (N.ltb_spec y z),
    (N.ltb_spec z x), (N.ltb_spec x z); try discriminate; try lia; auto.
  apply IH.
Qed.

(** X24. The export keeps the bookings whose date is, as a string,
    neither before the start nor after the end of the range. So a range
    whose end is before its start exports nothing and raises the alert,
    whatever the bookings; the alert is raised exactly when every booking is
    before the start or after the end; and a range of one day downloads
    the header line followed by one line for each booking of that day, in
    the order of the collection and whatever its status. *)
Theorem handleExportData_range :
  forall (startDate endDate : jsstring) (st : AdminDashboard.State),
    (lt endDate startDate = true ->
     AdminDashboard.handleExportData startDate endDate st
     = AdminDashboard.alert (js "No bookings found in the selected date range."))
    /\ (AdminDashboard.handleExportData startDate endDate st
        = AdminDashboard.alert (js "No bookings found in the selected date range.")
        <-> forall b, b ∈ AdminDashboard.bookings st ->
                      lt (Booking.date b) startDate = true
                      \/ lt endDate (Booking.date b) = true)
    /\ ((exists b, b ∈ AdminDashboard.bookings st /\ Booking.date b = startDate) ->
        AdminDashboard.handleExportData startDate startDate st
        = AdminDashboard.download
            (js "library_bookings_" ++ startDate ++ js "_to_" ++ startDate ++ js ".csv")
            (join [10%N]
               (join (js ",") AdminDashboard.headers
                :: ((fun b => join (js ",")
                                (AdminDashboard.quoted <$> AdminDashboard.fields st b))
                      <$> List.filter (fun b => streq (Booking.date b) startDate)
                            (AdminDashboard.bookings st))))).
Proof.
  intros startDate endDate st.
  assert (AdminDashboard.handleExportData startDate endDate st
          = AdminDashboard.alert (js "No bookings found in the selected date range.")
          <-> forall b, b ∈ AdminDashboard.bookings st ->
                        lt (Booking.date b) startDate = true
                        \/ lt endDate (Booking.date b) = true) as Hiff.
  { unfold AdminDashboard.handleExportData. cbn zeta.
    destruct (List.filter _ _) as [|b0 l] eqn:Hfilter.
    - split; [intros _ | reflexivity]. intros b Hb.
      destruct (lt (Booking.date b) startDate) eqn:H1; [now left | right].
      destruct (lt endDate (Booking.date b)) eqn:H2; [reflexivity | exfalso].
      assert (In b []) as []. rewrite <- Hfilter.
      apply filter_In. split; [now apply list_elem_of_In|].
      unfold ge, le. now rewrite H1, H2.
    - split; [discriminate|]. intros Hall. exfalso.
      assert (In b0 (b0 :: l)) as Hin by now left.
      rewrite <- Hfilter in Hin. apply filter_In in Hin as [Hin Hrange].
      apply list_elem_of_In in Hin. unfold ge, le in Hrange.
      destruct (Hall b0 Hin) as [H | H]; rewrite H in Hrange;
        [discriminate | now destruct (lt _ _)]. }
  split; [|split; [exact Hiff|]].
  - intros Hinverted. apply Hiff. intros b _.
    destruct (lt (Booking.date b) startDate) eqn:H1; [now left | right].
    destruct (lt endDate (Booking.date b)) eqn:H2; [reflexivity | exfalso].
    rewrite (lt_between startDate (Booking.date b) endDate H1 H2) in Hinverted.
    discriminate.
  - intros (b & Hb & Hdate). unfold AdminDashboard.handleExportData. cbn zeta.
    assert (List.filter (fun b => ge (Booking.date b) startDate
                                  && le (Booking.date b) startDate)
              (AdminDashboard.bookings st)
            = List.filter (fun b => streq (Booking.date b) startDate)
                (AdminDashboard.bookings st)) as ->.
    { apply filter_ext. intros a. unfold ge, le, streq.
      destruct (bool_decide_reflect (Booking.date a = startDate)) as [-> | Hne].
      - now rewrite lt_irrefl.
      - destruct (lt (Booking.date a) startDate) eqn:H1; [reflexivity|].
        destruct (lt startDate (Booking.date a)) eqn:H2; [reflexivity|].
        elim Hne. now apply lt_total. }
    destruct (List.filter _ _) as [|b0 l] eqn:Hfilter; [exfalso | reflexivity].
    assert (In b []) as []. rewrite <- Hfilter.
    apply filter_In. split; [now apply list_elem_of_In|].
    now apply bool_decide_eq_true_2.
Qed.

Lemma handleExportData_range_witness :
  AdminDashboard.handleExportData (js "2024-05-12") (js "2024-05-10") Examples.editor
  = AdminDashboard.alert (js "No bookings found in the selected date range.").
Proof.
  destruct (handleExportData_range (js "2024-05-12") (js "2024-05-10") Examples.editor)
    as [Hinverted _].
  apply Hinverted. reflexivity.
Defined.

(** ** The chat widget *)

Lemma alternating_turn (l : list ChatWidget.Message) (question answer : jsstring) :
  Nat.odd (length l) = true -> alternating l ->
  alternating (l ++ [{| ChatWidget.role := ChatWidget.user; ChatWidget.text := question |}]
                 ++ [{| ChatWidget.role := ChatWidget.model; ChatWidget.text := answer |}]).
Proof.
  intros Hodd Halt i m Hi.
  apply lookup_app_Some in Hi as [Hi | [Hge Hi]]; [now apply Halt|].
  assert (Nat.even (length l) = false) as Heven
    by (rewrite <- Nat.negb_odd, Hodd; reflexivity).
  destruct (i - length l)%nat as [|[|k]] eqn:Hk; simpl in Hi; try discriminate.
  - injection Hi as <-. replace i with (length l) by lia. now rewrite Heven.
  - injection Hi as <-. replace i with (S (length l)) by lia.
    now rewrite Nat.even_succ, Hodd.
Qed.

(** X25. A conversation with the librarian. Whatever the visitor types
    and whatever the service answers or fails to answer, after any number
    of turns the widget is not waiting, the list of messages starts with
    the librarian's greeting and alternates between the librarian and the
    visitor, ending with the librarian, and no message of the visitor is
    empty: a blank input is not sent, and a failure of the service is
    answered in its place. *)
Theorem conversation_alternates :
  forall (bot : jsstring -> list ChatWidget.Message -> option jsstring)
         (turns : list jsstring),
    let st := conversation bot turns in
    ChatWidget.isLoading st = false
    /\ Nat.odd (length (ChatWidget.messages st)) = true
    /\ (length (ChatWidget.messages st) <= 1 + 2 * length turns)%nat
    /\ alternating (ChatWidget.messages st)
    /\ ChatWidget.messages st !! 0%nat
       = Some {| ChatWidget.role := ChatWidget.model;
                 ChatWidget.text :=
                   js "Hello! I am the AI Librarian. How can I help you today?" |}
    /\ forall m, m ∈ ChatWidget.messages st ->
                 ChatWidget.role m = ChatWidget.user -> ChatWidget.text m <> [].
Proof.
  intros bot turns. unfold conversation.
  set (Inv := fun (n : nat) (st : ChatWidget.State) =>
                ChatWidget.isLoading st = false
                /\ Nat.odd (length (ChatWidget.messages st)) = true
                /\ (length (ChatWidget.messages st) <= 1 + 2 * n)%nat
                /\ alternating (ChatWidget.messages st)
                /\ ChatWidget.messages st !! 0%nat
                   = Some {| ChatWidget.role := ChatWidget.model;
                             ChatWidget.text :=
                               js "Hello! I am the AI Librarian. How can I help you today?" |}
                /\ forall m, m ∈ ChatWidget.messages st ->
                             ChatWidget.role m = ChatWidget.user ->
                             ChatWidget.text m <> []).
  assert (forall n st typed, Inv n st -> Inv (S n) (type_and_send bot typed st)) as Hstep.
  { intros n st typed (Hload & Hodd & Hlen & Halt & Hfirst & Huser).
    unfold type_and_send, ChatWidget.handleSend.
    cbn [ChatWidget.input ChatWidget.isLoading ChatWidget.messages ChatWidget.isOpen].
    rewrite Hload, orb_false_r.
    destruct (truthy (trim typed)) eqn:Htyped; cbn [negb].
    - cbn zeta. split; [reflexivity|]. cbn [ChatWidget.messages]. split; [|split; [|split; [|split]]].
      + rewrite !length_app. simpl.
        replace (length (ChatWidget.messages st) + 2)%nat
          with (S (S (length (ChatWidget.messages st)))) by lia.
        now rewrite Nat.odd_succ, Nat.even_succ.
      + rewrite !length_app. simpl. lia.
      + now apply alternating_turn.
      + rewrite lookup_app_l; [exact Hfirst|].
        apply lookup_lt_Some in Hfirst. exact Hfirst.
      + intros m Hm Hrole. apply elem_of_app in Hm as [Hm | Hm]; [now apply Huser|].
        apply elem_of_cons in Hm as [-> | Hm].
        * simpl. intros Hnil. now rewrite Hnil in Htyped.
        * apply list_elem_of_singleton in Hm. subst m. discriminate Hrole.
    - split; [reflexivity|]. cbn [ChatWidget.messages].
      split; [exact Hodd|]. split; [lia|]. split; [exact Halt|].
      split; [exact Hfirst | exact Huser]. }
  assert (forall l n st, Inv n st ->
                         Inv (n + length l)%nat
                           (fold_left (fun st typed => type_and_send bot typed st) l st))
    as Hall.
  { induction l as [|typed l IH]; intros n st Hinv; simpl.
    - now rewrite Nat.add_0_r.
    - replace (n + S (length l))%nat with (S n + length l)%nat by lia.
      apply IH, Hstep, Hinv. }
  destruct (Hall turns 0%nat ChatWidget.initial) as (H1 & H2 & H3 & H4 & H5 & H6).
  { unfold Inv. simpl. repeat split; try lia.
    - intros [|i] m Hi; simpl in Hi; [|discriminate]. now injection Hi as <-.
    - intros m Hm Hrole. apply list_elem_of_singleton in Hm. subst m. discriminate. }
  split; [exact H1|]. split; [exact H2|]. split; [exact H3|].
  split; [exact H4|]. split; [exact H5 | exact H6].
Qed.

(** ** The administrator's overview *)

Lemma recentActivity_lookup (st : AdminDashboard.State) (i : nat) :
  (i < 5)%nat -> (i < length (AdminDashboard.bookings st))%nat ->
  AdminDashboard.recentActivity st !! i
  = AdminDashboard.bookings st !! (length (AdminDashboard.bookings st) - 1 - i)%nat.
Proof.
  intros H5 Hlen. unfold AdminDashboard.recentActivity, slice_last.
  rewrite rev_alt. change (rev_append ?l []) with (reverse l).
  rewrite reverse_lookup by (rewrite length_drop; lia).
  rewrite lookup_drop, length_drop. f_equal. lia.
Qed.

(** X26. "Recent Activity" goes by position, not by time: it lists the
    last five records of the bookings collection (all of them when there
    are fewer), the last one first. Since a cancellation rewrites a record
    where it stands, the cancellation of a booking that is not among the
    last five leaves the list as it was once the dashboard has refreshed. *)
Theorem recentActivity_by_position :
  forall (st : AdminDashboard.State),
    length (AdminDashboard.recentActivity st)
    = Nat.min 5 (length (AdminDashboard.bookings st))
    /\ (forall i, (i < 5)%nat -> (i < length (AdminDashboard.bookings st))%nat ->
                  AdminDashboard.recentActivity st !! i
                  = AdminDashboard.bookings st
                    !! (length (AdminDashboard.bookings st) - 1 - i)%nat)
    /\ forall (w : World) (bookingId : jsstring) (index : nat) (b : Booking.t),
         isOfflineMode w = true ->
         AdminDashboard.bookings st = stored_bookings w ->
         list_find (fun b => Booking.id b = bookingId) (stored_bookings w)
         = Some (index, b) ->
         (index + 5 < length (stored_bookings w))%nat ->
         exists st',
           result (AdminDashboard.refreshData st) (exec (cancelBooking bookingId) w)
           = Return st'
           /\ AdminDashboard.bookings st'
              = <[index := Booking.with_status CANCELLED b]> (stored_bookings w)
           /\ AdminDashboard.recentActivity st' = AdminDashboard.recentActivity st.
Proof.
  intros st. split; [|split].
  - unfold AdminDashboard.recentActivity, slice_last.
    rewrite length_rev, length_drop. lia.
  - apply recentActivity_lookup.
  - intros w bookingId index b Hoff Hsync Hfind Hold.
    assert (exec (cancelBooking bookingId) w
            = set_localStorage
                (with_bookings
                   (<[index := Booking.with_status CANCELLED b]> (stored_bookings w))
                   (localStorage w)) w) as Hcancel.
    { unfold exec. rewrite cancelBooking_falls_back by now left. cbn zeta.
      rewrite Hfind, fallen_back_id by assumption. reflexivity. }
    rewrite Hcancel.
    match goal with |- context [result (AdminDashboard.refreshData st) ?w1] =>
      destruct (refreshData_offline st w1 Hoff) as (w2 & Heq & _) end.
    eexists. unfold result. rewrite Heq. split; [reflexivity|].
    split; [reflexivity|].
    unfold AdminDashboard.recentActivity, slice_last. cbn [AdminDashboard.bookings].
    change (stored_bookings (set_localStorage (with_bookings ?l _) _)) with l.
    rewrite Hsync, length_insert, drop_insert_lt by lia. reflexivity.
Qed.
